(** * A travel-itinerary manager: shallow embedding of [aichatbot.py]

    The program keeps a list of [Destination] objects inside an
    [ItineraryManager], lets an interactive front end add, remove, update
    and search them, and stores them as JSON.  Python objects are mutable
    and dynamically typed, so the embedding has
    - a universe [value] of the Python values that can reach the program,
    - a heap of [Destination] instances addressed by identity,
    - a state-and-exception monad [M] for the methods.

    Strings are byte strings: the model covers ASCII text, on which
    [str.lower], [str.strip] and the digits of [datetime.strptime] are the
    functions below.  An exception carries its class and a message; the
    messages of the exceptions raised by built-ins are abbreviated.  What
    [print] writes is kept, the text of a built-in conversion symbolically.

    The definitions come first: the built-in types, the two classes, the
    functions of the front end, then the vocabulary of the properties.
    The assistant that calls the text-generation service, the listing and
    the menu loop take no part in the properties and are left out. *)

From Stdlib Require Import ZArith String Ascii List Bool Lia.
From Stdlib Require Import SpecFloat.
From stdpp Require Import base option list strings gmap.

Local Open Scope string_scope.
Local Open Scope list_scope.
Local Open Scope Z_scope.

(** ** Python [str] *)

Module Str.

Definition code (c : ascii) : Z := Z.of_nat (nat_of_ascii c).

Definition is_upper (c : ascii) : bool := (65 <=? code c) && (code c <=? 90).

Definition lower_char (c : ascii) : ascii :=
  if is_upper c then ascii_of_nat (nat_of_ascii c + 32) else c.

(** [s.lower()] *)
Fixpoint lower (s : string) : string :=
  match s with
  | EmptyString => EmptyString
  | String c r => String (lower_char c) (lower r)
  end.

(** [p] is a prefix of [t] *)
Fixpoint startswith (p t : string) : bool :=
  match p, t with
  | EmptyString, _ => true
  | String a p', String b t' => if Ascii.eqb a b then startswith p' t' else false
  | String _ _, EmptyString => false
  end.

(** [s in t] on two strings: [s] occurs in [t] as a contiguous run *)
Fixpoint contains (s t : string) : bool :=
  startswith s t ||
  match t with
  | EmptyString => false
  | String _ t' => contains s t'
  end.

(** The characters [str.strip] removes (the ASCII ones). *)
Definition is_space (c : ascii) : bool :=
  ((9 <=? code c) && (code c <=? 13)) || ((28 <=? code c) && (code c <=? 32)).

Fixpoint lstrip (s : string) : string :=
  match s with
  | EmptyString => EmptyString
  | String c r => if is_space c then lstrip r else s
  end.

Fixpoint rstrip (s : string) : string :=
  match s with
  | EmptyString => EmptyString
  | String c r =>
      match rstrip r with
      | EmptyString => if is_space c then EmptyString else String c EmptyString
      | r' => String c r'
      end
  end.

(** [s.strip()] *)
Definition strip (s : string) : string := rstrip (lstrip s).

(** [s.split(",")]: the pieces between commas, never an empty list *)
Fixpoint split_comma (s : string) : list string :=
  match s with
  | EmptyString => [EmptyString]
  | String c r =>
      if Ascii.eqb c ","%char then EmptyString :: split_comma r
      else match split_comma r with
           | [] => [String c EmptyString]
           | p :: ps => String c p :: ps
           end
  end.

(** Truth value of a string: [bool(s)] *)
Definition truthy (s : string) : bool :=
  match s with EmptyString => false | _ => true end.

(** The newline character, as a string *)
Definition nl : string := String (ascii_of_nat 10) EmptyString.

Definition digit_char (n : Z) : ascii := ascii_of_nat (48 + Z.to_nat n).

Definition digit_val (c : ascii) : option Z :=
  if (48 <=? code c) && (code c <=? 57) then Some (code c - 48) else None.

(** [sep.join(l)] on a list of strings *)
Fixpoint join (sep : string) (l : list string) : string :=
  match l with
  | [] => EmptyString
  | [x] => x
  | x :: r => x +:+ sep +:+ join sep r
  end.

End Str.

(** ** [datetime] *)

Record datetime := mk_datetime {
  year : Z; month : Z; day : Z;
  hour : Z; minute : Z; second : Z; microsecond : Z
}.

Module Date.
Import Str.

Definition is_leap (y : Z) : bool :=
  (y mod 4 =? 0) && (negb (y mod 100 =? 0) || (y mod 400 =? 0)).

Definition days_in_month (y m : Z) : Z :=
  if m =? 2 then (if is_leap y then 29 else 28)
  else if (m =? 4) || (m =? 6) || (m =? 9) || (m =? 11) then 30
  else 31.

(** The arguments the [datetime] constructor accepts; anything else is a
    [ValueError]. *)
Definition valid_ymd (y m d : Z) : bool :=
  (1 <=? y) && (y <=? 9999) && (1 <=? m) && (m <=? 12) &&
  (1 <=? d) && (d <=? days_in_month y m).

Definition valid (dt : datetime) : bool :=
  valid_ymd (year dt) (month dt) (day dt) &&
  (0 <=? hour dt) && (hour dt <=? 23) &&
  (0 <=? minute dt) && (minute dt <=? 59) &&
  (0 <=? second dt) && (second dt <=? 59) &&
  (0 <=? microsecond dt) && (microsecond dt <=? 999999).

(** A date at midnight, which is what [strptime] with [DATE_FMT] builds. *)
Definition midnight (y m d : Z) : datetime := mk_datetime y m d 0 0 0 0.

Definition no_time (dt : datetime) : bool :=
  (hour dt =? 0) && (minute dt =? 0) && (second dt =? 0) && (microsecond dt =? 0).

Definition pad2 (n : Z) : string :=
  String (digit_char (n / 10)) (String (digit_char (n mod 10)) EmptyString).

Definition pad4 (n : Z) : string :=
  String (digit_char (n / 1000)) (String (digit_char (n / 100 mod 10)) (pad2 (n mod 100))).

(** [dt.date().isoformat()], which is also [str(dt.date())]: the year is
    always written with four digits. *)
Definition isoformat (dt : datetime) : string :=
  pad4 (year dt) +:+ "-" +:+ pad2 (month dt) +:+ "-" +:+ pad2 (day dt).

(** [%Y] as the C library prints it for [strftime]: the year in decimal
    with no padding, so with fewer than four digits below 1000 (CPython
    3.11 and 3.12 on glibc).  The years of a [datetime] are 1 to 9999. *)
Definition year_text (y : Z) : string :=
  if y <? 10 then String (digit_char y) EmptyString
  else if y <? 100 then pad2 y
  else if y <? 1000 then String (digit_char (y / 100)) (pad2 (y mod 100))
  else pad4 y.

(** [dt.strftime("%Y-%m-%d")] *)
Definition strftime (dt : datetime) : string :=
  year_text (year dt) +:+ "-" +:+ pad2 (month dt) +:+ "-" +:+ pad2 (day dt).

(** [%Y] is [\d\d\d\d]. *)
Definition parse_year (s : string) : option (Z * string) :=
  match s with
  | String a (String b (String c (String d r))) =>
      match digit_val a, digit_val b, digit_val c, digit_val d with
      | Some a, Some b, Some c, Some d => Some (1000 * a + 100 * b + 10 * c + d, r)
      | _, _, _, _ => None
      end
  | _ => None
  end.

Definition expect_dash (s : string) : option string :=
  match s with
  | String c r => if Ascii.eqb c "-"%char then Some r else None
  | EmptyString => None
  end.

(** [%m] is [1[0-2]|0[1-9]|[1-9]]; the alternatives are tried in that
    order and one is kept only if the dash of the format follows. *)
Definition parse_month (s : string) : option (Z * string) :=
  let two :=
    match s with
    | String a (String b r) =>
        match digit_val a, digit_val b with
        | Some 1, Some b => if b <=? 2 then Some (10 + b, r) else None
        | Some 0, Some b => if 1 <=? b then Some (b, r) else None
        | _, _ => None
        end
    | _ => None
    end in
  let one :=
    match s with
    | String a r =>
        match digit_val a with
        | Some a => if 1 <=? a then Some (a, r) else None
        | None => None
        end
    | EmptyString => None
    end in
  match two with
  | Some (m, r) =>
      match expect_dash r with
      | Some r' => Some (m, r')
      | None => match one with
                | Some (m, r) => option_map (pair m) (expect_dash r)
                | None => None
                end
      end
  | None => match one with
            | Some (m, r) => option_map (pair m) (expect_dash r)
            | None => None
            end
  end.

(** [%d] is [3[0-1]|[1-2]\d|0[1-9]|[1-9]| [1-9]]: the first alternative
    that matches is taken, and whatever it leaves over is "unconverted
    data", a [ValueError]. *)
Definition parse_day (s : string) : option Z :=
  let two :=
    match s with
    | String a (String b r) =>
        match digit_val a, digit_val b with
        | Some 3, Some b => if b <=? 1 then Some (30 + b, r) else None
        | Some 1, Some b => Some (10 + b, r)
        | Some 2, Some b => Some (20 + b, r)
        | Some 0, Some b => if 1 <=? b then Some (b, r) else None
        | _, _ => None
        end
    | _ => None
    end in
  let one :=
    match s with
    | String a r =>
        match digit_val a with
        | Some a => if 1 <=? a then Some (a, r) else None
        | None => None
        end
    | EmptyString => None
    end in
  let blank :=
    match s with
    | String a (String b r) =>
        if Ascii.eqb a " "%char then
          match digit_val b with
          | Some b => if 1 <=? b then Some (b, r) else None
          | None => None
          end
        else None
    | _ => None
    end in
  let first :=
    match two with
    | Some x => Some x
    | None => match one with Some x => Some x | None => blank end
    end in
  match first with
  | Some (d, EmptyString) => Some d
  | _ => None
  end.

(** [datetime.strptime(s, "%Y-%m-%d")]; [None] is its [ValueError]. *)
Definition strptime (s : string) : option datetime :=
  match parse_year s with
  | Some (y, r) =>
      match expect_dash r with
      | Some r =>
          match parse_month r with
          | Some (m, r) =>
              match parse_day r with
              | Some d => if valid_ymd y m d then Some (midnight y m d) else None
              | None => None
              end
          | None => None
          end
      | None => None
      end
  | None => None
  end.

Definition key (dt : datetime) : list Z :=
  [year dt; month dt; day dt; hour dt; minute dt; second dt; microsecond dt].

Fixpoint lex_lt (a b : list Z) : bool :=
  match a, b with
  | x :: a', y :: b' => (x <? y) || ((x =? y) && lex_lt a' b')
  | [], _ :: _ => true
  | _, [] => false
  end.

(** [a > b] on two naive datetimes *)
Definition gt (a b : datetime) : bool := lex_lt (key b) (key a).

End Date.

(** ** [float]: IEEE 754 binary64, as [spec_float] *)

Module Float.
Import Str.

Definition prec : Z := 53.
Definition emax : Z := 1024.

Definition zero : spec_float := S754_zero false.

(** [a <= b]; false as soon as one side is a NaN *)
Definition le (a b : spec_float) : bool := SFleb a b.
Definition lt (a b : spec_float) : bool := SFltb a b.

(** The binary64 nearest to [m * 10^k] (ties to even), signed by [neg]. *)
Definition of_decimal (neg : bool) (m k : Z) : spec_float :=
  match m with
  | Zpos p =>
      if 0 <=? k then binary_round prec emax neg (Z.to_pos (m * 10 ^ k)) 0
      else
        let '(q, e, l) := SFdiv_core_binary prec emax m 0 (10 ^ (- k)) 0 in
        binary_round_aux prec emax neg q e l
  | _ => S754_zero neg
  end.

(** [float(n)] on an [int]; [None] is the [OverflowError]. *)
Definition of_int (n : Z) : option spec_float :=
  match binary_normalize prec emax n 0 false with
  | S754_infinity _ => None
  | f => Some f
  end.

Fixpoint span_digits (s : string) : list Z * string :=
  match s with
  | String c r =>
      match digit_val c with
      | Some d => let '(ds, r') := span_digits r in (d :: ds, r')
      | None => ([], s)
      end
  | EmptyString => ([], s)
  end.

Definition number (ds : list Z) : Z := fold_left (fun a d => 10 * a + d) ds 0.

Definition is_digit (c : ascii) : bool :=
  match digit_val c with Some _ => true | None => false end.

(** Underscores may only stand between two digits. *)
Fixpoint drop_underscores (prev : option ascii) (s : string) : option string :=
  match s with
  | EmptyString =>
      match prev with
      | Some p => if Ascii.eqb p "_"%char then None else Some EmptyString
      | None => Some EmptyString
      end
  | String c r =>
      if Ascii.eqb c "_"%char then
        match prev with
        | Some p => if is_digit p then drop_underscores (Some c) r else None
        | None => None
        end
      else
        match prev with
        | Some p =>
            if Ascii.eqb p "_"%char && negb (is_digit c) then None
            else option_map (String c) (drop_underscores (Some c) r)
        | None => option_map (String c) (drop_underscores (Some c) r)
        end
  end.

(** The blanks [float] skips around an ASCII string. *)
Definition is_blank (c : ascii) : bool :=
  ((9 <=? code c) && (code c <=? 13)) || (code c =? 32).

Fixpoint lskip (s : string) : string :=
  match s with
  | EmptyString => EmptyString
  | String c r => if is_blank c then lskip r else s
  end.

Fixpoint rskip (s : string) : string :=
  match s with
  | EmptyString => EmptyString
  | String c r =>
      match rskip r with
      | EmptyString => if is_blank c then EmptyString else String c EmptyString
      | r' => String c r'
      end
  end.

Definition sign (s : string) : bool * string :=
  match s with
  | String c r =>
      if Ascii.eqb c "-"%char then (true, r)
      else if Ascii.eqb c "+"%char then (false, r)
      else (false, s)
  | EmptyString => (false, s)
  end.

(** [[eE][+-]?[0-9]+] then the end of the string *)
Definition exponent (s : string) : option Z :=
  match s with
  | EmptyString => Some 0
  | String c r =>
      if Ascii.eqb (lower_char c) "e"%char then
        let '(neg, r) := sign r in
        match span_digits r with
        | (d :: ds, EmptyString) =>
            Some (if neg then - number (d :: ds) else number (d :: ds))
        | _ => None
        end
      else None
  end.

Definition decimal (neg : bool) (s : string) : option spec_float :=
  let '(ip, r) := span_digits s in
  let '(fp, r) :=
    match r with
    | String c r' => if Ascii.eqb c "."%char then span_digits r' else ([], r)
    | EmptyString => ([], r)
    end in
  match ip ++ fp with
  | [] => None
  | ds =>
      match exponent r with
      | Some e => Some (of_decimal neg (number ds) (e - Z.of_nat (length fp)))
      | None => None
      end
  end.

(** [float(s)] on a string; [None] is its [ValueError]. *)
Definition of_string (s : string) : option spec_float :=
  match drop_underscores None s with
  | None => None
  | Some s =>
      let '(neg, body) := sign (rskip (lskip s)) in
      let w := lower body in
      if String.eqb w "inf" || String.eqb w "infinity" then Some (S754_infinity neg)
      else if String.eqb w "nan" then Some S754_nan
      else decimal neg body
  end.

End Float.

(** ** Values, exceptions, output *)

(** The Python values that reach the program: what [json.load] returns,
    the strings and numbers the front end builds, and [datetime]. *)
#[warnings="-register-all"] Inductive value : Type :=
| VNone
| VBool (b : bool)
| VInt (n : Z)
| VFloat (f : spec_float)
| VStr (s : string)
| VList (l : list value)
| VDict (kv : list (string * value))
| VDatetime (dt : datetime).

Inductive exn_class :=
| Exception | AttributeError | TypeError | ValueError | KeyError
| OverflowError | OSError | JSONDecodeError | UnicodeDecodeError | EOFError.

Inductive exn := Exn (cls : exn_class) (msg : string).

Definition exn_class_eqb (a b : exn_class) : bool :=
  match a, b with
  | Exception, Exception | AttributeError, AttributeError | TypeError, TypeError
  | ValueError, ValueError | KeyError, KeyError | OverflowError, OverflowError
  | OSError, OSError | JSONDecodeError, JSONDecodeError
  | UnicodeDecodeError, UnicodeDecodeError | EOFError, EOFError => true
  | _, _ => false
  end.

(** The direct base class in Python's exception hierarchy. *)
Definition base_class (c : exn_class) : option exn_class :=
  match c with
  | Exception => None
  | JSONDecodeError | UnicodeDecodeError => Some ValueError
  | _ => Some Exception
  end.

(** [issubclass(c, handler)]; [IOError] is [OSError]. *)
Definition issubclass (c handler : exn_class) : bool :=
  exn_class_eqb c handler ||
  match base_class c with
  | Some b => exn_class_eqb b handler ||
              match base_class b with
              | Some b' => exn_class_eqb b' handler
              | None => false
              end
  | None => false
  end.

Definition caught_by (handlers : list exn_class) (e : exn) : bool :=
  let 'Exn c _ := e in existsb (issubclass c) handlers.

(** Printed text.  What a built-in conversion renders is kept symbolic:
    [StrOf v] is [str(v)], [Fixed2 v] is [format(v, ".2f")], [ExnText e]
    is [str(e)]. *)
Inductive item :=
| Text (s : string)
| StrOf (v : value)
| Fixed2 (v : value)
| ExnText (e : exn).

Definition text := list item.

(** ** The store and the monad of the methods *)

Definition addr := nat.

(** The instance dictionary of an object: attribute name to value. *)
Abbreviation obj := (gmap string value).

(** What opening and [json.load]-ing a file that exists comes to. *)
Inductive file :=
| Unreadable                (* [open] or the read raises an [OSError] *)
| Undecodable               (* not UTF-8: [UnicodeDecodeError] *)
| Malformed (msg : string)  (* not JSON: [json.JSONDecodeError] *)
| Json (v : value).         (* the parsed document *)

Record state := mk_state {
  heap : gmap addr obj;         (* the [Destination] instances *)
  next : addr;                  (* the next fresh identity *)
  destinations : list addr;     (* [manager.destinations] *)
  files : gmap string file;     (* the files that exist, by path *)
  stdin : list string;          (* the lines [input] will read *)
  stdout : list text            (* what was written, oldest first *)
}.

Inductive outcome (A : Type) :=
| Return (a : A)
| Raise (e : exn).
Arguments Return {A} a.
Arguments Raise {A} e.

Definition M (A : Type) : Type := state -> outcome A * state.

Definition ret {A} (a : A) : M A := fun st => (Return a, st).

Definition raise {A} (e : exn) : M A := fun st => (Raise e, st).

Definition bind {A B} (c : M A) (k : A -> M B) : M B :=
  fun st =>
    match c st with
    | (Return a, st') => k a st'
    | (Raise e, st') => (Raise e, st')
    end.

(** [try: c  except handlers as e: h e] *)
Definition try_except {A} (c : M A) (handlers : list exn_class) (h : exn -> M A) : M A :=
  fun st =>
    match c st with
    | (Raise e, st') => if caught_by handlers e then h e st' else (Raise e, st')
    | r => r
    end.

(** A computation that cannot touch the state. *)
Definition lift {A} (r : outcome A) : M A := fun st => (r, st).

Declare Scope py_scope.
Delimit Scope py_scope with py.
Notation "x <~ c1 ;; c2" := (bind c1 (fun x => c2))
  (at level 100, c1 at next level, right associativity) : py_scope.
Notation "c1 ;;; c2" := (bind c1 (fun _ => c2))
  (at level 100, right associativity) : py_scope.
Local Open Scope py_scope.

Definition obind {A B} (r : outcome A) (k : A -> outcome B) : outcome B :=
  match r with
  | Return a => k a
  | Raise e => Raise e
  end.

Definition set_heap (h : gmap addr obj) (st : state) : state :=
  mk_state h (next st) (destinations st) (files st) (stdin st) (stdout st).

Definition set_destinations (l : list addr) (st : state) : state :=
  mk_state (heap st) (next st) l (files st) (stdin st) (stdout st).

Definition set_files (fs : gmap string file) (st : state) : state :=
  mk_state (heap st) (next st) (destinations st) fs (stdin st) (stdout st).

Definition get_destinations : M (list addr) := fun st => (Return (destinations st), st).

Definition put_destinations (l : list addr) : M unit :=
  fun st => (Return tt, set_destinations l st).

(** The instance dictionary behind a reference. *)
Definition deref (a : addr) (st : state) : obj := default ∅ (heap st !! a).

Definition alloc (o : obj) : M addr :=
  fun st =>
    (Return (next st),
     mk_state (<[next st := o]> (heap st)) (S (next st))
              (destinations st) (files st) (stdin st) (stdout st)).

(** [print(...)]: one write of the text and a newline *)
Definition print (t : text) : M unit :=
  fun st =>
    (Return tt,
     mk_state (heap st) (next st) (destinations st) (files st) (stdin st)
              (stdout st ++ [t ++ [Text Str.nl]])).

(** [input(prompt)]: writes the prompt and reads one line *)
Definition input (prompt : string) : M string :=
  fun st =>
    let out := stdout st ++ [[Text prompt]] in
    match stdin st with
    | [] =>
        (Raise (Exn EOFError "EOF when reading a line"),
         mk_state (heap st) (next st) (destinations st) (files st) [] out)
    | l :: r =>
        (Return l, mk_state (heap st) (next st) (destinations st) (files st) r out)
    end.

(** ** Operations of the built-in types *)

Definition type_name (v : value) : string :=
  match v with
  | VNone => "NoneType"
  | VBool _ => "bool"
  | VInt _ => "int"
  | VFloat _ => "float"
  | VStr _ => "str"
  | VList _ => "list"
  | VDict _ => "dict"
  | VDatetime _ => "datetime.datetime"
  end.

Definition no_attribute (v : value) (name : string) : exn :=
  Exn AttributeError ("'" +:+ type_name v +:+ "' object has no attribute '" +:+ name +:+ "'").

(** [v.lower()] *)
Definition lower_of (v : value) : outcome string :=
  match v with
  | VStr s => Return (Str.lower s)
  | _ => Raise (no_attribute v "lower")
  end.

(** [iter(v)]: the elements a [for] sees *)
Definition iterate (v : value) : outcome (list value) :=
  match v with
  | VList l => Return l
  | VStr s => Return (map (fun c => VStr (String c EmptyString)) (list_ascii_of_string s))
  | VDict kv => Return (map (fun p => VStr (fst p)) kv)
  | _ => Raise (Exn TypeError ("'" +:+ type_name v +:+ "' object is not iterable"))
  end.

Fixpoint lookup_key (k : string) (kv : list (string * value)) : option value :=
  match kv with
  | [] => None
  | (k', v) :: r => if String.eqb k k' then Some v else lookup_key k r
  end.

(** [d[k]] with a string key *)
Definition subscript (d : value) (k : string) : outcome value :=
  match d with
  | VDict kv =>
      match lookup_key k kv with
      | Some v => Return v
      | None => Raise (Exn KeyError k)
      end
  | VList _ => Raise (Exn TypeError "list indices must be integers or slices, not str")
  | VStr _ => Raise (Exn TypeError "string indices must be integers, not 'str'")
  | _ => Raise (Exn TypeError ("'" +:+ type_name d +:+ "' object is not subscriptable"))
  end.

(** [datetime.strptime(v, DATE_FMT)] *)
Definition strptime_of (v : value) : outcome value :=
  match v with
  | VStr s =>
      match Date.strptime s with
      | Some dt => Return (VDatetime dt)
      | None => Raise (Exn ValueError ("time data does not match format: " +:+ s))
      end
  | _ => Raise (Exn TypeError ("strptime() argument 1 must be str, not " +:+ type_name v))
  end.

(** [v.strftime(DATE_FMT)] *)
Definition strftime_of (v : value) : outcome value :=
  match v with
  | VDatetime dt => Return (VStr (Date.strftime dt))
  | _ => Raise (no_attribute v "strftime")
  end.

(** [f"{v.date()}"]: the ISO form of the calendar date *)
Definition date_text (v : value) : outcome item :=
  match v with
  | VDatetime dt => Return (Text (Date.isoformat dt))
  | _ => Raise (no_attribute v "date")
  end.

(** [f"{v}"] *)
Definition str_text (v : value) : item :=
  match v with
  | VStr s => Text s
  | _ => StrOf v
  end.

(** [f"{v:.2f}"] *)
Definition fixed2_text (v : value) : outcome item :=
  match v with
  | VFloat _ | VBool _ => Return (Fixed2 v)
  | VInt n =>
      match Float.of_int n with
      | Some _ => Return (Fixed2 v)
      | None => Raise (Exn OverflowError "int too large to convert to float")
      end
  | VDatetime _ => Return (Text ".2f")
  | VStr _ => Raise (Exn ValueError "Unknown format code 'f' for object of type 'str'")
  | _ => Raise (Exn TypeError ("unsupported format string passed to " +:+ type_name v +:+ ".__format__"))
  end.

Fixpoint strings_of (l : list value) : outcome (list string) :=
  match l with
  | [] => Return []
  | VStr s :: r => obind (strings_of r) (fun ss => Return (s :: ss))
  | v :: _ =>
      Raise (Exn TypeError ("sequence item: expected str instance, " +:+ type_name v +:+ " found"))
  end.

(** [",".join(v)] *)
Definition join_of (v : value) : outcome string :=
  match iterate v with
  | Return l => obind (strings_of l) (fun ss => Return (Str.join "," ss))
  | Raise _ => Raise (Exn TypeError "can only join an iterable")
  end.

(** [sys.get_int_max_str_digits()], the default of CPython 3.11 and later *)
Definition max_str_digits : Z := 4300.

(** [repr] of an [int] raises when it has more digits than that. *)
Definition int_printable (n : Z) : bool := Z.abs n <? 10 ^ max_str_digits.

(** The failure [json.dump] meets first when it walks a value, if any: a
    [datetime] has no encoding, and an [int] must be printable.  (Values
    nested deeper than the interpreter's stack allows are left out.) *)
Fixpoint dump_error (v : value) : option exn :=
  match v with
  | VDatetime _ =>
      Some (Exn TypeError "Object of type datetime is not JSON serializable")
  | VInt n =>
      if int_printable n then None
      else Some (Exn ValueError "Exceeds the limit (4300 digits) for integer string conversion")
  | VList l =>
      (fix first (l : list value) : option exn :=
         match l with
         | [] => None
         | x :: r => match dump_error x with Some e => Some e | None => first r end
         end) l
  | VDict kv =>
      (fix first (kv : list (string * value)) : option exn :=
         match kv with
         | [] => None
         | (_, x) :: r => match dump_error x with Some e => Some e | None => first r end
         end) kv
  | _ => None
  end.

(** ** [class Destination] *)

Module Destination.

(** The attributes [__init__] sets. *)
Definition fields : list string :=
  ["city"; "country"; "start_date"; "end_date"; "budget"; "activities"].

(** The names the class body defines and those the class statement adds. *)
Definition class_attrs : list string :=
  ["__init__"; "update_details"; "to_dict"; "from_dict"; "__str__";
   "__module__"; "__dict__"; "__weakref__"; "__doc__"].

(** The names every instance inherits from [object] (CPython 3.11, 3.12). *)
Definition object_attrs : list string :=
  ["__class__"; "__delattr__"; "__dir__"; "__eq__"; "__format__"; "__ge__";
   "__getattribute__"; "__getstate__"; "__gt__"; "__hash__";
   "__init_subclass__"; "__le__"; "__lt__"; "__ne__"; "__new__";
   "__reduce__"; "__reduce_ex__"; "__repr__"; "__setattr__"; "__sizeof__";
   "__subclasshook__"].

Definition mem (k : string) (l : list string) : bool := existsb (String.eqb k) l.

(** [Destination(city, country, start_date, end_date, budget, activities)]:
    the instance dictionary [__init__] leaves behind. *)
Definition init (city country start_date end_date budget activities : value) : obj :=
  <["activities" := activities]>
    (<["budget" := budget]>
      (<["end_date" := end_date]>
        (<["start_date" := start_date]>
          (<["country" := country]>
            (<["city" := city]> ∅))))).

(** [hasattr(self, k)]: an instance attribute, or a name found on the
    class or on [object]. *)
Definition hasattr (o : obj) (k : string) : bool :=
  bool_decide (is_Some (o !! k)) || mem k class_attrs || mem k object_attrs.

(** [self.k] for a data attribute *)
Definition getattr (o : obj) (k : string) : outcome value :=
  match o !! k with
  | Some v => Return v
  | None => Raise (Exn AttributeError ("'Destination' object has no attribute '" +:+ k +:+ "'"))
  end.

(** [setattr(self, k, v)].  Three names are data descriptors with a
    setter of their own; every other name lands in the instance
    dictionary, in front of whatever the class has under it. *)
Definition setattr (o : obj) (k : string) (v : value) : outcome obj :=
  if String.eqb k "__class__" then
    Raise (Exn TypeError ("__class__ must be set to a class, not '" +:+ type_name v +:+ "' object"))
  else if String.eqb k "__dict__" then
    match v with
    | VDict kv => Return (list_to_map kv)
    | _ => Raise (Exn TypeError ("__dict__ must be set to a dictionary, not a '" +:+ type_name v +:+ "'"))
    end
  else if String.eqb k "__weakref__" then
    Raise (Exn AttributeError "attribute '__weakref__' of 'Destination' objects is not writable")
  else Return (<[k := v]> o).

Definition not_found (k : string) : exn :=
  Exn AttributeError ("Attribute " +:+ k +:+ " not found.").

(** The loop of [update_details] over [kwargs.items()]; the object comes
    back as far as the loop got, also when it raises. *)
Fixpoint update_loop (o : obj) (kwargs : list (string * value)) : outcome unit * obj :=
  match kwargs with
  | [] => (Return tt, o)
  | (k, v) :: rest =>
      match v with
      | VNone => update_loop o rest
      | _ =>
          if hasattr o k then
            match setattr o k v with
            | Return o' => update_loop o' rest
            | Raise e => (Raise e, o)
            end
          else (Raise (not_found k), o)
      end
  end.

(** [self.update_details] called with the keywords [kwargs].  A keyword called [self] collides
    with the parameter of that name before the body runs. *)
Definition update_details (o : obj) (kwargs : list (string * value)) : outcome unit * obj :=
  if mem "self" (map fst kwargs) then
    (Raise (Exn TypeError "update_details() got multiple values for argument 'self'"), o)
  else update_loop o kwargs.

(** [self.to_dict()] *)
Definition to_dict (o : obj) : outcome value :=
  obind (getattr o "city") (fun city =>
  obind (getattr o "country") (fun country =>
  obind (getattr o "start_date") (fun sd =>
  obind (strftime_of sd) (fun start_date =>
  obind (getattr o "end_date") (fun ed =>
  obind (strftime_of ed) (fun end_date =>
  obind (getattr o "budget") (fun budget =>
  obind (getattr o "activities") (fun activities =>
  Return (VDict [("city", city); ("country", country);
                 ("start_date", start_date); ("end_date", end_date);
                 ("budget", budget); ("activities", activities)]))))))))).

(** [Destination.from_dict(d)], up to the allocation of the instance *)
Definition from_dict (d : value) : outcome obj :=
  obind (subscript d "city") (fun city =>
  obind (subscript d "country") (fun country =>
  obind (subscript d "start_date") (fun sd =>
  obind (strptime_of sd) (fun start_date =>
  obind (subscript d "end_date") (fun ed =>
  obind (strptime_of ed) (fun end_date =>
  obind (subscript d "budget") (fun budget =>
  obind (subscript d "activities") (fun activities =>
  Return (init city country start_date end_date budget activities))))))))).

(** [str(self)] *)
Definition str (o : obj) : outcome text :=
  obind (getattr o "activities") (fun activities =>
  obind (join_of activities) (fun act =>
  obind (getattr o "city") (fun city =>
  obind (getattr o "country") (fun country =>
  obind (getattr o "start_date") (fun sd =>
  obind (date_text sd) (fun start_date =>
  obind (getattr o "end_date") (fun ed =>
  obind (date_text ed) (fun end_date =>
  obind (getattr o "budget") (fun b =>
  obind (fixed2_text b) (fun budget =>
  Return [str_text city; Text ","; str_text country; Text " | ";
          start_date; Text " -> "; end_date; Text " | Rs."; budget;
          Text " "; Text act])))))))))).

End Destination.

(** ** [class ItineraryManager] *)

Module ItineraryManager.
Import Destination.

(** [self.destinations.append(destination)] and the message *)
Definition add_destination (d : addr) : M unit :=
  l <~ get_destinations ;;
  put_destinations (l ++ [d]) ;;;
  print [Text "Destination added successfully."].

(** [d.city.lower() == city.lower()] *)
Definition city_is (city : string) (o : obj) : outcome bool :=
  obind (getattr o "city") (fun c =>
  obind (lower_of c) (fun lc =>
  Return (String.eqb lc (Str.lower city)))).

(** [[d for d in l if d.city.lower() == city.lower()]] *)
Fixpoint matching (city : string) (st : state) (l : list addr) : outcome (list addr) :=
  match l with
  | [] => Return []
  | d :: r =>
      obind (city_is city (deref d st)) (fun b =>
      obind (matching city st r) (fun ds =>
      Return (if b then d :: ds else ds)))
  end.

(** [l.remove(x)]: drops the first element that is [x]; instances
    compare by identity.  [None] is the [ValueError] of a missing [x]. *)
Fixpoint list_remove (x : addr) (l : list addr) : option (list addr) :=
  match l with
  | [] => None
  | y :: r => if Nat.eqb y x then Some r else option_map (cons y) (list_remove x r)
  end.

Fixpoint remove_each (dlist : list addr) : M unit :=
  match dlist with
  | [] => ret tt
  | dl :: r =>
      l <~ get_destinations ;;
      match list_remove dl l with
      | Some l' => put_destinations l' ;;; remove_each r
      | None => raise (Exn ValueError "list.remove(x): x not in list")
      end
  end.

Definition remove_destination (city : string) : M bool :=
  l <~ get_destinations ;;
  dlist <~ (fun st => (matching city st l, st)) ;;
  match dlist with
  | [] =>
      print [Text "No destination found with the name "; Text " "; Text city;
             Text " "; Text ("." +:+ Str.nl)] ;;;
      ret false
  | _ =>
      remove_each dlist ;;;
      print [Text (" Removed destination '" +:+ city +:+ "'.")] ;;;
      ret true
  end.

(** [d.update_details] called with [kwargs] on the instance at [d]: the method is
    looked up on the instance first, where a stored value shadows it. *)
Definition call_update_details (d : addr) (kwargs : list (string * value)) : M unit :=
  fun st =>
    let o := deref d st in
    match o !! "update_details" with
    | Some v =>
        (Raise (Exn TypeError ("'" +:+ type_name v +:+ "' object is not callable")), st)
    | None =>
        let '(r, o') := update_details o kwargs in
        (r, set_heap (<[d := o']> (heap st)) st)
    end.

(** [print("Updated destination details \n", d)] *)
Definition print_updated (d : addr) : M unit :=
  s <~ (fun st => (str (deref d st), st)) ;;
  print ([Text ("Updated destination details " +:+ Str.nl); Text " "] ++ s).

(** The [for d in self.destinations] loop of [update_destination]. *)
Fixpoint update_each (city : string) (kwargs : list (string * value))
         (l : list addr) (found : bool) : M bool :=
  match l with
  | [] => ret found
  | d :: r =>
      b <~ (fun st => (city_is city (deref d st), st)) ;;
      if (b : bool) then
        call_update_details d kwargs ;;;
        print_updated d ;;;
        update_each city kwargs r true
      else update_each city kwargs r found
  end.

(** [self.update_destination(city, **kwargs)].  The keywords [self] and
    [city] collide with the parameters of those names. *)
Definition update_destination (city : string) (kwargs : list (string * value)) : M bool :=
  if mem "self" (map fst kwargs) then
    raise (Exn TypeError "update_destination() got multiple values for argument 'self'")
  else if mem "city" (map fst kwargs) then
    raise (Exn TypeError "update_destination() got multiple values for argument 'city'")
  else
    l <~ get_destinations ;;
    found <~ update_each city kwargs l false ;;
    (if (found : bool) then ret tt else print [Text ("Destination not found. " +:+ Str.nl)]) ;;;
    ret found.

(** [any(s in a.lower() for a in l)] *)
Fixpoint any_contains (s : string) (l : list value) : outcome bool :=
  match l with
  | [] => Return false
  | a :: r =>
      obind (lower_of a) (fun la =>
      if Str.contains s la then Return true else any_contains s r)
  end.

(** The condition of the comprehension in [search_destination], [s]
    already lowered; [or] stops at the first true operand. *)
Definition hit (s : string) (o : obj) : outcome bool :=
  obind (getattr o "city") (fun c =>
  obind (lower_of c) (fun lc =>
  if Str.contains s lc then Return true else
  obind (getattr o "country") (fun n =>
  obind (lower_of n) (fun ln =>
  if Str.contains s ln then Return true else
  obind (getattr o "activities") (fun acts =>
  obind (iterate acts) (fun l =>
  any_contains s l)))))).

Fixpoint hits (s : string) (st : state) (l : list addr) : outcome (list addr) :=
  match l with
  | [] => Return []
  | d :: r =>
      obind (hit s (deref d st)) (fun b =>
      obind (hits s st r) (fun ds =>
      Return (if b then d :: ds else ds)))
  end.

Definition search_destination (s : string) : M (list addr) :=
  let s := Str.lower s in
  l <~ get_destinations ;;
  fun st => (hits s st l, st).

(** [[Destination.from_dict(d) for d in data]] *)
Fixpoint from_dicts (data : list value) : M (list addr) :=
  match data with
  | [] => ret []
  | d :: r =>
      o <~ lift (from_dict d) ;;
      a <~ alloc o ;;
      l <~ from_dicts r ;;
      ret (a :: l)
  end.

(** [open(filename)] and [json.load(f)] *)
Definition json_load (filename : string) : M value :=
  fun st =>
    match files st !! filename with
    | None | Some Unreadable => (Raise (Exn OSError ("cannot read " +:+ filename)), st)
    | Some Undecodable => (Raise (Exn UnicodeDecodeError "invalid start byte"), st)
    | Some (Malformed msg) => (Raise (Exn JSONDecodeError msg), st)
    | Some (Json v) => (Return v, st)
    end.

(** [os.path.exists(filename)] *)
Definition exists_file (filename : string) : M bool :=
  fun st => (Return (bool_decide (is_Some (files st !! filename))), st).

Definition load_from_file (filename : string) : M unit :=
  e <~ exists_file filename ;;
  if negb e then put_destinations []
  else
    try_except
      (data <~ json_load filename ;;
       items <~ lift (iterate data) ;;
       l <~ from_dicts items ;;
       put_destinations l)
      [OSError; JSONDecodeError]
      (fun e =>
         print [Text "Error loading file: "; ExnText e] ;;;
         put_destinations []).

(** [d.to_dict()] on an instance: the method is looked up on the instance
    first, where a stored value shadows it. *)
Definition call_to_dict (o : obj) : outcome value :=
  match o !! "to_dict" with
  | Some v => Raise (Exn TypeError ("'" +:+ type_name v +:+ "' object is not callable"))
  | None => to_dict o
  end.

(** [[d.to_dict() for d in self.destinations]] *)
Fixpoint to_dicts (st : state) (l : list addr) : outcome (list value) :=
  match l with
  | [] => Return []
  | d :: r =>
      obind (call_to_dict (deref d st)) (fun x =>
      obind (to_dicts st r) (fun xs =>
      Return (x :: xs)))
  end.

(** [open(filename, "w")]: a path that cannot be opened raises; any other
    file is empty from here on, which is no JSON document.  A path that
    does not exist yet is taken to be one that can be created. *)
Definition open_write (filename : string) : M unit :=
  fun st =>
    match files st !! filename with
    | Some Unreadable => (Raise (Exn OSError ("cannot write " +:+ filename)), st)
    | _ => (Return tt, set_files (<[filename := Malformed "Expecting value"]> (files st)) st)
    end.

(** [json.dump(v, f, indent=4)]: the text is written piece by piece, so a
    value that cannot be written leaves an unfinished document behind. *)
Definition json_dump (v : value) (filename : string) : M unit :=
  fun st =>
    match dump_error v with
    | None => (Return tt, set_files (<[filename := Json v]> (files st)) st)
    | Some e =>
        (Raise e, set_files (<[filename := Malformed "unfinished document"]> (files st)) st)
    end.

Definition save_to_file (filename : string) : M unit :=
  open_write filename ;;;
  ds <~ (fun st => (to_dicts st (destinations st), st)) ;;
  json_dump (VList ds) filename.

End ItineraryManager.

(** ** The functions of the front end *)

Definition DATE_FMT : string := "%Y-%m-%d".

Definition parse_date (s : string) : outcome datetime :=
  match Date.strptime s with
  | Some dt => Return dt
  | None => Raise (Exn ValueError ("time data does not match format: " +:+ s))
  end.

Definition valid_date (e : string) : bool :=
  match parse_date e with
  | Return _ => true
  | Raise _ => false
  end.

Definition check_positive (s : string) : outcome spec_float :=
  match Float.of_string s with
  | None => Raise (Exn ValueError ("could not convert string to float: " +:+ s))
  | Some v =>
      if Float.le v Float.zero then Raise (Exn ValueError "Budget Value must be positive.")
      else Return v
  end.

(** [[a.strip() for a in s.split(",") if a.strip()]] *)
Definition stripped_pieces (s : string) : list string :=
  map Str.strip (filter (fun a => Is_true (Str.truthy (Str.strip a))) (Str.split_comma s)).

Definition input_activities : M (list string) :=
  s <~ input "Enter activities (comma separated): " ;;
  ret (stripped_pieces (Str.strip s)).

Definition add_flow : M unit :=
  city <~ input "City: " ;;
  let city := Str.strip city in
  country <~ input "Country: " ;;
  let country := Str.strip country in
  start <~ input "Start date (YYYY-MM-DD): " ;;
  let start := Str.strip start in
  if negb (valid_date start) then print [Text "Invalid start date format."]
  else
    end_ <~ input "End date (YYYY-MM-DD): " ;;
    let end_ := Str.strip end_ in
    if negb (valid_date end_) then print [Text "Invalid end date format."]
    else
      checked <~ try_except
        (b <~ input "Budget in Rs: " ;;
         v <~ lift (check_positive (Str.strip b)) ;;
         ret (Some v))
        [Exception]
        (fun e => print [Text "Invalid budget:"; Text " "; ExnText e] ;;; ret None) ;;
      match checked with
      | None => ret tt
      | Some budget =>
          activities <~ input_activities ;;
          match activities with
          | [] => print [Text "Please provide at least one activity."]
          | _ =>
              s <~ lift (parse_date start) ;;
              e <~ lift (parse_date end_) ;;
              if Date.gt s e then print [Text "Start date must be before or equal to end date."]
              else
                s <~ lift (parse_date start) ;;
                e <~ lift (parse_date end_) ;;
                d <~ alloc (Destination.init (VStr city) (VStr country)
                              (VDatetime s) (VDatetime e) (VFloat budget)
                              (VList (map VStr activities))) ;;
                ItineraryManager.add_destination d
          end
      end.

(** [x or None] on a string *)
Definition or_none (s : string) : option string :=
  if Str.truthy s then Some s else None.

Definition opt_value {A} (f : A -> value) (o : option A) : value :=
  match o with
  | Some a => f a
  | None => VNone
  end.

(** The keywords [update_flow] passes to [update_destination]. *)
Definition flow_keywords (new_country : option string) (new_start new_end : option datetime)
           (new_budget : option spec_float) (new_acts : option (list string))
  : list (string * value) :=
  [("country", opt_value VStr new_country);
   ("start_date", opt_value VDatetime new_start);
   ("end_date", opt_value VDatetime new_end);
   ("budget", opt_value VFloat new_budget);
   ("activities", opt_value (fun l => VList (map VStr l)) new_acts)].

Definition update_flow : M unit :=
  city <~ input "Which city do you want to update? " ;;
  let city := Str.strip city in
  c <~ input "New country (blank to keep): " ;;
  let new_country := or_none (Str.strip c) in
  s <~ input "New start date YYYY-MM-DD (blank to keep): " ;;
  let new_start := or_none (Str.strip s) in
  if match new_start with Some s => negb (valid_date s) | None => false end
  then print [Text "Invalid date."]
  else
    e <~ input "New end date YYYY-MM-DD (blank to keep): " ;;
    let new_end := or_none (Str.strip e) in
    if match new_end with Some e => negb (valid_date e) | None => false end
    then print [Text "Invalid date."]
    else
      b <~ input "New budget (blank to keep): " ;;
      checked <~
        match or_none (Str.strip b) with
        | None => ret (Some None)
        | Some b =>
            try_except
              (v <~ lift (check_positive b) ;; ret (Some (Some v)))
              [Exception]
              (fun e => print [Text "Invalid budget:"; Text " "; ExnText e] ;;; ret None)
        end ;;
      match checked with
      | None => ret tt
      | Some new_budget =>
          a <~ input "New activities (comma separated, blank to keep): " ;;
          let new_acts := option_map stripped_pieces (or_none (Str.strip a)) in
          match new_acts with
          | Some [] => print [Text "Activities cannot be empty."]
          | _ =>
              new_start <~ match new_start with
                           | Some s => d <~ lift (parse_date s) ;; ret (Some d)
                           | None => ret None
                           end ;;
              new_end <~ match new_end with
                         | Some s => d <~ lift (parse_date s) ;; ret (Some d)
                         | None => ret None
                         end ;;
              ItineraryManager.update_destination city
                (flow_keywords new_country new_start new_end new_budget new_acts) ;;;
              ret tt
          end
      end.

(** ** Well-formed destinations

    The values above are dynamically typed.  The data model of the program
    is the signature of [Destination.__init__]: two strings, two
    [datetime]s, a number and a list of strings.  [view] reads an instance
    dictionary at those types. *)

Record dest := mk_dest {
  city : string;
  country : string;
  start_date : datetime;
  end_date : datetime;
  budget : value;
  activities : list string
}.

Fixpoint strs (l : list value) : option (list string) :=
  match l with
  | [] => Some []
  | VStr s :: r => option_map (cons s) (strs r)
  | _ :: _ => None
  end.

Definition view (o : obj) : option dest :=
  match o !! "city", o !! "country", o !! "start_date",
        o !! "end_date", o !! "budget", o !! "activities" with
  | Some (VStr c), Some (VStr n), Some (VDatetime s),
    Some (VDatetime e), Some b, Some (VList a) =>
      option_map (mk_dest c n s e b) (strs a)
  | _, _, _, _, _, _ => None
  end.

Definition obj_of (d : dest) : obj :=
  Destination.init (VStr (city d)) (VStr (country d))
                   (VDatetime (start_date d)) (VDatetime (end_date d))
                   (budget d) (VList (map VStr (activities d))).

(** A [float], or an [int] that [float] can represent. *)
Definition numeric (v : value) : bool :=
  match v with
  | VFloat _ => true
  | VInt n => match Float.of_int n with Some _ => true | None => false end
  | _ => false
  end.

(** An instance as [__init__] builds it from well-typed arguments: the six
    attributes at their types and no other instance attribute. *)
Definition well_formed (o : obj) : bool :=
  bool_decide (dom o = list_to_set Destination.fields) &&
  match view o with
  | Some d => numeric (budget d)
  | None => false
  end.

(** Every entry of the collection is a well-formed instance. *)
Definition well_formed_state (st : state) : Prop :=
  forall a, a ∈ destinations st -> well_formed (deref a st) = true.

(** Every entry of the collection has the six attributes at their types;
    it may carry other attributes as well. *)
Definition typed_state (st : state) : Prop :=
  forall a, a ∈ destinations st -> exists d, view (deref a st) = Some d.

(** The dates of a valid destination are calendar dates without a time. *)
Definition plain_dates (d : dest) : bool :=
  Date.valid (start_date d) && Date.no_time (start_date d) &&
  Date.valid (end_date d) && Date.no_time (end_date d).

(** A valid destination: well formed, with plain dates. *)
Definition valid_destination (o : obj) : bool :=
  well_formed o &&
  match view o with
  | Some d => plain_dates d
  | None => false
  end.

(** [t] occurs in [s] when case is ignored. *)
Definition occurs (t s : string) : Prop :=
  exists u v, Str.lower s = u +:+ Str.lower t +:+ v.

(** The term occurs in the city, the country or some activity. *)
Definition mentions (term : string) (d : dest) : Prop :=
  occurs term (city d) \/ occurs term (country d) \/
  exists a, a ∈ activities d /\ occurs term a.

(** The city is [c] when case is ignored. *)
Definition same_city (c : string) (d : dest) : Prop :=
  Str.lower (city d) = Str.lower c.

(** [res] keeps exactly the elements of [l] that satisfy [P], in the order
    of [l] and as often as they occur there. *)
Inductive selects {A} (P : A -> Prop) : list A -> list A -> Prop :=
| selects_nil : selects P [] []
| selects_keep x l res : P x -> selects P l res -> selects P (x :: l) (x :: res)
| selects_drop x l res : ~ P x -> selects P l res -> selects P (x :: l) res.

(** The entry at [a] is a destination that satisfies [P]. *)
Definition entry (st : state) (P : dest -> Prop) (a : addr) : Prop :=
  exists d, view (deref a st) = Some d /\ P d.

(** The names a keyword list gives a value other than [None]. *)
Fixpoint named (kwargs : list (string * value)) : list string :=
  match kwargs with
  | [] => []
  | (_, VNone) :: r => named r
  | (k, _) :: r => k :: named r
  end.

(** The fields the manager's [update_destination] can be given, each with
    a value of the field's type or [None].  The city is not among them:
    that keyword belongs to the method's own parameter. *)
Definition valid_update (kv : string * value) : bool :=
  let '(k, v) := kv in
  match v with
  | VNone => Destination.mem k Destination.fields && negb (String.eqb k "city")
  | VStr _ => String.eqb k "country"
  | VDatetime _ => String.eqb k "start_date" || String.eqb k "end_date"
  | VFloat _ | VInt _ => String.eqb k "budget" && numeric v
  | VList a => String.eqb k "activities" && match strs a with Some _ => true | None => false end
  | VBool _ | VDict _ => false
  end.

(** One keyword applied to an instance dictionary: [None] is skipped. *)
Definition assign (o : obj) (kv : string * value) : obj :=
  match snd kv with
  | VNone => o
  | v => <[fst kv := v]> o
  end.

(** All keywords applied, in their order. *)
Definition assign_all (kwargs : list (string * value)) (o : obj) : obj :=
  fold_left assign kwargs o.

(** The value the keywords leave under the name [k], if they set it. *)
Fixpoint assigned (k : string) (kwargs : list (string * value)) : option value :=
  match kwargs with
  | [] => None
  | (k', v) :: r =>
      match assigned k r with
      | Some w => Some w
      | None =>
          match v with
          | VNone => None
          | _ => if String.eqb k k' then Some v else None
          end
      end
  end.

(** A name that is no attribute of any [Destination] instance. *)
Definition unknown_name (k : string) : bool :=
  negb (Destination.mem k Destination.fields) &&
  negb (Destination.mem k Destination.class_attrs) &&
  negb (Destination.mem k Destination.object_attrs).

(** What the validated path of [add_flow] establishes of a destination:
    plain dates with the start not after the end, a budget that is a float
    and not [<= 0], at least one activity, every activity non-empty, and
    no blank at either end of the city, the country or an activity. *)
Definition sound (d : dest) : Prop :=
  plain_dates d = true /\
  Date.gt (start_date d) (end_date d) = false /\
  (exists v, budget d = VFloat v /\ Float.le v Float.zero = false) /\
  Str.strip (city d) = city d /\ Str.strip (country d) = country d /\
  activities d <> [] /\
  forall a, a ∈ activities d -> a <> EmptyString /\ Str.strip a = a.

(** Nothing was built: the collection and the instances are as before. *)
Definition untouched (st st' : state) : Prop :=
  destinations st' = destinations st /\ heap st' = heap st.

(** The end of input met by [input]. *)
Definition eof : exn := Exn EOFError "EOF when reading a line".

(** The instance dictionaries of the collection, in its order. *)
Definition contents (st : state) : list obj :=
  map (fun a => deref a st) (destinations st).

(** The path can be opened for writing. *)
Definition writable (filename : string) (st : state) : Prop :=
  files st !! filename <> Some Unreadable.

(** The dictionary [to_dict] makes of a destination. *)
Definition record (d : dest) : value :=
  VDict [("city", VStr (city d)); ("country", VStr (country d));
         ("start_date", VStr (Date.strftime (start_date d)));
         ("end_date", VStr (Date.strftime (end_date d)));
         ("budget", budget d);
         ("activities", VList (map VStr (activities d)))].

(** Both years are written with four digits by [strftime]. *)
Definition four_digit_years (d : dest) : bool :=
  (1000 <=? year (start_date d)) && (1000 <=? year (end_date d)).

(** An instance that can be written and read back: a valid destination
    of the year 1000 or later whose budget [json.dump] can write. *)
Definition storable (o : obj) : Prop :=
  exists d, o = obj_of d /\ plain_dates d = true /\ four_digit_years d = true /\
            dump_error (budget d) = None.

(** The instances allocated before [st] are in [st'] what they were. *)
Definition keeps_instances (st st' : state) : Prop :=
  forall a, (a < next st)%nat -> heap st' !! a = heap st !! a.

(** A string free of commas. *)
Definition comma_free (s : string) : Prop :=
  forall c, In c (list_ascii_of_string s) -> c <> ","%char.

(** What a line typed into [update_flow] stands for: nothing when it is
    blank, else the date, the budget or the activities it parses to. *)
Definition typed_date (x : string) (o : option datetime) : Prop :=
  match o with
  | None => x = EmptyString
  | Some d => Date.strptime x = Some d
  end.

Definition typed_budget (x : string) (o : option spec_float) : Prop :=
  match o with
  | None => x = EmptyString
  | Some v => check_positive x = Return v
  end.

Definition typed_activities (x : string) (o : option (list string)) : Prop :=
  match o with
  | None => x = EmptyString
  | Some l => x <> EmptyString /\ stripped_pieces x = l /\ l <> []
  end.

(** A destination with the typed fields put in; the city stays. *)
Definition patched (oc : option string) (os oe : option datetime)
           (ob : option spec_float) (oa : option (list string)) (d : dest) : dest :=
  mk_dest (city d) (default (country d) oc)
          (default (start_date d) os) (default (end_date d) oe)
          (default (budget d) (option_map VFloat ob))
          (default (activities d) oa).

(** ** Boolean forms of the conditions *)

(** The condition of the search on a typed destination. *)
Definition mentionsb (term : string) (d : dest) : bool :=
  let s := Str.lower term in
  Str.contains s (Str.lower (city d)) ||
  Str.contains s (Str.lower (country d)) ||
  existsb (fun a => Str.contains s (Str.lower a)) (activities d).

(** The boolean the comprehension of the search computes at address [a]. *)
Definition hitb (term : string) (st : state) (a : addr) : bool :=
  match view (deref a st) with
  | Some d => mentionsb term d
  | None => false
  end.

(** The boolean [d.city.lower() == city.lower()] at address [a]. *)
Definition cityb (c : string) (st : state) (a : addr) : bool :=
  match view (deref a st) with
  | Some d => String.eqb (Str.lower (city d)) (Str.lower c)
  | None => false
  end.

(** The failure of [update_details] on a name it does not know: the
    [AttributeError] whose message opens with "Attribute ". *)
Definition is_unknown_field (e : exn) : bool :=
  let 'Exn c msg := e in
  exn_class_eqb c AttributeError && Str.startswith "Attribute " msg.


(** [a] occurs in [l]. *)
Definition inb (a : addr) (l : list addr) : bool := existsb (Nat.eqb a) l.

(** The text [print] shows for a well-formed destination. *)
Definition shown (d : dest) : text :=
  [Text (city d); Text ","; Text (country d); Text " | ";
   Text (Date.isoformat (start_date d)); Text " -> ";
   Text (Date.isoformat (end_date d)); Text " | Rs."; Fixed2 (budget d);
   Text " "; Text (Str.join "," (activities d))].

(** ** The second half of [add_flow] *)

(** The state [add_flow] is in once both dates have been read and found
    well formed. *)
Definition dates_read (st : state) (rest : list string) : state :=
  mk_state (heap st) (next st) (destinations st) (files st) rest
           (stdout st ++ [[Text "City: "]] ++ [[Text "Country: "]]
              ++ [[Text "Start date (YYYY-MM-DD): "]]
              ++ [[Text "End date (YYYY-MM-DD): "]]).

(** What [add_flow] still has to do in that state. *)
Definition after_dates (c n s e : string) : M unit :=
  checked <~ try_except
    (b <~ input "Budget in Rs: " ;;
     v <~ lift (check_positive (Str.strip b)) ;;
     ret (Some v))
    [Exception]
    (fun e => print [Text "Invalid budget:"; Text " "; ExnText e] ;;; ret None) ;;
  match checked with
  | None => ret tt
  | Some budget =>
      activities <~ input_activities ;;
      match activities with
      | [] => print [Text "Please provide at least one activity."]
      | _ =>
          s' <~ lift (parse_date s) ;;
          e' <~ lift (parse_date e) ;;
          if Date.gt s' e' then print [Text "Start date must be before or equal to end date."]
          else
            s' <~ lift (parse_date s) ;;
            e' <~ lift (parse_date e) ;;
            d <~ alloc (Destination.init (VStr c) (VStr n)
                          (VDatetime s') (VDatetime e') (VFloat budget)
                          (VList (map VStr activities))) ;;
            ItineraryManager.add_destination d
      end
  end.

(** The last thing written. *)
Definition last_written (st : state) : option text := last (stdout st).

(** ** Sample data *)

Module Sample.

(** 2000.0 *)
Definition two_thousand : spec_float := Eval vm_compute in Float.of_decimal false 2000 0.

Definition paris : dest :=
  mk_dest "Paris" "France" (Date.midnight 2025 6 1) (Date.midnight 2025 6 10)
          (VFloat two_thousand) ["museum"; "food"].

(** A trip to the Rome of the year 987. *)
Definition rome : dest :=
  mk_dest "Rome" "Italy" (Date.midnight 987 1 2) (Date.midnight 987 1 9)
          (VFloat two_thousand) ["forum"].

Definition goa1 : dest :=
  mk_dest "Goa" "India" (Date.midnight 2025 1 2) (Date.midnight 2025 1 9)
          (VInt 3000) ["beach"].

Definition goa2 : dest :=
  mk_dest "GOA" "India" (Date.midnight 2025 3 1) (Date.midnight 2025 3 1)
          (VFloat two_thousand) ["Beach walk"; "food"].

(** A session holding Paris, Goa, Goa. *)
Definition session : state :=
  mk_state (<[2%nat := obj_of goa2]> (<[1%nat := obj_of goa1]> (<[0%nat := obj_of paris]> ∅)))
           3%nat [0%nat; 1%nat; 2%nat] ∅ [] [].

(** The same session beside a file at the default path. *)
Definition session_with (f : file) : state :=
  mk_state (heap session) (next session) (destinations session)
           (<["itineraries.json" := f]> ∅) [] [].

(** A document of one record that lacks five of the six keys. *)
Definition short_record : value := VList [VDict [("city", VStr "Paris")]].

(** The lines typed into [add_flow]. *)
Definition typing (lines : list string) : state :=
  mk_state (heap session) (next session) (destinations session) ∅ lines [].

(** A trip that would end before it starts. *)
Definition reversed : state :=
  typing ["Goa"; "India"; "2025-06-10"; "2025-06-01"; "100"; "beach, surf"].


(** Paris with its start date left as the text it was typed as. *)
Definition text_date : state :=
  set_heap (<[0%nat := <["start_date" := VStr "2025-06-01"]> (obj_of paris)]> (heap session))
           session.

(** A session holding the trip to Rome alone. *)
Definition ancient : state :=
  mk_state (<[0%nat := obj_of rome]> ∅) 1%nat [0%nat] ∅ [] [].

(** A record with a key too many and four fields of unexpected types,
    and the instance [from_dict] builds from it. *)
Definition oslo_record : value :=
  VDict [("activities", VNone); ("budget", VStr "a lot"); ("end_date", VStr "2024-2-9");
         ("start_date", VStr "2025-01-01"); ("country", VInt 7); ("city", VStr "Oslo");
         ("notes", VStr "none")].

Definition oslo : obj :=
  Destination.init (VStr "Oslo") (VInt 7) (VDatetime (Date.midnight 2025 1 1))
                   (VDatetime (Date.midnight 2024 2 9)) (VStr "a lot") VNone.

End Sample.

(** * Properties *)

(** ** Strings *)

Lemma append_cons (a : ascii) (s r : string) : String a s +:+ r = String a (s +:+ r).
Proof. reflexivity. Qed.

Lemma append_nil (r : string) : EmptyString +:+ r = r.
Proof. reflexivity. Qed.

Lemma startswith_app (p t : string) :
  Str.startswith p t = true <-> exists v, t = p +:+ v.
Proof.
  revert t. induction p as [|a p IH]; intros t; simpl.
  - split; [intros _; exists t; reflexivity | reflexivity].
  - destruct t as [|b t].
    + split; [discriminate | intros [v Hv]; discriminate].
    + destruct (Ascii.eqb_spec a b) as [->|Hne].
      * rewrite IH. split; intros [v Hv]; exists v; [rewrite Hv; reflexivity | inversion Hv; reflexivity].
      * split; [discriminate | intros [v Hv]; inversion Hv; congruence].
Qed.

Lemma contains_occurrence (s t : string) :
  Str.contains s t = true <-> exists u v, t = u +:+ s +:+ v.
Proof.
  induction t as [|c t IH]; simpl.
  - rewrite orb_false_r, startswith_app. split.
    + intros [v Hv]. exists EmptyString, v. exact Hv.
    + intros (u & v & H). destruct u as [|a u]; [exists v; exact H | discriminate].
  - rewrite orb_true_iff, startswith_app, IH. split.
    + intros [[v Hv] | (u & v & H)].
      * exists EmptyString, v. exact Hv.
      * exists (String c u), v. simpl. rewrite H. reflexivity.
    + intros (u & v & H). destruct u as [|a u].
      * left. exists v. exact H.
      * right. inversion H. exists u, v. reflexivity.
Qed.

Lemma contains_empty (t : string) : Str.contains EmptyString t = true.
Proof. destruct t; reflexivity. Qed.

Lemma contains_occurs (term s : string) :
  Str.contains (Str.lower term) (Str.lower s) = true <-> occurs term s.
Proof. apply contains_occurrence. Qed.

(** ** Dates *)

Lemma upto_cases (P : Z -> Prop) (lo : Z) (n : nat) :
  (forall i, (i < n)%nat -> P (lo + Z.of_nat i)) ->
  forall z, lo <= z < lo + Z.of_nat n -> P z.
Proof.
  intros H z Hz. replace z with (lo + Z.of_nat (Z.to_nat (z - lo))) by lia.
  apply H. lia.
Qed.

(** Settles a goal about [z] between [lo] and [lo + n - 1] case by case. *)
Ltac upto z lo n :=
  pattern z; apply (upto_cases _ lo (Z.to_nat n)); [| lia];
  let i := fresh "i" in
  let Hi := fresh "Hi" in
  intros i Hi; simpl in Hi;
  repeat (destruct i as [|i]; [reflexivity | apply PeanoNat.lt_S_n in Hi]);
  inversion Hi.

Lemma digit_val_char (n : Z) :
  0 <= n <= 9 -> Str.digit_val (Str.digit_char n) = Some n.
Proof.
  intros H. upto n 0 10.
Qed.

Lemma parse_year_pad4 (y : Z) (r : string) :
  0 <= y <= 9999 -> Date.parse_year (Date.pad4 y +:+ r) = Some (y, r).
Proof.
  intros H. unfold Date.pad4, Date.pad2. rewrite !append_cons, append_nil.
  unfold Date.parse_year.
  rewrite !digit_val_char by (Z.div_mod_to_equations; lia).
  f_equal. f_equal. Z.div_mod_to_equations. lia.
Qed.

Lemma expect_dash_app (r : string) : Date.expect_dash ("-" +:+ r) = Some r.
Proof. reflexivity. Qed.

Lemma parse_month_pad2 (m : Z) (r : string) :
  1 <= m <= 12 ->
  Date.parse_month (Date.pad2 m +:+ "-" +:+ r) = Some (m, r).
Proof.
  intros H. upto m 1 12.
Qed.

Lemma parse_day_pad2 (d : Z) :
  1 <= d <= 31 -> Date.parse_day (Date.pad2 d) = Some d.
Proof.
  intros H. upto d 1 31.
Qed.

Lemma days_in_month_le (y m : Z) : Date.days_in_month y m <= 31.
Proof.
  unfold Date.days_in_month.
  repeat match goal with |- context [if ?b then _ else _] => destruct b end; lia.
Qed.

(** Parsing the ISO form of a date gives the date back, at midnight. *)
Lemma strptime_isoformat (dt : datetime) :
  Date.valid dt = true ->
  Date.strptime (Date.isoformat dt) = Some (Date.midnight (year dt) (month dt) (day dt)).
Proof.
  intros Hv. unfold Date.valid in Hv. rewrite !andb_true_iff in Hv.
  destruct Hv as ((((((((Hymd & _) & _) & _) & _) & _) & _) & _) & _).
  assert (Hb := Hymd). unfold Date.valid_ymd in Hb.
  rewrite !andb_true_iff, !Z.leb_le in Hb.
  pose proof (days_in_month_le (year dt) (month dt)).
  unfold Date.strptime, Date.isoformat.
  rewrite parse_year_pad4 by lia. rewrite expect_dash_app.
  rewrite parse_month_pad2 by lia.
  rewrite parse_day_pad2 by lia.
  rewrite Hymd. reflexivity.
Qed.

(** From the year 1000 on, [strftime] prints the ISO form. *)
Lemma strftime_isoformat (dt : datetime) :
  1000 <= year dt -> Date.strftime dt = Date.isoformat dt.
Proof.
  intros H. unfold Date.strftime, Date.isoformat, Date.year_text.
  destruct (Z.ltb_spec (year dt) 10); [lia|].
  destruct (Z.ltb_spec (year dt) 100); [lia|].
  destruct (Z.ltb_spec (year dt) 1000); [lia|]. reflexivity.
Qed.

(** Parsing what [strftime] printed gives the date back, at midnight, when
    the year has four digits. *)
Lemma strptime_strftime (dt : datetime) :
  Date.valid dt = true -> 1000 <= year dt ->
  Date.strptime (Date.strftime dt) = Some (Date.midnight (year dt) (month dt) (day dt)).
Proof.
  intros Hv Hy. rewrite (strftime_isoformat dt Hy). apply strptime_isoformat, Hv.
Qed.

Lemma digit_val_dash : Str.digit_val "-"%char = None.
Proof. reflexivity. Qed.

(** A year below 1000 is printed too short for [%Y] to read it back. *)
Lemma parse_year_short (y : Z) (r : string) :
  0 <= y < 1000 -> Date.parse_year (Date.year_text y +:+ "-" +:+ r) = None.
Proof.
  intros H. unfold Date.year_text.
  destruct (Z.ltb_spec y 10); [|destruct (Z.ltb_spec y 100); [|destruct (Z.ltb_spec y 1000)]].
  - rewrite !append_cons, append_nil. unfold Date.parse_year.
    destruct r as [|a [|b r]]; try reflexivity.
    rewrite digit_val_dash. destruct (Str.digit_val (Str.digit_char y)); reflexivity.
  - unfold Date.pad2. rewrite !append_cons, append_nil. unfold Date.parse_year.
    destruct r as [|a r]; try reflexivity.
    rewrite digit_val_dash.
    destruct (Str.digit_val (Str.digit_char (y / 10))); [|reflexivity].
    destruct (Str.digit_val (Str.digit_char (y mod 10))); reflexivity.
  - unfold Date.pad2. rewrite !append_cons, append_nil. unfold Date.parse_year.
    rewrite digit_val_dash.
    destruct (Str.digit_val (Str.digit_char (y / 100))); [|reflexivity].
    destruct (Str.digit_val (Str.digit_char (y mod 100 / 10))); [|reflexivity].
    destruct (Str.digit_val (Str.digit_char (y mod 100 mod 10))); reflexivity.
  - lia.
Qed.

Lemma strptime_strftime_short (dt : datetime) :
  0 <= year dt < 1000 -> Date.strptime (Date.strftime dt) = None.
Proof.
  intros H. unfold Date.strptime, Date.strftime.
  rewrite (parse_year_short _ _ H). reflexivity.
Qed.

Lemma midnight_no_time (dt : datetime) :
  Date.no_time dt = true -> Date.midnight (year dt) (month dt) (day dt) = dt.
Proof.
  unfold Date.no_time. intros H. rewrite !andb_true_iff, !Z.eqb_eq in H.
  destruct dt as [y m d h mi s us]; simpl in *. unfold Date.midnight.
  f_equal; lia.
Qed.

Lemma lex_lt_irrefl (l : list Z) : Date.lex_lt l l = false.
Proof.
  induction l as [|x l IH]; simpl; [reflexivity|].
  rewrite IH, Z.ltb_irrefl, andb_false_r. reflexivity.
Qed.

(** A date is never after itself. *)
Lemma gt_irrefl (dt : datetime) : Date.gt dt dt = false.
Proof. apply lex_lt_irrefl. Qed.

(** ** Floats *)

Lemma positive_not_le_zero (v : spec_float) :
  Float.lt Float.zero v = true -> Float.le v Float.zero = false.
Proof. destruct v as [s|s| |s m e]; try destruct s; cbv; congruence. Qed.

(** ** Instance dictionaries *)

Lemma strs_map (a : list value) (l : list string) :
  strs a = Some l -> a = map VStr l.
Proof.
  revert l. induction a as [|v a IH]; intros l H; simpl in H.
  - inversion H. reflexivity.
  - destruct v; try discriminate.
    destruct (strs a) as [l'|]; [|discriminate].
    inversion H. simpl. f_equal. apply IH. reflexivity.
Qed.

Lemma strs_of_map (l : list string) : strs (map VStr l) = Some l.
Proof. induction l as [|s l IH]; simpl; [|rewrite IH]; reflexivity. Qed.

Lemma obj_of_city d : obj_of d !! "city" = Some (VStr (city d)).
Proof. reflexivity. Qed.
Lemma obj_of_country d : obj_of d !! "country" = Some (VStr (country d)).
Proof. reflexivity. Qed.
Lemma obj_of_start_date d : obj_of d !! "start_date" = Some (VDatetime (start_date d)).
Proof. reflexivity. Qed.
Lemma obj_of_end_date d : obj_of d !! "end_date" = Some (VDatetime (end_date d)).
Proof. reflexivity. Qed.
Lemma obj_of_budget d : obj_of d !! "budget" = Some (budget d).
Proof. reflexivity. Qed.
Lemma obj_of_activities d : obj_of d !! "activities" = Some (VList (map VStr (activities d))).
Proof. reflexivity. Qed.

Lemma view_obj_of (d : dest) : view (obj_of d) = Some d.
Proof.
  unfold view.
  rewrite obj_of_city, obj_of_country, obj_of_start_date, obj_of_end_date,
    obj_of_budget, obj_of_activities, strs_of_map.
  destruct d; reflexivity.
Qed.

Lemma dom_obj_of (d : dest) : dom (obj_of d) = list_to_set Destination.fields.
Proof.
  unfold obj_of, Destination.init, Destination.fields.
  rewrite !dom_insert_L, dom_empty_L. simpl. set_solver.
Qed.

Lemma view_lookups (o : obj) (d : dest) :
  view o = Some d ->
  o !! "city" = Some (VStr (city d)) /\
  o !! "country" = Some (VStr (country d)) /\
  o !! "start_date" = Some (VDatetime (start_date d)) /\
  o !! "end_date" = Some (VDatetime (end_date d)) /\
  o !! "budget" = Some (budget d) /\
  o !! "activities" = Some (VList (map VStr (activities d))).
Proof.
  unfold view. intros H.
  repeat case_match; try discriminate.
  destruct (strs _) as [a|] eqn:Ha; [|discriminate].
  apply strs_map in Ha. inversion H. subst. simpl. repeat split; reflexivity.
Qed.

(** A well-formed instance is the dictionary [__init__] builds from its
    typed view. *)
Lemma well_formed_obj_of (o : obj) :
  well_formed o = true ->
  exists d, view o = Some d /\ o = obj_of d /\ numeric (budget d) = true.
Proof.
  unfold well_formed. intros H. apply andb_prop in H. destruct H as [Hdom H].
  apply bool_decide_eq_true in Hdom.
  destruct (view o) as [d|] eqn:Hview; [|discriminate].
  exists d. split; [reflexivity|]. split; [|exact H].
  destruct (view_lookups _ _ Hview) as (H1 & H2 & H3 & H4 & H5 & H6).
  apply map_eq. intros k.
  destruct (decide (k = "city")) as [->|]; [rewrite H1; reflexivity|].
  destruct (decide (k = "country")) as [->|]; [rewrite H2; reflexivity|].
  destruct (decide (k = "start_date")) as [->|]; [rewrite H3; reflexivity|].
  destruct (decide (k = "end_date")) as [->|]; [rewrite H4; reflexivity|].
  destruct (decide (k = "budget")) as [->|]; [rewrite H5; reflexivity|].
  destruct (decide (k = "activities")) as [->|]; [rewrite H6; reflexivity|].
  assert (Hk : k ∉ (list_to_set Destination.fields : gset string)).
  { rewrite elem_of_list_to_set. unfold Destination.fields.
    rewrite !elem_of_cons, elem_of_nil. intuition. }
  transitivity (@None value).
  - apply not_elem_of_dom. rewrite Hdom. exact Hk.
  - symmetry. apply not_elem_of_dom. rewrite dom_obj_of. exact Hk.
Qed.

Lemma well_formed_of (d : dest) :
  numeric (budget d) = true -> well_formed (obj_of d) = true.
Proof.
  intros H. unfold well_formed. rewrite view_obj_of, H, andb_true_r.
  apply bool_decide_eq_true. apply dom_obj_of.
Qed.

(** ** Serialisation *)

Lemma to_dict_obj_of (d : dest) :
  Destination.to_dict (obj_of d) =
  Return (VDict [("city", VStr (city d)); ("country", VStr (country d));
                 ("start_date", VStr (Date.strftime (start_date d)));
                 ("end_date", VStr (Date.strftime (end_date d)));
                 ("budget", budget d);
                 ("activities", VList (map VStr (activities d)))]).
Proof. reflexivity. Qed.

Lemma from_dict_record (c n s e b a : value) (ds de : datetime) :
  strptime_of s = Return (VDatetime ds) ->
  strptime_of e = Return (VDatetime de) ->
  Destination.from_dict
    (VDict [("city", c); ("country", n); ("start_date", s); ("end_date", e);
            ("budget", b); ("activities", a)]) =
  Return (Destination.init c n (VDatetime ds) (VDatetime de) b a).
Proof.
  intros Hs He. unfold Destination.from_dict. simpl. rewrite Hs. simpl. rewrite He.
  reflexivity.
Qed.

Lemma strptime_of_strftime (dt : datetime) :
  Date.valid dt = true -> Date.no_time dt = true -> 1000 <= year dt ->
  strptime_of (VStr (Date.strftime dt)) = Return (VDatetime dt).
Proof.
  intros Hv Hn Hy. unfold strptime_of.
  rewrite strptime_strftime by assumption. rewrite midnight_no_time by exact Hn.
  reflexivity.
Qed.

Lemma strptime_of_strftime_short (dt : datetime) :
  0 <= year dt < 1000 ->
  strptime_of (VStr (Date.strftime dt))
  = Raise (Exn ValueError ("time data does not match format: " +:+ Date.strftime dt)).
Proof. intros H. unfold strptime_of. rewrite (strptime_strftime_short dt H). reflexivity. Qed.

Lemma four_digit_years_le (d : dest) :
  four_digit_years d = true -> 1000 <= year (start_date d) /\ 1000 <= year (end_date d).
Proof. unfold four_digit_years. rewrite andb_true_iff, !Z.leb_le. auto. Qed.

(** From the year 1000 on the round trip holds: for every valid
    destination whose dates carry no time of day and have four-digit
    years, [from_dict (to_dict d)] rebuilds an instance equal to [d]. *)
Lemma from_dict_to_dict_four_digit_years (o : obj) (d : dest) :
  valid_destination o = true -> view o = Some d -> four_digit_years d = true ->
  obind (Destination.to_dict o) Destination.from_dict = Return o.
Proof.
  unfold valid_destination. intros H Hv Hy. apply andb_prop in H. destruct H as [Hwf Hd].
  destruct (well_formed_obj_of o Hwf) as (d0 & Hview & -> & Hnum).
  rewrite Hview in Hd. rewrite Hview in Hv. inversion Hv. subst d0.
  unfold plain_dates in Hd. rewrite !andb_true_iff in Hd.
  destruct Hd as (((Hs1 & Hs2) & He1) & He2).
  destruct (four_digit_years_le d Hy) as [Hy1 Hy2].
  rewrite to_dict_obj_of. simpl.
  rewrite (from_dict_record _ _ _ _ _ _ (start_date d) (end_date d))
    by (apply strptime_of_strftime; assumption).
  reflexivity.
Qed.

(** C4.  The round trip fails below the year 1000.  The trip to Rome of
    987 is a valid destination, with dates at midnight; [to_dict] writes
    its start date as the seven characters the C library prints for it,
    and [from_dict] refuses that record with a [ValueError], where the
    claim has it rebuild the destination. *)
Theorem from_dict_to_dict_fails_before_1000 :
  valid_destination (obj_of Sample.rome) = true /\
  Destination.to_dict (obj_of Sample.rome)
  = Return (VDict [("city", VStr "Rome"); ("country", VStr "Italy");
                   ("start_date", VStr "987-01-02"); ("end_date", VStr "987-01-09");
                   ("budget", VFloat Sample.two_thousand);
                   ("activities", VList [VStr "forum"])]) /\
  obind (Destination.to_dict (obj_of Sample.rome)) Destination.from_dict
  = Raise (Exn ValueError "time data does not match format: 987-01-02").
Proof. split; [reflexivity|]. split; reflexivity. Qed.

(** The same trip a thousand and more years later comes back as it was. *)
Example from_dict_to_dict_paris :
  obind (Destination.to_dict (obj_of Sample.paris)) Destination.from_dict
  = Return (obj_of Sample.paris).
Proof.
  apply (from_dict_to_dict_four_digit_years _ Sample.paris); reflexivity.
Qed.

(** A time of day does not survive: the format keeps the date only. *)
Example from_dict_to_dict_drops_time :
  obind (Destination.to_dict
           (obj_of (mk_dest "Paris" "France" (mk_datetime 2025 6 1 9 30 0 0)
                            (Date.midnight 2025 6 10) (VInt 1) ["food"])))
        Destination.from_dict
  = Return (obj_of (mk_dest "Paris" "France" (Date.midnight 2025 6 1)
                            (Date.midnight 2025 6 10) (VInt 1) ["food"])).
Proof. reflexivity. Qed.

(** ** The budget parser *)

(** C9.  [check_positive] fails, with a [ValueError], exactly when the
    string does not parse as a float or parses to a value [<= 0], and it
    has no other failure; a string that parses to a value above zero is
    accepted and that value returned. *)
Theorem check_positive_spec (s : string) :
  ((exists e, check_positive s = Raise e) <->
   (Float.of_string s = None \/
    exists v, Float.of_string s = Some v /\ Float.le v Float.zero = true)) /\
  (forall e, check_positive s = Raise e -> exists msg, e = Exn ValueError msg) /\
  (forall v, Float.of_string s = Some v -> Float.lt Float.zero v = true ->
             check_positive s = Return v).
Proof.
  unfold check_positive. destruct (Float.of_string s) as [v|] eqn:Hp.
  - destruct (Float.le v Float.zero) eqn:Hle.
    + split; [|split].
      * split; [intros _; right; exists v; auto | intros _; eauto].
      * intros e He. inversion He. eauto.
      * intros v' Hv' Hpos. inversion Hv'; subst.
        rewrite (positive_not_le_zero _ Hpos) in Hle. discriminate.
    + split; [|split].
      * split; [intros [e He]; discriminate |].
        intros [H | (v' & Hv' & Hle')]; [discriminate|].
        inversion Hv'; subst. congruence.
      * intros e He. discriminate.
      * intros v' Hv' _. inversion Hv'. reflexivity.
  - split; [|split].
    + split; [intros _; left; reflexivity | intros _; eauto].
    + intros e He. inversion He. eauto.
    + intros v Hv. discriminate.
Qed.

Lemma check_positive_spec_witness :
  check_positive "0.01" = Return (S754_finite false 5764607523034235 (-59)).
Proof.
  apply (proj2 (proj2 (check_positive_spec "0.01"))); vm_compute; reflexivity.
Defined.

Example check_positive_zero :
  check_positive "0" = Raise (Exn ValueError "Budget Value must be positive.").
Proof. vm_compute. reflexivity. Qed.

Example check_positive_negative :
  check_positive "-5" = Raise (Exn ValueError "Budget Value must be positive.").
Proof. vm_compute. reflexivity. Qed.

Example check_positive_text :
  check_positive "lots" = Raise (Exn ValueError "could not convert string to float: lots").
Proof. vm_compute. reflexivity. Qed.

(** [float] reads "nan", and a NaN is not [<= 0]: it passes the check. *)
Example check_positive_nan : check_positive "nan" = Return S754_nan.
Proof. vm_compute. reflexivity. Qed.

(** ** Searching *)

(** C10.  [search_destination] leaves the whole state as it found it, the
    ordered collection and every field of every instance included,
    whatever the term and whether or not it raises. *)
Theorem search_destination_frame (s : string) (st : state) :
  snd (ItineraryManager.search_destination s st) = st /\
  destinations (snd (ItineraryManager.search_destination s st)) = destinations st /\
  forall a, deref a (snd (ItineraryManager.search_destination s st)) = deref a st.
Proof.
  assert (H : snd (ItineraryManager.search_destination s st) = st) by reflexivity.
  rewrite H. auto.
Qed.

(** ** Selecting from a list *)

Lemma selects_filter {A} (P : A -> Prop) (f : A -> bool) (l : list A) :
  (forall x, x ∈ l -> (f x = true <-> P x)) ->
  selects P l (List.filter f l).
Proof.
  induction l as [|x l IH]; intros H; simpl.
  - constructor.
  - assert (Hl : forall y, y ∈ l -> (f y = true <-> P y)).
    { intros y Hy. apply H. right. exact Hy. }
    destruct (f x) eqn:Hx.
    + apply selects_keep; [apply H; [left | exact Hx] | apply IH, Hl].
    + apply selects_drop; [| apply IH, Hl].
      intros HP. apply H in HP; [congruence | left].
Qed.

Lemma selects_all {A} (P : A -> Prop) (l res : list A) :
  (forall x, x ∈ l -> P x) -> selects P l res -> res = l.
Proof.
  intros H Hs. induction Hs as [|x l res Hx Hs IH|x l res Hx Hs IH].
  - reflexivity.
  - f_equal. apply IH. intros y Hy. apply H. right. exact Hy.
  - exfalso. apply Hx, H. left.
Qed.

Lemma selects_sublist {A} (P : A -> Prop) (l res : list A) :
  selects P l res -> sublist res l.
Proof.
  induction 1; [constructor | apply sublist_skip | apply sublist_cons]; assumption.
Qed.

Lemma selects_elem_of {A} (P : A -> Prop) (l res : list A) (x : A) :
  selects P l res -> (x ∈ res <-> x ∈ l /\ P x).
Proof.
  induction 1 as [|y l res Hy Hs IH|y l res Hy Hs IH].
  - split; [intros H | intros [H _]]; inversion H.
  - rewrite !elem_of_cons, IH. split.
    + intros [->|[H1 H2]]; auto.
    + intros [[->|H1] H2]; auto.
  - rewrite elem_of_cons, IH. split.
    + intros [H1 H2]; auto.
    + intros [[->|H1] H2]; [contradiction | auto].
Qed.

(** ** Searching, continued *)

Lemma any_contains_strs (s : string) (l : list string) :
  ItineraryManager.any_contains s (map VStr l) =
  Return (existsb (fun a => Str.contains s (Str.lower a)) l).
Proof.
  induction l as [|a l IH]; simpl; [reflexivity|].
  destruct (Str.contains s (Str.lower a)); [reflexivity | exact IH].
Qed.

Lemma hit_view (term : string) (o : obj) (d : dest) :
  view o = Some d ->
  ItineraryManager.hit (Str.lower term) o = Return (mentionsb term d).
Proof.
  intros Hview. destruct (view_lookups o d Hview) as (Hc & Hn & _ & _ & _ & Ha).
  unfold ItineraryManager.hit, Destination.getattr, mentionsb.
  rewrite Hc. simpl.
  destruct (Str.contains _ (Str.lower (city d))); [reflexivity|].
  rewrite Hn. simpl.
  destruct (Str.contains _ (Str.lower (country d))); [reflexivity|].
  rewrite Ha. simpl. apply any_contains_strs.
Qed.

Lemma mentionsb_mentions (term : string) (d : dest) :
  mentionsb term d = true <-> mentions term d.
Proof.
  unfold mentionsb, mentions.
  rewrite !orb_true_iff, !contains_occurs, existsb_exists.
  assert (Hex : (exists a, In a (activities d) /\
                   Str.contains (Str.lower term) (Str.lower a) = true) <->
                (exists a, a ∈ activities d /\ occurs term a)).
  { split; intros (a & Ha & Hc); exists a;
      (split; [apply list_elem_of_In, Ha | apply contains_occurs, Hc]). }
  rewrite Hex. tauto.
Qed.

Lemma mentions_empty (d : dest) : mentions EmptyString d.
Proof. left. apply contains_occurs. apply contains_empty. Qed.

Lemma hits_filter (term : string) (st : state) (l : list addr) :
  (forall a, a ∈ l -> exists d, view (deref a st) = Some d) ->
  ItineraryManager.hits (Str.lower term) st l = Return (List.filter (hitb term st) l).
Proof.
  induction l as [|a l IH]; intros H; simpl; [reflexivity|].
  destruct (H a) as (d & Hview); [left|].
  unfold hitb at 1. rewrite Hview, (hit_view term _ d Hview). simpl.
  rewrite IH by (intros b Hb; apply H; right; exact Hb). simpl.
  destruct (mentionsb term d); reflexivity.
Qed.

Lemma hitb_entry (term : string) (st : state) (a : addr) :
  hitb term st a = true <-> entry st (mentions term) a.
Proof.
  unfold hitb, entry. destruct (view (deref a st)) as [d|].
  - rewrite mentionsb_mentions. split.
    + intros H. exists d. auto.
    + intros (d' & Hd' & H). inversion Hd'. subst. exact H.
  - split; [discriminate | intros (d' & Hd' & _); discriminate].
Qed.

(** C5.  On a collection of destinations, entries with their fields at
    their types, the search returns the entries whose city, country or
    some activity contains the term when case is ignored: exactly those,
    in the order of the collection, hence a sublist of it; and the empty
    term returns the whole collection. *)
Theorem search_destination_spec (term : string) (st : state) :
  typed_state st ->
  exists res,
    ItineraryManager.search_destination term st = (Return res, st) /\
    selects (entry st (mentions term)) (destinations st) res /\
    sublist res (destinations st) /\
    (forall a, a ∈ res <-> a ∈ destinations st /\ entry st (mentions term) a) /\
    (term = EmptyString -> res = destinations st).
Proof.
  intros Hwf. exists (List.filter (hitb term st) (destinations st)).
  assert (Hsel : selects (entry st (mentions term)) (destinations st)
                   (List.filter (hitb term st) (destinations st))).
  { apply selects_filter. intros a _. apply hitb_entry. }
  split; [|split; [exact Hsel | split; [|split]]].
  - unfold ItineraryManager.search_destination, bind, get_destinations.
    rewrite hits_filter by exact Hwf. reflexivity.
  - eapply selects_sublist, Hsel.
  - intros a. eapply selects_elem_of, Hsel.
  - intros ->. eapply selects_all; [|exact Hsel].
    intros a Ha. destruct (Hwf a Ha) as (d & Hview).
    exists d. split; [exact Hview | apply mentions_empty].
Qed.

(** ** Removing *)

Lemma city_is_view (c : string) (st : state) (a : addr) (d : dest) :
  view (deref a st) = Some d ->
  ItineraryManager.city_is c (deref a st) = Return (cityb c st a).
Proof.
  intros Hview. destruct (view_lookups _ d Hview) as (Hc & _).
  unfold cityb, ItineraryManager.city_is, Destination.getattr. rewrite Hview, Hc.
  reflexivity.
Qed.

Lemma city_is_well_formed (c : string) (st : state) (a : addr) :
  well_formed (deref a st) = true ->
  ItineraryManager.city_is c (deref a st) = Return (cityb c st a).
Proof.
  intros H. destruct (well_formed_obj_of _ H) as (d & Hview & _).
  apply (city_is_view c st a d Hview).
Qed.

Lemma cityb_entry (c : string) (st : state) (a : addr) :
  cityb c st a = true <-> entry st (same_city c) a.
Proof.
  unfold cityb, entry, same_city. destruct (view (deref a st)) as [d|].
  - rewrite String.eqb_eq. split.
    + intros H. exists d. auto.
    + intros (d' & Hd' & H). inversion Hd'. subst. exact H.
  - split; [discriminate | intros (d' & Hd' & _); discriminate].
Qed.

Lemma matching_filter (c : string) (st : state) (l : list addr) :
  (forall a, a ∈ l -> exists d, view (deref a st) = Some d) ->
  ItineraryManager.matching c st l = Return (List.filter (cityb c st) l).
Proof.
  induction l as [|a l IH]; intros H; simpl; [reflexivity|].
  destruct (H a) as (d & Hview); [left|].
  rewrite (city_is_view c st a d Hview). simpl.
  rewrite IH by (intros b Hb; apply H; right; exact Hb). simpl.
  destruct (cityb c st a); reflexivity.
Qed.

Lemma list_remove_middle (x : addr) (q l : list addr) :
  x ∉ q -> ItineraryManager.list_remove x (q ++ x :: l) = Some (q ++ l).
Proof.
  induction q as [|y q IH]; intros H; simpl.
  - rewrite Nat.eqb_refl. reflexivity.
  - destruct (Nat.eqb_spec y x) as [->|Hne].
    + exfalso. apply H. left.
    + rewrite IH; [reflexivity|]. intros Hq. apply H. right. exact Hq.
Qed.

(** Removing, one [list.remove] at a time, every element that satisfies
    [f] leaves the elements that do not, order kept; also when an instance
    occurs more than once. *)
Lemma remove_each_filter (f : addr -> bool) (l q : list addr) (st : state) :
  (forall x, x ∈ q -> f x = false) ->
  destinations st = q ++ l ->
  ItineraryManager.remove_each (List.filter f l) st =
  (Return tt, set_destinations (q ++ List.filter (fun x => negb (f x)) l) st).
Proof.
  revert q st. induction l as [|x l IH]; intros q st Hq Hst; simpl.
  - unfold ret. rewrite <- Hst. destruct st; reflexivity.
  - destruct (f x) eqn:Hx; simpl.
    + unfold bind, get_destinations. rewrite Hst.
      rewrite list_remove_middle by (intros Hin; apply Hq in Hin; congruence).
      unfold put_destinations.
      rewrite (IH q (set_destinations (q ++ l) st) Hq eq_refl). reflexivity.
    + replace (q ++ x :: List.filter (fun y => negb (f y)) l)
        with ((q ++ [x]) ++ List.filter (fun y => negb (f y)) l)
        by (rewrite <- app_assoc; reflexivity).
      apply IH.
      * intros y Hy. apply elem_of_app in Hy. destruct Hy as [Hy|Hy]; [apply Hq, Hy|].
        apply list_elem_of_singleton in Hy. subst. exact Hx.
      * rewrite Hst, <- app_assoc. reflexivity.
Qed.

Lemma filter_nil_none {A} (f : A -> bool) (l : list A) :
  List.filter f l = [] <-> forall x, x ∈ l -> f x = false.
Proof.
  induction l as [|x l IH]; simpl.
  - split; [intros _ y Hy; inversion Hy | reflexivity].
  - destruct (f x) eqn:Hx.
    + split; [discriminate | intros H; specialize (H x); rewrite Hx in H].
      discriminate H. left.
    + rewrite IH. split.
      * intros H y Hy. apply elem_of_cons in Hy. destruct Hy as [->|Hy]; auto.
      * intros H y Hy. apply H. right. exact Hy.
Qed.

Lemma filter_negb_length {A} (f : A -> bool) (l : list A) :
  (length (List.filter (fun x => negb (f x)) l) + length (List.filter f l) = length l)%nat.
Proof.
  induction l as [|x l IH]; simpl; [reflexivity|].
  destruct (f x); simpl; lia.
Qed.

(** C6.  On a collection of destinations, entries with their fields at
    their types, [remove_destination] returns normally with a boolean; the
    collection keeps exactly the
    entries whose city differs from the argument when case is ignored, in
    their order, so every match goes, not only the first; the instances
    are untouched; and the boolean is true exactly when some entry
    matched, which is exactly when the collection got shorter. *)
Theorem remove_destination_spec (c : string) (st : state) :
  typed_state st ->
  exists b st',
    ItineraryManager.remove_destination c st = (Return b, st') /\
    selects (fun a => ~ entry st (same_city c) a) (destinations st) (destinations st') /\
    heap st' = heap st /\
    (b = true <-> exists a, a ∈ destinations st /\ entry st (same_city c) a) /\
    (b = true <-> (length (destinations st') < length (destinations st))%nat).
Proof.
  intros Hwf.
  set (f := cityb c st). set (l := destinations st).
  assert (Hkeep : selects (fun a => ~ entry st (same_city c) a) l
                    (List.filter (fun x => negb (f x)) l)).
  { apply selects_filter. intros a _. unfold f.
    rewrite negb_true_iff, <- cityb_entry. destruct (cityb c st a); split; congruence. }
  assert (Hex : forall b : bool,
            (b = true <-> exists a, a ∈ l /\ f a = true) ->
            (b = true <-> exists a, a ∈ l /\ entry st (same_city c) a)).
  { intros b ->. split; intros (a & Ha & H); exists a; (split; [exact Ha|]);
      apply cityb_entry; exact H. }
  pose proof (filter_negb_length f l) as Hlen.
  unfold ItineraryManager.remove_destination, bind, get_destinations. fold l.
  rewrite matching_filter by exact Hwf. fold f.
  destruct (List.filter f l) as [|x dl] eqn:Hf.
  - exists false. eexists. split; [reflexivity|]. simpl. fold l.
    assert (Hnone := proj1 (filter_nil_none f l) Hf).
    assert (Hall : List.filter (fun x => negb (f x)) l = l).
    { clear -Hnone. induction l as [|x l IH]; simpl; [reflexivity|].
      rewrite (Hnone x) by left. simpl. f_equal. apply IH.
      intros y Hy. apply Hnone. right. exact Hy. }
    rewrite Hall in Hkeep. split; [exact Hkeep|]. split; [reflexivity|]. split.
    + apply Hex. split; [discriminate|]. intros (a & Ha & H). rewrite Hnone in H; congruence.
    + split; [discriminate | lia].
  - rewrite <- Hf.
    rewrite (remove_each_filter f l [] st) by (first [intros y Hy; inversion Hy | reflexivity]).
    exists true. eexists. split; [reflexivity|]. simpl.
    split; [exact Hkeep|]. split; [reflexivity|]. split.
    + apply Hex. split; [intros _|reflexivity]. exists x.
      assert (Hin : In x (List.filter f l)) by (rewrite Hf; left; reflexivity).
      apply filter_In in Hin. destruct Hin as [Hin Hx]. split; [apply list_elem_of_In, Hin | exact Hx].
    + split; [intros _ | reflexivity]. simpl in Hlen. fold l. lia.
Qed.

(** ** Updating *)

Lemma mem_elem_of (k : string) (l : list string) :
  Destination.mem k l = true <-> k ∈ l.
Proof.
  unfold Destination.mem. rewrite existsb_exists. split.
  - intros (x & Hx & He). apply String.eqb_eq in He. subst. apply list_elem_of_In, Hx.
  - intros H. exists k. split; [apply list_elem_of_In, H | apply String.eqb_refl].
Qed.

Lemma assign_all_cons (kv : string * value) (kw : list (string * value)) (o : obj) :
  assign_all (kv :: kw) o = assign_all kw (assign o kv).
Proof. reflexivity. Qed.

Lemma lookup_assign (o : obj) (k' : string) (v : value) (k : string) :
  assign o (k', v) !! k =
  match v with
  | VNone => o !! k
  | _ => if String.eqb k k' then Some v else o !! k
  end.
Proof.
  unfold assign. simpl.
  destruct v; try reflexivity;
    (destruct (String.eqb_spec k k') as [->|Hne];
     [apply lookup_insert_eq | apply lookup_insert_ne; congruence]).
Qed.

(** After the keywords, a name holds the last value they gave it, or what
    it held before. *)
Lemma lookup_assign_all (kw : list (string * value)) (o : obj) (k : string) :
  assign_all kw o !! k =
  match assigned k kw with
  | Some v => Some v
  | None => o !! k
  end.
Proof.
  revert o. induction kw as [|[k' v] kw IH]; intros o; [reflexivity|].
  rewrite assign_all_cons, IH. simpl.
  destruct (assigned k kw); [reflexivity|].
  rewrite lookup_assign. destruct v; try reflexivity; destruct (String.eqb k k'); reflexivity.
Qed.

Lemma assign_all_idem (kw : list (string * value)) (o : obj) :
  assign_all kw (assign_all kw o) = assign_all kw o.
Proof.
  apply map_eq. intros k. rewrite !lookup_assign_all.
  destruct (assigned k kw); reflexivity.
Qed.


Lemma none_or_not (v : value) : {v = VNone} + {v <> VNone}.
Proof. destruct v; [left; reflexivity | right; discriminate ..]. Qed.

(** One valid keyword on a well-formed instance: the attribute exists, the
    assignment is a plain store, and the instance stays well formed with
    the city it had. *)
Lemma valid_update_step (d : dest) (k : string) (v : value) :
  numeric (budget d) = true -> valid_update (k, v) = true -> v <> VNone ->
  Destination.hasattr (obj_of d) k = true /\
  Destination.setattr (obj_of d) k v = Return (<[k := v]> (obj_of d)) /\
  exists d', <[k := v]> (obj_of d) = obj_of d' /\
             numeric (budget d') = true /\ city d' = city d.
Proof.
  intros Hn Hv Hnone. unfold valid_update in Hv.
  destruct v as [|b|n|f|s|a|kv|dt]; try discriminate; try congruence.
  - apply andb_prop in Hv. destruct Hv as [Hk Hnum]. apply String.eqb_eq in Hk. subst k.
    repeat split; try reflexivity.
    exists (mk_dest (city d) (country d) (start_date d) (end_date d) (VInt n) (activities d)).
    repeat split; try reflexivity; assumption.
  - apply andb_prop in Hv. destruct Hv as [Hk Hnum]. apply String.eqb_eq in Hk. subst k.
    repeat split; try reflexivity.
    exists (mk_dest (city d) (country d) (start_date d) (end_date d) (VFloat f) (activities d)).
    repeat split; try reflexivity; assumption.
  - apply String.eqb_eq in Hv. subst k. repeat split; try reflexivity.
    exists (mk_dest (city d) s (start_date d) (end_date d) (budget d) (activities d)).
    repeat split; try reflexivity; assumption.
  - apply andb_prop in Hv. destruct Hv as [Hk Ha]. apply String.eqb_eq in Hk. subst k.
    destruct (strs a) as [l|] eqn:Hl; [|discriminate]. apply strs_map in Hl. subst a.
    repeat split; try reflexivity.
    exists (mk_dest (city d) (country d) (start_date d) (end_date d) (budget d) l).
    repeat split; try reflexivity; assumption.
  - apply orb_prop in Hv. destruct Hv as [Hk|Hk]; apply String.eqb_eq in Hk; subst k.
    + repeat split; try reflexivity.
      exists (mk_dest (city d) (country d) dt (end_date d) (budget d) (activities d)).
      repeat split; try reflexivity; assumption.
    + repeat split; try reflexivity.
      exists (mk_dest (city d) (country d) (start_date d) dt (budget d) (activities d)).
      repeat split; try reflexivity; assumption.
Qed.

Lemma update_loop_valid (kw : list (string * value)) (d : dest) :
  numeric (budget d) = true -> forallb valid_update kw = true ->
  Destination.update_loop (obj_of d) kw = (Return tt, assign_all kw (obj_of d)) /\
  exists d', assign_all kw (obj_of d) = obj_of d' /\
             numeric (budget d') = true /\ city d' = city d.
Proof.
  revert d. induction kw as [|[k v] kw IH]; intros d Hn Hv.
  - split; [reflexivity|]. exists d. auto.
  - simpl in Hv. apply andb_prop in Hv. destruct Hv as [Hkv Hv].
    rewrite assign_all_cons.
    destruct (none_or_not v) as [->|Hne].
    + simpl. unfold assign. simpl. apply IH; assumption.
    + destruct (valid_update_step d k v Hn Hkv Hne) as (Hh & Hs & d' & Hd' & Hn' & Hc).
      assert (Ha : assign (obj_of d) (k, v) = obj_of d').
      { rewrite <- Hd'. unfold assign. simpl. destruct v; congruence. }
      rewrite Ha. destruct (IH d' Hn' Hv) as (Hloop & d'' & Hd'' & Hn'' & Hc'').
      split.
      * simpl. rewrite Hh, Hs, Hd', Hloop. destruct v; congruence.
      * exists d''. repeat split; [exact Hd'' | exact Hn'' | congruence].
Qed.

Lemma valid_update_key (k : string) (v : value) :
  valid_update (k, v) = true -> k <> "self" /\ k <> "city".
Proof.
  intros H. split; intros ->; destruct v; simpl in H; discriminate.
Qed.

Lemma mem_cons (k x : string) (l : list string) :
  Destination.mem k (x :: l) = String.eqb k x || Destination.mem k l.
Proof. reflexivity. Qed.

Lemma valid_updates_keys (kw : list (string * value)) :
  forallb valid_update kw = true ->
  Destination.mem "self" (map fst kw) = false /\
  Destination.mem "city" (map fst kw) = false.
Proof.
  induction kw as [|[k v] kw IH]; intros H; [split; reflexivity|].
  simpl in H. apply andb_prop in H. destruct H as [Hkv H].
  destruct (IH H) as [H1 H2]. destruct (valid_update_key k v Hkv) as [Hs Hc].
  cbn [map fst]. rewrite !mem_cons, H1, H2, !orb_false_r.
  split; apply String.eqb_neq; congruence.
Qed.

Lemma strings_of_strs (l : list string) : strings_of (map VStr l) = Return l.
Proof. induction l as [|s l IH]; simpl; [|rewrite IH]; reflexivity. Qed.

Lemma fixed2_numeric (b : value) :
  numeric b = true -> fixed2_text b = Return (Fixed2 b).
Proof.
  destruct b; simpl; try discriminate; [|reflexivity].
  destruct (Float.of_int n); [reflexivity | discriminate].
Qed.

Lemma str_obj_of (d : dest) :
  numeric (budget d) = true -> Destination.str (obj_of d) = Return (shown d).
Proof.
  intros Hn. unfold Destination.str, Destination.getattr.
  rewrite obj_of_activities, obj_of_city, obj_of_country, obj_of_start_date,
    obj_of_end_date, obj_of_budget.
  unfold join_of. simpl. rewrite strings_of_strs. simpl.
  rewrite (fixed2_numeric _ Hn). reflexivity.
Qed.

Lemma update_details_valid (kw : list (string * value)) (d : dest) :
  numeric (budget d) = true -> forallb valid_update kw = true ->
  Destination.update_details (obj_of d) kw = (Return tt, assign_all kw (obj_of d)).
Proof.
  intros Hn Hv. unfold Destination.update_details.
  rewrite (proj1 (valid_updates_keys kw Hv)). apply update_loop_valid; assumption.
Qed.

Lemma inb_elem_of (a : addr) (l : list addr) : inb a l = true <-> a ∈ l.
Proof.
  unfold inb. rewrite existsb_exists. split.
  - intros (x & Hx & He). apply Nat.eqb_eq in He. subst. apply list_elem_of_In, Hx.
  - intros H. exists a. split; [apply list_elem_of_In, H | apply Nat.eqb_refl].
Qed.

Lemma deref_set_heap (a b : addr) (o : obj) (st : state) :
  deref b (set_heap (<[a := o]> (heap st)) st) = if Nat.eqb b a then o else deref b st.
Proof.
  unfold deref. simpl. destruct (Nat.eqb_spec b a) as [->|Hne].
  - rewrite lookup_insert_eq. reflexivity.
  - rewrite lookup_insert_ne by congruence. reflexivity.
Qed.

Lemma existsb_ext_in {A} (f g : A -> bool) (l : list A) :
  (forall x, f x = g x) -> existsb f l = existsb g l.
Proof. intros H. induction l as [|x l IH]; simpl; [|rewrite H, IH]; reflexivity. Qed.

(** The loop of [update_destination] over well-formed entries with valid
    keywords: it ends normally, reports whether an entry matched, and has
    applied the keywords to the matching entries and to nothing else. *)
Lemma update_each_valid (c : string) (kw : list (string * value)) (l : list addr) :
  forallb valid_update kw = true ->
  forall (st : state) (found : bool),
  (forall a, a ∈ l -> well_formed (deref a st) = true) ->
  exists st',
    ItineraryManager.update_each c kw l found st
      = (Return (found || existsb (cityb c st) l), st') /\
    destinations st' = destinations st /\
    forall a, deref a st' =
              if inb a l && cityb c st a then assign_all kw (deref a st) else deref a st.
Proof.
  intros Hv. induction l as [|a l IH]; intros st found Hwf.
  - exists st. simpl. rewrite orb_false_r. auto.
  - assert (Hl : forall b, b ∈ l -> well_formed (deref b st) = true)
      by (intros b Hb; apply Hwf; right; exact Hb).
    destruct (well_formed_obj_of (deref a st)) as (d & Hview & Ho & Hn); [apply Hwf; left|].
    simpl. unfold bind at 1. rewrite city_is_well_formed by (apply Hwf; left).
    destruct (cityb c st a) eqn:Hc.
    + destruct (update_loop_valid kw d Hn Hv) as (_ & d' & Hd' & Hn' & Hcity).
      set (st1 := set_heap (<[a := obj_of d']> (heap st)) st).
      set (st2 := mk_state (heap st1) (next st1) (destinations st1) (files st1) (stdin st1)
                    (stdout st1 ++ [([Text ("Updated destination details " +:+ Str.nl); Text " "]
                                      ++ shown d') ++ [Text Str.nl]])).
      assert (Hderef : forall b, deref b st2 = if Nat.eqb b a then obj_of d' else deref b st).
      { intros b. apply (deref_set_heap a b (obj_of d') st). }
      assert (Hcityb : forall b, cityb c st2 b = cityb c st b).
      { intros b. unfold cityb. rewrite Hderef. destruct (Nat.eqb_spec b a) as [->|]; [|reflexivity].
        rewrite view_obj_of, Hview, Hcity. reflexivity. }
      destruct (IH st2 true) as (st' & Hrun & Hdest & Hheap).
      { intros b Hb. rewrite Hderef. destruct (Nat.eqb b a); [apply well_formed_of, Hn' | apply Hl, Hb]. }
      exists st'. split; [|split].
      * unfold bind. unfold ItineraryManager.call_update_details.
        assert (Hshadow : deref a st !! "update_details" = None) by (rewrite Ho; reflexivity).
        rewrite Hshadow. rewrite Ho at 1. rewrite (update_details_valid kw d Hn Hv), Hd'.
        fold st1. unfold ItineraryManager.print_updated, bind.
        assert (Hd1 : deref a st1 = obj_of d').
        { unfold st1. rewrite deref_set_heap, Nat.eqb_refl. reflexivity. }
        rewrite Hd1, (str_obj_of d' Hn'). unfold print. fold st2.
        unfold bind in Hrun. rewrite Hrun. rewrite orb_true_r. reflexivity.
      * rewrite Hdest. reflexivity.
      * intros b. rewrite Hheap, Hcityb, Hderef. simpl inb.
        destruct (Nat.eqb_spec b a) as [->|Hne]; simpl.
        -- rewrite Hc, Ho, <- Hd'. rewrite andb_true_r.
           destruct (inb a l); [apply assign_all_idem | reflexivity].
        -- reflexivity.
    + destruct (IH st found Hl) as (st' & Hrun & Hdest & Hheap).
      exists st'. split; [|split].
      * unfold bind in Hrun |- *. exact Hrun.
      * exact Hdest.
      * intros b. rewrite Hheap. simpl inb.
        destruct (Nat.eqb_spec b a) as [->|Hne]; simpl; [|reflexivity].
        rewrite Hc, andb_false_r. reflexivity.
Qed.

(** C7, amended.  On a collection of well-formed destinations and for
    every list of valid updates of the fields other than the city,
    [update_destination] returns normally; it has applied [update_details]
    with those keywords to every entry whose city matches when case is
    ignored, has left every other instance and the collection itself as
    they were, and returns true exactly when some entry matched. *)
Theorem update_destination_spec (c : string) (kw : list (string * value)) (st : state) :
  well_formed_state st ->
  forallb valid_update kw = true ->
  exists found st',
    ItineraryManager.update_destination c kw st = (Return found, st') /\
    destinations st' = destinations st /\
    (forall a, a ∈ destinations st -> entry st (same_city c) a ->
               Destination.update_details (deref a st) kw = (Return tt, deref a st')) /\
    (forall a, ~ (a ∈ destinations st /\ entry st (same_city c) a) ->
               deref a st' = deref a st) /\
    (found = true <-> exists a, a ∈ destinations st /\ entry st (same_city c) a).
Proof.
  intros Hwf Hv.
  destruct (update_each_valid c kw (destinations st) Hv st false Hwf)
    as (st1 & Hrun & Hdest & Hheap).
  destruct (valid_updates_keys kw Hv) as [Hself Hcity].
  set (found := existsb (cityb c st) (destinations st)).
  assert (Hfound : found = true <-> exists a, a ∈ destinations st /\ entry st (same_city c) a).
  { unfold found. rewrite existsb_exists. split; intros (a & Ha & H); exists a.
    - split; [apply list_elem_of_In, Ha | apply cityb_entry, H].
    - split; [apply list_elem_of_In, Ha | apply cityb_entry, H]. }
  assert (Hmatch : forall a st', (forall b, deref b st' = deref b st1) ->
            a ∈ destinations st -> entry st (same_city c) a ->
            Destination.update_details (deref a st) kw = (Return tt, deref a st')).
  { intros a st' Heq Ha He. rewrite Heq, Hheap.
    rewrite (proj2 (inb_elem_of a _) Ha), (proj2 (cityb_entry c st a) He). simpl.
    destruct (well_formed_obj_of (deref a st) (Hwf a Ha)) as (d & _ & Ho & Hn).
    rewrite Ho. apply update_details_valid; assumption. }
  assert (Hother : forall a st', (forall b, deref b st' = deref b st1) ->
            ~ (a ∈ destinations st /\ entry st (same_city c) a) -> deref a st' = deref a st).
  { intros a st' Heq Hno. rewrite Heq, Hheap.
    destruct (inb a (destinations st)) eqn:Hin; [|reflexivity].
    destruct (cityb c st a) eqn:Hc; [|reflexivity].
    exfalso. apply Hno. split; [apply inb_elem_of, Hin | apply cityb_entry, Hc]. }
  unfold ItineraryManager.update_destination. rewrite Hself, Hcity.
  unfold bind at 1. unfold get_destinations. unfold bind at 1. rewrite Hrun. simpl orb. fold found.
  destruct found eqn:Hf.
  - exists true, st1. split; [reflexivity|]. split; [exact Hdest|].
    split; [intros a; apply Hmatch; reflexivity|].
    split; [intros a; apply Hother; reflexivity | exact Hfound].
  - eexists false, _. split; [reflexivity|]. split; [exact Hdest|].
    split; [intros a; apply Hmatch; reflexivity|].
    split; [intros a; apply Hother; reflexivity | exact Hfound].
Qed.

(** Whatever is typed, the keywords [update_flow] builds are valid
    updates: the front end never names the city. *)
Lemma flow_keywords_valid (new_country : option string) (new_start new_end : option datetime)
      (new_budget : option spec_float) (new_acts : option (list string)) :
  forallb valid_update (flow_keywords new_country new_start new_end new_budget new_acts) = true.
Proof.
  destruct new_country, new_start, new_end, new_budget, new_acts as [l|];
    cbn -[strs]; rewrite ?strs_of_map; reflexivity.
Qed.

(** ** An update that names an unknown field *)

Lemma update_loop_skip (o : obj) (k : string) (r : list (string * value)) :
  Destination.update_loop o ((k, VNone) :: r) = Destination.update_loop o r.
Proof. reflexivity. Qed.

Lemma update_loop_step (o : obj) (k : string) (v : value) (r : list (string * value)) :
  v <> VNone ->
  Destination.update_loop o ((k, v) :: r) =
  if Destination.hasattr o k then
    match Destination.setattr o k v with
    | Return o' => Destination.update_loop o' r
    | Raise e => (Raise e, o)
    end
  else (Raise (Destination.not_found k), o).
Proof. destruct v; congruence || reflexivity. Qed.

Lemma named_step (k : string) (v : value) (r : list (string * value)) :
  v <> VNone -> named ((k, v) :: r) = k :: named r.
Proof. destruct v; congruence || reflexivity. Qed.

Lemma assign_step (o : obj) (k : string) (v : value) :
  v <> VNone -> assign o (k, v) = <[k := v]> o.
Proof. destruct v; congruence || reflexivity. Qed.

Lemma field_cases (k : string) :
  k ∈ Destination.fields ->
  k = "city" \/ k = "country" \/ k = "start_date" \/ k = "end_date" \/
  k = "budget" \/ k = "activities".
Proof.
  unfold Destination.fields. rewrite !elem_of_cons, elem_of_nil. tauto.
Qed.

Lemma hasattr_field (o : obj) (k : string) :
  dom o = list_to_set Destination.fields -> k ∈ Destination.fields ->
  Destination.hasattr o k = true.
Proof.
  intros Hd Hk. unfold Destination.hasattr.
  assert (H : is_Some (o !! k)).
  { apply elem_of_dom. rewrite Hd. apply elem_of_list_to_set, Hk. }
  rewrite (bool_decide_eq_true_2 _ H). reflexivity.
Qed.

Lemma hasattr_unknown (o : obj) (k : string) :
  dom o = list_to_set Destination.fields -> unknown_name k = true ->
  Destination.hasattr o k = false.
Proof.
  intros Hd Hk. unfold unknown_name in Hk.
  rewrite !andb_true_iff, !negb_true_iff in Hk. destruct Hk as [[H1 H2] H3].
  unfold Destination.hasattr. rewrite H2, H3, !orb_false_r.
  apply bool_decide_eq_false. intros H. apply elem_of_dom in H.
  rewrite Hd in H. apply elem_of_list_to_set in H. apply mem_elem_of in H. congruence.
Qed.

Lemma setattr_field (o : obj) (k : string) (v : value) :
  k ∈ Destination.fields -> Destination.setattr o k v = Return (<[k := v]> o).
Proof.
  intros Hk. apply field_cases in Hk.
  destruct Hk as [->|[->|[->|[->|[->| ->]]]]]; reflexivity.
Qed.

Lemma dom_insert_field (o : obj) (k : string) (v : value) :
  dom o = list_to_set Destination.fields -> k ∈ Destination.fields ->
  dom (<[k := v]> o) = list_to_set Destination.fields.
Proof.
  intros Hd Hk. rewrite dom_insert_L, Hd.
  assert (H : k ∈ (list_to_set Destination.fields : gset string))
    by (apply elem_of_list_to_set, Hk).
  apply leibniz_equiv. apply subseteq_union_1. apply singleton_subseteq_l. exact H.
Qed.

(** What the loop of [update_details] does with names that are fields or
    unknown: all of them are fields and it runs through, or it stops at
    the first unknown name given a value, the keywords before that name
    applied. *)
Lemma update_loop_mixed (kw : list (string * value)) :
  forall o : obj,
  dom o = list_to_set Destination.fields ->
  (forall k, k ∈ named kw -> k ∈ Destination.fields \/ unknown_name k = true) ->
  (Destination.update_loop o kw = (Return tt, assign_all kw o) /\
   dom (assign_all kw o) = list_to_set Destination.fields /\
   forall k, k ∈ named kw -> k ∈ Destination.fields) \/
  (exists pre k v post,
     kw = pre ++ (k, v) :: post /\ v <> VNone /\ unknown_name k = true /\
     (forall k', k' ∈ named pre -> k' ∈ Destination.fields) /\
     Destination.update_loop o kw = (Raise (Destination.not_found k), assign_all pre o)).
Proof.
  induction kw as [|[k v] kw IH]; intros o Hd Hn.
  - left. split; [reflexivity|]. split; [exact Hd|]. intros k Hk. inversion Hk.
  - destruct (none_or_not v) as [->|Hv].
    + destruct (IH o Hd Hn) as [(Hrun & Hdom & Hf) | (pre & k0 & v0 & post & -> & Hv0 & Hu & Hpre & Hrun)].
      * left. rewrite update_loop_skip. split; [exact Hrun|]. split; [exact Hdom | exact Hf].
      * right. exists ((k, VNone) :: pre), k0, v0, post.
        rewrite update_loop_skip. split; [reflexivity|]. split; [exact Hv0|].
        split; [exact Hu|]. split; [exact Hpre | exact Hrun].
    + rewrite update_loop_step by exact Hv.
      assert (Hn' : forall k', k' ∈ named kw -> k' ∈ Destination.fields \/ unknown_name k' = true).
      { intros k' Hk'. apply Hn. rewrite named_step by exact Hv. right. exact Hk'. }
      destruct (Hn k) as [Hk|Hk]; [rewrite named_step by exact Hv; left|..].
      * rewrite (hasattr_field o k Hd Hk), (setattr_field o k v Hk).
        pose proof (dom_insert_field o k v Hd Hk) as Hd'.
        destruct (IH _ Hd' Hn') as [(Hrun & Hdom & Hf) | (pre & k0 & v0 & post & -> & Hv0 & Hu & Hpre & Hrun)].
        -- left. rewrite assign_all_cons, assign_step by exact Hv.
           split; [exact Hrun|]. split; [exact Hdom|].
           intros k' Hk'. rewrite named_step in Hk' by exact Hv.
           apply elem_of_cons in Hk'. destruct Hk' as [->|Hk']; auto.
        -- right. exists ((k, v) :: pre), k0, v0, post.
           split; [reflexivity|]. split; [exact Hv0|]. split; [exact Hu|]. split.
           ++ intros k' Hk'. simpl app in Hk'. rewrite named_step in Hk' by exact Hv.
              apply elem_of_cons in Hk'. destruct Hk' as [->|Hk']; auto.
           ++ simpl app. rewrite assign_all_cons, assign_step by exact Hv. exact Hrun.
      * right. exists [], k, v, kw. rewrite (hasattr_unknown o k Hd Hk).
        split; [reflexivity|]. split; [exact Hv|]. split; [exact Hk|].
        split; [intros k' Hk'; inversion Hk' | reflexivity].
Qed.

Lemma is_unknown_field_not_found (k : string) :
  is_unknown_field (Destination.not_found k) = true.
Proof. reflexivity. Qed.





Lemma unknown_not_field (k : string) :
  unknown_name k = true -> k ∈ Destination.fields -> False.
Proof.
  unfold unknown_name. rewrite !andb_true_iff, !negb_true_iff.
  intros [[H _] _] Hk. apply mem_elem_of in Hk. congruence.
Qed.






(** ** The validated construction path *)

Lemma bind_input {A} (prompt : string) (k : string -> M A) (st : state)
      (l : string) (r : list string) :
  stdin st = l :: r ->
  bind (input prompt) k st =
  k l (mk_state (heap st) (next st) (destinations st) (files st) r
                (stdout st ++ [[Text prompt]])).
Proof. intros H. unfold bind, input. rewrite H. reflexivity. Qed.

Lemma bind_input_eof {A} (prompt : string) (k : string -> M A) (st : state) :
  stdin st = [] ->
  bind (input prompt) k st =
  (Raise (Exn EOFError "EOF when reading a line"),
   mk_state (heap st) (next st) (destinations st) (files st) []
            (stdout st ++ [[Text prompt]])).
Proof. intros H. unfold bind, input. rewrite H. reflexivity. Qed.

Lemma valid_date_parses (s : string) (d : datetime) :
  Date.strptime s = Some d -> valid_date s = true /\ parse_date s = Return d.
Proof. intros H. unfold valid_date, parse_date. rewrite H. auto. Qed.

Lemma caught_by_exception (e : exn) : caught_by [Exception] e = true.
Proof. destruct e as [c msg]. destruct c; reflexivity. Qed.

Lemma add_flow_after_dates (st : state) (c n s e : string) (rest : list string)
      (ds de : datetime) :
  stdin st = c :: n :: s :: e :: rest ->
  Date.strptime (Str.strip s) = Some ds ->
  Date.strptime (Str.strip e) = Some de ->
  add_flow st =
  after_dates (Str.strip c) (Str.strip n) (Str.strip s) (Str.strip e) (dates_read st rest).
Proof.
  intros Hin Hs He. unfold add_flow.
  rewrite (bind_input _ _ st c (n :: s :: e :: rest) Hin).
  erewrite bind_input by reflexivity.
  erewrite bind_input by reflexivity.
  rewrite (proj1 (valid_date_parses _ _ Hs)). cbn [negb].
  erewrite bind_input by reflexivity.
  rewrite (proj1 (valid_date_parses _ _ He)). cbn [negb].
  unfold after_dates, dates_read. cbn [heap next destinations files stdin stdout].
  rewrite <- !app_assoc. reflexivity.
Qed.

Lemma last_written_print (t : text) (st st' : state) :
  print t st = (Return tt, st') -> last_written st' = Some (t ++ [Text Str.nl]).
Proof.
  unfold print. intros H. inversion H. unfold last_written. simpl. apply last_snoc.
Qed.

(** With the start after the end nothing is built, whatever is typed for
    the budget and the activities. *)
Lemma after_dates_rejects (c n s e : string) (ds de : datetime) (st : state) :
  parse_date s = Return ds -> parse_date e = Return de -> Date.gt ds de = true ->
  exists r st',
    after_dates c n s e st = (r, st') /\
    destinations st' = destinations st /\ heap st' = heap st.
Proof.
  intros Hs He Hgt. unfold after_dates. unfold bind at 1. unfold try_except.
  destruct (stdin st) as [|b r] eqn:Hin.
  - rewrite (bind_input_eof _ _ _ Hin). eexists _, _. split; [reflexivity|]. simpl. auto.
  - rewrite (bind_input _ _ _ _ _ Hin). unfold bind at 1. unfold lift.
    destruct (check_positive (Str.strip b)) as [v|ex].
    + unfold ret at 1. unfold input_activities. unfold bind at 1.
      cbn [stdin]. destruct r as [|a r'].
      * erewrite bind_input_eof by reflexivity. eexists _, _. split; [reflexivity|]. simpl. auto.
      * erewrite bind_input by reflexivity. unfold ret at 1.
        destruct (stripped_pieces (Str.strip a)) as [|p ps].
        -- eexists _, _. split; [reflexivity|]. simpl. auto.
        -- unfold bind, lift. rewrite Hs, He, Hgt.
           eexists _, _. split; [reflexivity|]. simpl. auto.
    + rewrite caught_by_exception. eexists _, _. split; [reflexivity|]. simpl. auto.
Qed.

(** With everything else in order, the order of the dates decides. *)
Lemma after_dates_decides (c n s e b a : string) (rest : list string)
      (ds de : datetime) (v : spec_float) (st : state) :
  parse_date s = Return ds -> parse_date e = Return de ->
  stdin st = b :: a :: rest ->
  check_positive (Str.strip b) = Return v ->
  stripped_pieces (Str.strip a) <> [] ->
  exists st',
    after_dates c n s e st = (Return tt, st') /\ stdin st' = rest /\
    if Date.gt ds de then
      destinations st' = destinations st /\ heap st' = heap st /\
      last_written st' =
        Some [Text "Start date must be before or equal to end date."; Text Str.nl]
    else
      destinations st' = destinations st ++ [next st] /\
      heap st' =
        <[next st := Destination.init (VStr c) (VStr n) (VDatetime ds) (VDatetime de)
                       (VFloat v) (VList (map VStr (stripped_pieces (Str.strip a))))]>
          (heap st) /\
      last_written st' = Some [Text "Destination added successfully."; Text Str.nl].
Proof.
  intros Hs He Hin Hb Ha. unfold after_dates. unfold bind at 1. unfold try_except.
  rewrite (bind_input _ _ _ _ _ Hin). unfold bind at 1. unfold lift. rewrite Hb.
  unfold ret at 1. unfold input_activities. unfold bind at 1.
  erewrite bind_input by reflexivity. unfold ret at 1.
  destruct (stripped_pieces (Str.strip a)) as [|p ps] eqn:Hp; [congruence|].
  unfold bind, lift. rewrite Hs, He.
  destruct (Date.gt ds de).
  - eexists. split; [reflexivity|]. simpl. repeat split.
    unfold last_written. simpl. apply last_snoc.
  - eexists. split; [reflexivity|]. simpl. repeat split.
    unfold last_written. simpl. apply last_snoc.
Qed.

(** C8.  Once both dates have parsed, [add_flow] builds nothing when the
    start is after the end, whatever else is typed; with a good budget and
    some activity it then ends on the message about the order of the
    dates; and with the start not after the end, equal dates included, it
    appends the new destination. *)
Theorem add_flow_date_order (st : state) (c n s e : string) (rest : list string)
        (ds de : datetime) :
  stdin st = c :: n :: s :: e :: rest ->
  Date.strptime (Str.strip s) = Some ds ->
  Date.strptime (Str.strip e) = Some de ->
  (Date.gt ds de = true ->
   destinations (snd (add_flow st)) = destinations st /\
   heap (snd (add_flow st)) = heap st) /\
  (forall b a rest' v,
     rest = b :: a :: rest' ->
     check_positive (Str.strip b) = Return v ->
     stripped_pieces (Str.strip a) <> [] ->
     exists st',
       add_flow st = (Return tt, st') /\ stdin st' = rest' /\
       if Date.gt ds de then
         destinations st' = destinations st /\ heap st' = heap st /\
         last_written st' =
           Some [Text "Start date must be before or equal to end date."; Text Str.nl]
       else
         destinations st' = destinations st ++ [next st] /\
         heap st' =
           <[next st := Destination.init (VStr (Str.strip c)) (VStr (Str.strip n))
                          (VDatetime ds) (VDatetime de) (VFloat v)
                          (VList (map VStr (stripped_pieces (Str.strip a))))]>
             (heap st) /\
         last_written st' = Some [Text "Destination added successfully."; Text Str.nl]) /\
  (ds = de -> Date.gt ds de = false).
Proof.
  intros Hin Hs He.
  rewrite (add_flow_after_dates st c n s e rest ds de Hin Hs He).
  pose proof (proj2 (valid_date_parses _ _ Hs)) as Hps.
  pose proof (proj2 (valid_date_parses _ _ He)) as Hpe.
  split; [|split].
  - intros Hgt.
    destruct (after_dates_rejects (Str.strip c) (Str.strip n) _ _ ds de (dates_read st rest) Hps Hpe Hgt)
      as (r & st' & -> & Hd & Hh).
    split; [exact Hd | exact Hh].
  - intros b a rest' v -> Hb Ha.
    apply (after_dates_decides _ _ _ _ b a rest' ds de v (dates_read st (b :: a :: rest'))
             Hps Hpe eq_refl Hb Ha).
  - intros ->. apply gt_irrefl.
Qed.

(** ** The properties at work on a sample session *)

Lemma session_well_formed : well_formed_state Sample.session.
Proof.
  intros a Ha. unfold Sample.session in Ha. cbn [destinations] in Ha.
  rewrite !elem_of_cons, elem_of_nil in Ha.
  destruct Ha as [->|[->|[->|[]]]]; reflexivity.
Qed.

Lemma well_formed_typed (st : state) : well_formed_state st -> typed_state st.
Proof.
  intros H a Ha. destruct (well_formed_obj_of _ (H a Ha)) as (d & Hview & _).
  exists d. exact Hview.
Qed.

Lemma session_typed : typed_state Sample.session.
Proof. apply well_formed_typed, session_well_formed. Qed.

Lemma search_destination_spec_witness :
  typed_state Sample.session /\
  exists res,
    ItineraryManager.search_destination "BEACH" Sample.session
      = (Return res, Sample.session) /\
    selects (entry Sample.session (mentions "BEACH")) (destinations Sample.session) res.
Proof.
  split; [exact session_typed|].
  destruct (search_destination_spec "BEACH" Sample.session session_typed)
    as (res & Hrun & Hsel & _).
  exists res. split; [exact Hrun | exact Hsel].
Defined.

Example search_beach :
  fst (ItineraryManager.search_destination "BEACH" Sample.session) = Return [1%nat; 2%nat].
Proof. reflexivity. Qed.

Example search_empty_term :
  fst (ItineraryManager.search_destination "" Sample.session) = Return [0%nat; 1%nat; 2%nat].
Proof. reflexivity. Qed.

Lemma remove_destination_spec_witness :
  typed_state Sample.session /\
  exists b st',
    ItineraryManager.remove_destination "goa" Sample.session = (Return b, st') /\
    selects (fun a => ~ entry Sample.session (same_city "goa") a)
            (destinations Sample.session) (destinations st').
Proof.
  split; [exact session_typed|].
  destruct (remove_destination_spec "goa" Sample.session session_typed)
    as (b & st' & Hrun & Hsel & _).
  exists b, st'. split; [exact Hrun | exact Hsel].
Defined.

Example remove_goa :
  fst (ItineraryManager.remove_destination "goa" Sample.session) = Return true /\
  destinations (snd (ItineraryManager.remove_destination "goa" Sample.session)) = [0%nat].
Proof. repeat split; reflexivity. Qed.

Example remove_unknown_city :
  fst (ItineraryManager.remove_destination "Oslo" Sample.session) = Return false /\
  destinations (snd (ItineraryManager.remove_destination "Oslo" Sample.session))
  = [0%nat; 1%nat; 2%nat].
Proof. repeat split; reflexivity. Qed.

(** The same instance held twice goes twice. *)
Example remove_aliased :
  destinations
    (snd (ItineraryManager.remove_destination "PARIS"
            (set_destinations [0%nat; 1%nat; 0%nat] Sample.session)))
  = [1%nat].
Proof. reflexivity. Qed.

Lemma update_destination_spec_witness :
  well_formed_state Sample.session /\
  forallb valid_update [("budget", VInt 5000); ("country", VNone)] = true /\
  exists found st',
    ItineraryManager.update_destination "goa" [("budget", VInt 5000); ("country", VNone)]
      Sample.session = (Return found, st') /\
    destinations st' = destinations Sample.session.
Proof.
  split; [exact session_well_formed|]. split; [reflexivity|].
  destruct (update_destination_spec "goa" [("budget", VInt 5000); ("country", VNone)]
              Sample.session session_well_formed)
    as (found & st' & Hrun & Hdest & _); [reflexivity|].
  exists found, st'. split; [exact Hrun | exact Hdest].
Defined.

Example update_both_goas :
  fst (ItineraryManager.update_destination "goa" [("budget", VInt 5000)] Sample.session)
  = Return true /\
  deref 1%nat (snd (ItineraryManager.update_destination "goa" [("budget", VInt 5000)]
                  Sample.session)) !! "budget" = Some (VInt 5000) /\
  deref 2%nat (snd (ItineraryManager.update_destination "goa" [("budget", VInt 5000)]
                  Sample.session)) !! "budget" = Some (VInt 5000) /\
  deref 0%nat (snd (ItineraryManager.update_destination "goa" [("budget", VInt 5000)]
                  Sample.session)) = obj_of Sample.paris.
Proof. repeat split; reflexivity. Qed.

(** C7, as stated, fails for the field [city]: two entries match "Goa" and
    [update_details] alone would rename one, but the manager's method
    takes the keyword [city] for its own parameter and raises a
    [TypeError], having updated nothing. *)
Lemma update_destination_city_keyword :
  (exists a, a ∈ destinations Sample.session /\ entry Sample.session (same_city "Goa") a) /\
  Destination.update_details (deref 1%nat Sample.session) [("city", VStr "Panaji")]
  = (Return tt, <["city" := VStr "Panaji"]> (obj_of Sample.goa1)) /\
  ItineraryManager.update_destination "Goa" [("city", VStr "Panaji")] Sample.session
  = (Raise (Exn TypeError "update_destination() got multiple values for argument 'city'"),
     Sample.session).
Proof.
  split; [|split; reflexivity].
  exists 1%nat. split; [right; left|]. apply cityb_entry. reflexivity.
Qed.



(** The example of the specification: the unknown name alone changes
    nothing. *)
Example update_unknown_alone :
  ItineraryManager.update_destination "Paris" [("unknown_key", VInt 5)] Sample.session
  = (Raise (Destination.not_found "unknown_key"), Sample.session).
Proof. reflexivity. Qed.

Lemma add_flow_date_order_witness :
  stdin Sample.reversed
  = "Goa" :: "India" :: "2025-06-10" :: "2025-06-01" :: ["100"; "beach, surf"] /\
  Date.strptime (Str.strip "2025-06-10") = Some (Date.midnight 2025 6 10) /\
  Date.strptime (Str.strip "2025-06-01") = Some (Date.midnight 2025 6 1) /\
  destinations (snd (add_flow Sample.reversed)) = destinations Sample.reversed.
Proof.
  split; [reflexivity|]. split; [vm_compute; reflexivity|]. split; [vm_compute; reflexivity|].
  apply (proj1 (add_flow_date_order Sample.reversed "Goa" "India" "2025-06-10" "2025-06-01"
                  ["100"; "beach, surf"] (Date.midnight 2025 6 10) (Date.midnight 2025 6 1)
                  eq_refl eq_refl eq_refl)).
  reflexivity.
Defined.

Example add_flow_reversed_dates :
  fst (add_flow Sample.reversed) = Return tt /\
  destinations (snd (add_flow Sample.reversed)) = [0%nat; 1%nat; 2%nat] /\
  last_written (snd (add_flow Sample.reversed))
  = Some [Text "Start date must be before or equal to end date."; Text Str.nl].
Proof. repeat split; reflexivity. Qed.

Example add_flow_equal_dates :
  fst (add_flow (Sample.typing ["Goa"; "India"; "2025-06-10"; "2025-06-10"; "0.01"; "surf"]))
  = Return tt /\
  destinations
    (snd (add_flow (Sample.typing ["Goa"; "India"; "2025-06-10"; "2025-06-10"; "0.01"; "surf"])))
  = [0%nat; 1%nat; 2%nat; 3%nat].
Proof. repeat split; reflexivity. Qed.

(** With a bad budget as well, the budget is what is reported. *)
Example add_flow_reversed_and_bad_budget :
  last_written
    (snd (add_flow (Sample.typing ["Goa"; "India"; "2025-06-10"; "2025-06-01"; "0"; "surf"])))
  = Some [Text "Invalid budget:"; Text " ";
          ExnText (Exn ValueError "Budget Value must be positive."); Text Str.nl].
Proof. reflexivity. Qed.

(** ** [update_details] and the names it accepts *)

(** An unknown name with a value stops [update_details], the instance
    untouched. *)
Lemma update_details_unknown_name (o : obj) (k : string) (v : value) :
  dom o = list_to_set Destination.fields ->
  unknown_name k = true -> k <> "self" -> v <> VNone ->
  Destination.update_details o [(k, v)] = (Raise (Destination.not_found k), o).
Proof.
  intros Hd Hu Hself Hv. unfold Destination.update_details. cbn [map fst].
  rewrite mem_cons. rewrite (proj2 (String.eqb_neq "self" k)) by congruence.
  cbn [Destination.mem existsb orb].
  rewrite update_loop_step by exact Hv. rewrite (hasattr_unknown o k Hd Hu). reflexivity.
Qed.

(** Given fields only, [update_details] runs through, and every field
    named with a value then holds the last value given for it. *)
Lemma update_details_fields (o : obj) (kw : list (string * value)) :
  dom o = list_to_set Destination.fields ->
  (forall k, k ∈ named kw -> k ∈ Destination.fields) ->
  Destination.mem "self" (map fst kw) = false ->
  Destination.update_details o kw = (Return tt, assign_all kw o) /\
  forall k v, assigned k kw = Some v -> assign_all kw o !! k = Some v.
Proof.
  intros Hd Hf Hself. unfold Destination.update_details. rewrite Hself. split.
  - destruct (update_loop_mixed kw o Hd) as
      [(Hrun & _) | (pre & k0 & v0 & post & -> & Hv0 & Hu & _ & _)].
    + intros k Hk. left. apply Hf, Hk.
    + exact Hrun.
    + exfalso. apply (unknown_not_field k0 Hu), Hf.
      clear -Hv0. induction pre as [|[k v] pre IHp]; simpl app.
      * rewrite named_step by exact Hv0. left.
      * destruct v; try (right; exact IHp). exact IHp.
  - intros k v Hk. rewrite lookup_assign_all, Hk. reflexivity.
Qed.

Example update_details_budget :
  Destination.update_details (obj_of Sample.paris) [("budget", VInt 5000); ("country", VNone)]
  = (Return tt, <["budget" := VInt 5000]> (obj_of Sample.paris)).
Proof. reflexivity. Qed.

(** The five names the class body defines are accepted like fields: the
    value lands on the instance. *)
Lemma update_details_method_name (o : obj) (k : string) (v : value) :
  k ∈ ["__init__"; "update_details"; "to_dict"; "from_dict"; "__str__"] ->
  v <> VNone ->
  Destination.update_details o [(k, v)] = (Return tt, <[k := v]> o).
Proof.
  intros Hk Hv. rewrite !elem_of_cons, elem_of_nil in Hk.
  unfold Destination.update_details.
  destruct Hk as [->|[->|[->|[->|[->|[]]]]]]; cbn [map fst];
    rewrite mem_cons; cbn [String.eqb Ascii.eqb Bool.eqb orb Destination.mem existsb];
    rewrite update_loop_step by exact Hv;
    unfold Destination.hasattr; rewrite orb_true_r; reflexivity.
Qed.

(** C2, at the input where the code departs from it.  [to_dict] is not one
    of the six fields, yet [hasattr] finds it on the class: given a value
    for that name [update_details] does not fail, and stores the value on
    the instance, in front of the method. *)
Theorem update_details_accepts_method_name :
  Destination.mem "to_dict" Destination.fields = false /\
  Destination.update_details (obj_of Sample.paris) [("to_dict", VInt 5)]
  = (Return tt, <["to_dict" := VInt 5]> (obj_of Sample.paris)).
Proof. split; reflexivity. Qed.

(** The same slip lets a value take the place of [update_details] itself;
    the next update of that entry through the manager then calls an
    [int]. *)
Example update_details_shadowed :
  fst (ItineraryManager.update_destination "Paris" [("update_details", VInt 5)] Sample.session)
  = Return true /\
  fst (ItineraryManager.update_destination "Paris" [("budget", VInt 1)]
         (snd (ItineraryManager.update_destination "Paris" [("update_details", VInt 5)]
                 Sample.session)))
  = Raise (Exn TypeError "'int' object is not callable").
Proof. split; reflexivity. Qed.

(** ** Loading *)

Lemma load_from_file_missing (f : string) (st : state) :
  files st !! f = None ->
  ItineraryManager.load_from_file f st = (Return tt, set_destinations [] st).
Proof.
  intros H. unfold ItineraryManager.load_from_file, bind, ItineraryManager.exists_file.
  rewrite H. reflexivity.
Qed.

(** The two failures the handler of [load_from_file] names are reported,
    and the collection is emptied. *)
Lemma load_from_file_reports (f : string) (st : state) (x : file) :
  files st !! f = Some x ->
  x = Unreadable \/ (exists msg, x = Malformed msg) ->
  exists e,
    ItineraryManager.load_from_file f st =
    (Return tt,
     mk_state (heap st) (next st) [] (files st) (stdin st)
              (stdout st ++ [[Text "Error loading file: "; ExnText e; Text Str.nl]])).
Proof.
  intros H Hx.
  unfold ItineraryManager.load_from_file. unfold bind at 1.
  unfold ItineraryManager.exists_file. rewrite H.
  assert (Hsome : bool_decide (is_Some (Some x)) = true)
    by (apply bool_decide_eq_true; eauto).
  rewrite Hsome. cbn [negb].
  unfold try_except. unfold bind at 1. unfold ItineraryManager.json_load. rewrite H.
  destruct Hx as [->|[msg ->]]; eexists; reflexivity.
Qed.

Lemma subscript_error (d : value) (k : string) (e : exn) :
  subscript d k = Raise e -> caught_by [OSError; JSONDecodeError] e = false.
Proof.
  unfold subscript. destruct d; try (intros H; inversion H; reflexivity).
  destruct (lookup_key k kv); intros H; inversion H. reflexivity.
Qed.

Lemma strptime_of_error (v : value) (e : exn) :
  strptime_of v = Raise e -> caught_by [OSError; JSONDecodeError] e = false.
Proof.
  unfold strptime_of. destruct v; try (intros H; inversion H; reflexivity).
  destruct (Date.strptime s); intros H; inversion H. reflexivity.
Qed.

(** No failure of [from_dict] is of a class the handler names. *)
Lemma from_dict_error (d : value) (e : exn) :
  Destination.from_dict d = Raise e -> caught_by [OSError; JSONDecodeError] e = false.
Proof.
  unfold Destination.from_dict. intros H.
  repeat match type of H with
         | obind (subscript ?x ?k) _ = _ =>
             let E := fresh "E" in
             destruct (subscript x k) eqn:E; simpl in H;
             [| inversion H; subst; eapply subscript_error; eassumption]
         | obind (strptime_of ?x) _ = _ =>
             let E := fresh "E" in
             destruct (strptime_of x) eqn:E; simpl in H;
             [| inversion H; subst; eapply strptime_of_error; eassumption]
         end.
  discriminate H.
Qed.

(** Whenever the first record of a JSON list is one [from_dict] fails on,
    that failure leaves [load_from_file], and the manager is as before. *)
Lemma load_from_file_escapes (f : string) (st : state) (d : value) (r : list value) (e : exn) :
  files st !! f = Some (Json (VList (d :: r))) ->
  Destination.from_dict d = Raise e ->
  ItineraryManager.load_from_file f st = (Raise e, st).
Proof.
  intros H Hd.
  unfold ItineraryManager.load_from_file. unfold bind at 1.
  unfold ItineraryManager.exists_file. rewrite H.
  assert (Hsome : bool_decide (is_Some (Some (Json (VList (d :: r))))) = true)
    by (apply bool_decide_eq_true; eauto).
  rewrite Hsome. cbn [negb].
  unfold try_except. unfold bind at 1. unfold ItineraryManager.json_load. rewrite H.
  unfold bind at 1. unfold lift at 1. cbn [iterate ItineraryManager.from_dicts].
  unfold bind at 1. unfold lift at 1. rewrite Hd.
  unfold bind at 1. cbv beta iota.
  rewrite (from_dict_error d e Hd). reflexivity.
Qed.

(** C1, at the input where the code departs from it.  The file exists and
    holds valid JSON, a list of one record that lacks five keys: the
    [KeyError] is not one the handler names, so it reaches the caller; the
    collection is not emptied and nothing is reported. *)
Theorem load_from_file_shape_error_escapes :
  ItineraryManager.load_from_file "itineraries.json"
    (Sample.session_with (Json Sample.short_record))
  = (Raise (Exn KeyError "country"), Sample.session_with (Json Sample.short_record)) /\
  destinations (Sample.session_with (Json Sample.short_record)) = [0%nat; 1%nat; 2%nat] /\
  stdout (Sample.session_with (Json Sample.short_record)) = [].
Proof. repeat split; reflexivity. Qed.

Example load_from_file_not_a_list :
  fst (ItineraryManager.load_from_file "itineraries.json" (Sample.session_with (Json (VInt 5))))
  = Raise (Exn TypeError "'int' object is not iterable").
Proof. reflexivity. Qed.

Example load_from_file_bad_date :
  fst (ItineraryManager.load_from_file "itineraries.json"
         (Sample.session_with
            (Json (VList [VDict [("city", VStr "Paris"); ("country", VStr "France");
                                 ("start_date", VStr "01/06/2025");
                                 ("end_date", VStr "2025-06-10");
                                 ("budget", VInt 2000);
                                 ("activities", VList [VStr "food"])]]))))
  = Raise (Exn ValueError "time data does not match format: 01/06/2025").
Proof. reflexivity. Qed.

(** A JSON object with no key is no list of records; it loads as an empty
    collection, and nothing is reported. *)
Example load_from_file_empty_object :
  ItineraryManager.load_from_file "itineraries.json" (Sample.session_with (Json (VDict [])))
  = (Return tt, set_destinations [] (Sample.session_with (Json (VDict [])))).
Proof. reflexivity. Qed.

Example load_from_file_not_utf8 :
  fst (ItineraryManager.load_from_file "itineraries.json" (Sample.session_with Undecodable))
  = Raise (Exn UnicodeDecodeError "invalid start byte").
Proof. reflexivity. Qed.

Example load_from_file_malformed :
  ItineraryManager.load_from_file "itineraries.json"
    (Sample.session_with (Malformed "Expecting value"))
  = (Return tt,
     mk_state (heap Sample.session) (next Sample.session) []
              (files (Sample.session_with (Malformed "Expecting value"))) []
              [[Text "Error loading file: "; ExnText (Exn JSONDecodeError "Expecting value");
                Text Str.nl]]).
Proof. reflexivity. Qed.

(** The record of the specification's end-to-end example loads. *)
Example load_from_file_record :
  fst (ItineraryManager.load_from_file "itineraries.json"
         (mk_state ∅ 0%nat [] (<["itineraries.json" :=
              Json (VList [VDict [("city", VStr "Paris"); ("country", VStr "France");
                                  ("start_date", VStr "2025-06-01");
                                  ("end_date", VStr "2025-06-10");
                                  ("budget", VInt 2000);
                                  ("activities", VList [VStr "museum"; VStr "food"])]])]> ∅)
                   [] []))
  = Return tt.
Proof. reflexivity. Qed.

(** * Further properties of the program *)

(** ** What the parsers accept *)

Lemma strptime_valid (s : string) (dt : datetime) :
  Date.strptime s = Some dt -> Date.valid dt = true /\ Date.no_time dt = true.
Proof.
  unfold Date.strptime. intros H.
  destruct (Date.parse_year s) as [[y r]|]; [|discriminate].
  destruct (Date.expect_dash r) as [r1|]; [|discriminate].
  destruct (Date.parse_month r1) as [[m r2]|]; [|discriminate].
  destruct (Date.parse_day r2) as [d|]; [|discriminate].
  destruct (Date.valid_ymd y m d) eqn:Hv; [|discriminate].
  inversion H. subst dt. unfold Date.valid, Date.midnight. cbn [year month day hour minute second microsecond].
  rewrite Hv. split; reflexivity.
Qed.

(** X1.  A string [valid_date] accepts is one [parse_date] returns a date
    for; that date is a day of the calendar (month 1 to 12, day within the
    month, leap years counted) at midnight, and its canonical text is
    accepted again and parses to the same date. *)
Theorem valid_date_calendar (e : string) :
  valid_date e = true ->
  exists dt,
    parse_date e = Return dt /\
    Date.valid dt = true /\ Date.no_time dt = true /\
    valid_date (Date.isoformat dt) = true /\
    parse_date (Date.isoformat dt) = Return dt.
Proof.
  unfold valid_date, parse_date. intros H.
  destruct (Date.strptime e) as [dt|] eqn:Hp; [|discriminate].
  destruct (strptime_valid e dt Hp) as [Hv Hn].
  exists dt. rewrite (strptime_isoformat dt Hv), (midnight_no_time dt Hn). auto.
Qed.

Lemma valid_date_calendar_witness :
  valid_date "2024-2-29" = true /\
  exists dt,
    parse_date "2024-2-29" = Return dt /\
    Date.valid dt = true /\ Date.no_time dt = true /\
    valid_date (Date.isoformat dt) = true /\
    parse_date (Date.isoformat dt) = Return dt.
Proof. split; [reflexivity | apply (valid_date_calendar "2024-2-29"); reflexivity]. Defined.

Example valid_date_not_a_leap_year : valid_date "2025-02-29" = false.
Proof. reflexivity. Qed.

Example valid_date_thirteenth_month : valid_date "2025-13-01" = false.
Proof. reflexivity. Qed.

Example valid_date_other_order : valid_date "01-06-2025" = false.
Proof. reflexivity. Qed.

(** ** Stripping and splitting *)

Lemma rstrip_cons (c : ascii) (s : string) :
  Str.rstrip (String c s) =
  match Str.rstrip s with
  | EmptyString => if Str.is_space c then EmptyString else String c EmptyString
  | String c' r' => String c (String c' r')
  end.
Proof. reflexivity. Qed.

Lemma rstrip_idem (s : string) : Str.rstrip (Str.rstrip s) = Str.rstrip s.
Proof.
  induction s as [|c s IH]; [reflexivity|].
  rewrite rstrip_cons. destruct (Str.rstrip s) as [|c' r'] eqn:Hr.
  - destruct (Str.is_space c) eqn:Hc; [reflexivity|].
    rewrite rstrip_cons. cbn [Str.rstrip]. rewrite Hc. reflexivity.
  - rewrite rstrip_cons, IH. reflexivity.
Qed.

Lemma rstrip_head (c : ascii) (s : string) :
  Str.is_space c = false -> exists r, Str.rstrip (String c s) = String c r.
Proof.
  intros Hc. rewrite rstrip_cons. destruct (Str.rstrip s); [rewrite Hc|]; eauto.
Qed.

Lemma lstrip_head (s : string) :
  Str.lstrip s = EmptyString \/
  exists c r, Str.lstrip s = String c r /\ Str.is_space c = false.
Proof.
  induction s as [|c s IH]; [left; reflexivity|].
  cbn [Str.lstrip]. destruct (Str.is_space c) eqn:Hc; [exact IH|]. right. eauto.
Qed.

(** Stripping twice is stripping once. *)
Lemma strip_idem (s : string) : Str.strip (Str.strip s) = Str.strip s.
Proof.
  unfold Str.strip. destruct (lstrip_head s) as [H | (c & r & H & Hc)]; rewrite H.
  - reflexivity.
  - destruct (rstrip_head c r Hc) as (r' & Hr). rewrite Hr.
    cbn [Str.lstrip]. rewrite Hc, <- Hr. apply rstrip_idem.
Qed.

Lemma truthy_nonempty (s : string) : Str.truthy s = true <-> s <> EmptyString.
Proof. destruct s; simpl; split; congruence. Qed.

Lemma split_comma_free (s p : string) : In p (Str.split_comma s) -> comma_free p.
Proof.
  revert p. induction s as [|c s IH]; intros p Hp; cbn [Str.split_comma] in Hp.
  - destruct Hp as [<-|[]]. intros c [].
  - destruct (Ascii.eqb_spec c ","%char) as [->|Hc].
    + destruct Hp as [<-|Hp]; [intros c [] | apply IH, Hp].
    + destruct (Str.split_comma s) as [|q qs].
      * destruct Hp as [<-|[]]. intros c' [<-|[]]. exact Hc.
      * destruct Hp as [<-|Hp]; [|apply IH; right; exact Hp].
        intros c' [<-|Hc']; [exact Hc|]. apply (IH q); [left; reflexivity | exact Hc'].
Qed.

Lemma lstrip_comma_free (s : string) : comma_free s -> comma_free (Str.lstrip s).
Proof.
  induction s as [|c s IH]; intros H; cbn [Str.lstrip]; [exact H|].
  destruct (Str.is_space c); [|exact H].
  apply IH. intros c' Hc'. apply H. right. exact Hc'.
Qed.

Lemma rstrip_comma_free (s : string) : comma_free s -> comma_free (Str.rstrip s).
Proof.
  induction s as [|c s IH]; intros H; [exact H|]. rewrite rstrip_cons.
  assert (Hs : comma_free (Str.rstrip s)).
  { apply IH. intros c' Hc'. apply H. right. exact Hc'. }
  assert (Hc : c <> ","%char) by (apply H; left; reflexivity).
  destruct (Str.rstrip s) as [|c1 r1].
  - destruct (Str.is_space c); [intros c' [] | intros c' [<-|[]]; exact Hc].
  - intros c' [<-|Hc']; [exact Hc | apply Hs, Hc'].
Qed.

Lemma stripped_pieces_elem (s a : string) :
  a ∈ stripped_pieces s ->
  a <> EmptyString /\ Str.strip a = a /\ comma_free a.
Proof.
  unfold stripped_pieces. intros H. apply list_elem_of_In, in_map_iff in H.
  destruct H as (p & <- & Hp). apply list_elem_of_In, list_elem_of_filter in Hp.
  destruct Hp as [Ht Hp]. apply Is_true_true, truthy_nonempty in Ht.
  split; [exact Ht|]. split; [apply strip_idem|].
  unfold Str.strip. apply rstrip_comma_free, lstrip_comma_free.
  apply (split_comma_free s), list_elem_of_In, Hp.
Qed.

(** X2.  [input_activities] reads one line and returns its pieces between
    commas: none of them is empty, none starts or ends with a blank, none
    holds a comma; a blank line gives no activity at all. *)
Theorem input_activities_clean (st : state) (l : string) (r : list string) :
  stdin st = l :: r ->
  exists acts st',
    input_activities st = (Return acts, st') /\
    stdin st' = r /\ untouched st st' /\
    (forall a, a ∈ acts -> a <> EmptyString /\ Str.strip a = a /\ comma_free a) /\
    (Str.strip l = EmptyString -> acts = []).
Proof.
  intros Hin. unfold input_activities. rewrite (bind_input _ _ _ _ _ Hin).
  eexists _, _. split; [reflexivity|]. split; [reflexivity|]. split; [split; reflexivity|].
  split; [intros a; apply stripped_pieces_elem|]. intros ->. reflexivity.
Qed.

Lemma input_activities_clean_witness :
  stdin (Sample.typing [" beach , ,surf trip,"]) = [" beach , ,surf trip,"] /\
  exists acts st',
    input_activities (Sample.typing [" beach , ,surf trip,"]) = (Return acts, st') /\
    stdin st' = [] /\ untouched (Sample.typing [" beach , ,surf trip,"]) st' /\
    (forall a, a ∈ acts -> a <> EmptyString /\ Str.strip a = a /\ comma_free a) /\
    (Str.strip " beach , ,surf trip," = EmptyString -> acts = []).
Proof.
  split; [reflexivity|].
  apply (input_activities_clean (Sample.typing [" beach , ,surf trip,"])
           " beach , ,surf trip," []). reflexivity.
Defined.

Example input_activities_pieces :
  fst (input_activities (Sample.typing [" beach , ,surf trip,"]))
  = Return ["beach"; "surf trip"].
Proof. reflexivity. Qed.

(** ** Everything [add_flow] can do *)

Lemma check_positive_returns (s : string) (v : spec_float) :
  check_positive s = Return v ->
  Float.of_string s = Some v /\ Float.le v Float.zero = false.
Proof.
  unfold check_positive. destruct (Float.of_string s) as [w|]; [|discriminate].
  destruct (Float.le w Float.zero) eqn:Hle; [discriminate|].
  intros H. inversion H. subst. auto.
Qed.

(** The second half of [add_flow], whatever is typed: the input ends
    before the activities, or something is refused, or a destination is
    appended. *)
Lemma after_dates_cases (c n s e : string) (ds de : datetime) (st : state) :
  parse_date s = Return ds -> parse_date e = Return de ->
  exists r st',
    after_dates c n s e st = (r, st') /\
    ((untouched st st' /\
      (r = Return tt \/ (r = Raise eof /\ length (stdin st) = 1%nat))) \/
     (r = Return tt /\
      exists b a rest v,
        stdin st = b :: a :: rest /\
        check_positive (Str.strip b) = Return v /\
        stripped_pieces (Str.strip a) <> [] /\
        Date.gt ds de = false /\
        destinations st' = destinations st ++ [next st] /\
        heap st' =
          <[next st := Destination.init (VStr c) (VStr n) (VDatetime ds) (VDatetime de)
                         (VFloat v) (VList (map VStr (stripped_pieces (Str.strip a))))]>
            (heap st))).
Proof.
  intros Hs He. unfold after_dates. unfold bind at 1. unfold try_except.
  destruct (stdin st) as [|b r] eqn:Hin.
  - rewrite (bind_input_eof _ _ _ Hin). eexists _, _. split; [reflexivity|].
    left. split; [split; reflexivity | left; reflexivity].
  - rewrite (bind_input _ _ _ _ _ Hin). unfold bind at 1. unfold lift.
    destruct (check_positive (Str.strip b)) as [v|ex] eqn:Hb.
    + unfold ret at 1. unfold input_activities. unfold bind at 1.
      cbn [stdin]. destruct r as [|a r'].
      * erewrite bind_input_eof by reflexivity. eexists _, _. split; [reflexivity|].
        left. split; [split; reflexivity | right]. split; [reflexivity | simpl; lia].
      * erewrite bind_input by reflexivity. unfold ret at 1.
        destruct (stripped_pieces (Str.strip a)) as [|p ps] eqn:Hp.
        -- eexists _, _. split; [reflexivity|].
           left. split; [split; reflexivity | left; reflexivity].
        -- unfold bind, lift. rewrite Hs, He. destruct (Date.gt ds de) eqn:Hgt.
           ++ eexists _, _. split; [reflexivity|].
              left. split; [split; reflexivity | left; reflexivity].
           ++ eexists _, _. split; [reflexivity|]. right. split; [reflexivity|].
              exists b, a, r', v. rewrite Hp.
              split; [reflexivity|]. split; [exact Hb|]. split; [discriminate|].
              split; [reflexivity|]. split; reflexivity.
    + rewrite caught_by_exception. eexists _, _. split; [reflexivity|].
      left. split; [split; reflexivity | left; reflexivity].
Qed.


(** [add_flow], whatever is typed. *)
Lemma add_flow_cases (st : state) :
  exists r st',
    add_flow st = (r, st') /\
    ((untouched st st' /\
      (r = Return tt \/
       (r = Raise eof /\ (length (stdin st) < 6)%nat /\ length (stdin st) <> 4%nat))) \/
     (r = Return tt /\ (6 <= length (stdin st))%nat /\
      exists d, sound d /\
        destinations st' = destinations st ++ [next st] /\
        heap st' = <[next st := obj_of d]> (heap st))).
Proof.
  destruct (stdin st) as [|c [|n [|s [|e rest]]]] eqn:Hin.
  - unfold add_flow. rewrite (bind_input_eof _ _ _ Hin). eexists _, _.
    split; [reflexivity|]. left. split; [split; reflexivity | right].
    split; [reflexivity | simpl; lia].
  - unfold add_flow. rewrite (bind_input _ _ _ _ _ Hin).
    erewrite bind_input_eof by reflexivity. eexists _, _.
    split; [reflexivity|]. left. split; [split; reflexivity | right].
    split; [reflexivity | simpl; lia].
  - unfold add_flow. rewrite (bind_input _ _ _ _ _ Hin).
    erewrite bind_input by reflexivity.
    erewrite bind_input_eof by reflexivity. eexists _, _.
    split; [reflexivity|]. left. split; [split; reflexivity | right].
    split; [reflexivity | simpl; lia].
  - destruct (Date.strptime (Str.strip s)) as [ds|] eqn:Hs.
    + unfold add_flow. rewrite (bind_input _ _ _ _ _ Hin).
      erewrite bind_input by reflexivity. erewrite bind_input by reflexivity.
      rewrite (proj1 (valid_date_parses _ _ Hs)). cbn [negb].
      erewrite bind_input_eof by reflexivity. eexists _, _.
      split; [reflexivity|]. left. split; [split; reflexivity | right].
      split; [reflexivity | simpl; lia].
    + unfold add_flow. rewrite (bind_input _ _ _ _ _ Hin).
      erewrite bind_input by reflexivity. erewrite bind_input by reflexivity.
      unfold valid_date, parse_date. rewrite Hs. cbn [negb].
      eexists _, _. split; [reflexivity|].
      left. split; [split; reflexivity | left; reflexivity].
  - destruct (Date.strptime (Str.strip s)) as [ds|] eqn:Hs.
    2:{ unfold add_flow. rewrite (bind_input _ _ _ _ _ Hin).
        erewrite bind_input by reflexivity. erewrite bind_input by reflexivity.
        unfold valid_date, parse_date. rewrite Hs. cbn [negb].
        eexists _, _. split; [reflexivity|].
        left. split; [split; reflexivity | left; reflexivity]. }
    destruct (Date.strptime (Str.strip e)) as [de|] eqn:He.
    2:{ unfold add_flow. rewrite (bind_input _ _ _ _ _ Hin).
        erewrite bind_input by reflexivity. erewrite bind_input by reflexivity.
        rewrite (proj1 (valid_date_parses _ _ Hs)). cbn [negb].
        erewrite bind_input by reflexivity.
        unfold valid_date, parse_date. rewrite He. cbn [negb].
        eexists _, _. split; [reflexivity|].
        left. split; [split; reflexivity | left; reflexivity]. }
    rewrite (add_flow_after_dates st c n s e rest ds de Hin Hs He).
    destruct (after_dates_cases (Str.strip c) (Str.strip n) (Str.strip s) (Str.strip e)
                ds de (dates_read st rest)
                (proj2 (valid_date_parses _ _ Hs)) (proj2 (valid_date_parses _ _ He)))
      as (r & st' & Hrun & Hcases).
    exists r, st'. split; [exact Hrun|].
    destruct Hcases as [[Hu Hr] | (Hr & b & a & rest' & v & Hrest & Hb & Ha & Hgt & Hd & Hh)].
    + left. split; [exact Hu|]. destruct Hr as [Hr|[Hr Hlen]]; [left; exact Hr | right].
      split; [exact Hr|]. cbn [dates_read stdin] in Hlen. simpl. lia.
    + right. split; [exact Hr|]. cbn [dates_read stdin] in Hrest. subst rest.
      split; [simpl; lia|].
      exists (mk_dest (Str.strip c) (Str.strip n) ds de (VFloat v)
                (stripped_pieces (Str.strip a))).
      split; [|split; [exact Hd | exact Hh]].
      destruct (strptime_valid _ _ Hs) as [Hv1 Hn1].
      destruct (strptime_valid _ _ He) as [Hv2 Hn2].
      unfold sound, plain_dates. cbn [start_date end_date budget city country activities].
      rewrite Hv1, Hn1, Hv2, Hn2.
      split; [reflexivity|]. split; [exact Hgt|].
      split; [exists v; split; [reflexivity | apply (check_positive_returns _ _ Hb)]|].
      split; [apply strip_idem|]. split; [apply strip_idem|]. split; [exact Ha|].
      intros x Hx. destruct (stripped_pieces_elem _ _ Hx) as (H1 & H2 & _). auto.
Qed.

(** X3.  Whatever is typed, [add_flow] either builds nothing, the
    collection and the instances left as they were, or returns normally
    having appended one new instance, and that instance is sound: plain
    dates with the start not after the end, a float budget that is not
    [<= 0], stripped city and country, and at least one activity, each
    non-empty and stripped. *)
Theorem add_flow_builds_sound (st : state) :
  untouched st (snd (add_flow st)) \/
  (fst (add_flow st) = Return tt /\
   exists d, sound d /\
     destinations (snd (add_flow st)) = destinations st ++ [next st] /\
     heap (snd (add_flow st)) = <[next st := obj_of d]> (heap st)).
Proof.
  destruct (add_flow_cases st) as (r & st' & -> & [[Hu _] | (Hr & _ & H)]).
  - left. exact Hu.
  - right. split; [exact Hr | exact H].
Qed.





(** The end of input at the budget prompt is reported as a bad budget. *)
Example add_flow_eof_at_budget :
  fst (add_flow (Sample.typing ["Goa"; "India"; "2025-06-01"; "2025-06-10"])) = Return tt /\
  last_written (snd (add_flow (Sample.typing ["Goa"; "India"; "2025-06-01"; "2025-06-10"])))
  = Some [Text "Invalid budget:"; Text " "; ExnText eof; Text Str.nl].
Proof. split; reflexivity. Qed.

(** X5.  A start date that does not parse stops [add_flow] after three
    lines, and an end date that does not parse after four, each with its
    own message; nothing is built and the later prompts are not shown. *)
Theorem add_flow_bad_date (st : state) (c n s : string) (rest : list string) :
  stdin st = c :: n :: s :: rest ->
  (valid_date (Str.strip s) = false ->
   exists st',
     add_flow st = (Return tt, st') /\ stdin st' = rest /\ untouched st st' /\
     last_written st' = Some [Text "Invalid start date format."; Text Str.nl]) /\
  (forall e rest',
     rest = e :: rest' ->
     valid_date (Str.strip s) = true -> valid_date (Str.strip e) = false ->
     exists st',
       add_flow st = (Return tt, st') /\ stdin st' = rest' /\ untouched st st' /\
       last_written st' = Some [Text "Invalid end date format."; Text Str.nl]).
Proof.
  intros Hin. split.
  - intros Hs. unfold add_flow. rewrite (bind_input _ _ _ _ _ Hin).
    erewrite bind_input by reflexivity. erewrite bind_input by reflexivity.
    rewrite Hs. cbn [negb]. eexists. split; [reflexivity|].
    split; [reflexivity|]. split; [split; reflexivity|].
    unfold last_written. simpl. apply last_snoc.
  - intros e rest' -> Hs He. unfold add_flow. rewrite (bind_input _ _ _ _ _ Hin).
    erewrite bind_input by reflexivity. erewrite bind_input by reflexivity.
    rewrite Hs. cbn [negb]. erewrite bind_input by reflexivity.
    rewrite He. cbn [negb]. eexists. split; [reflexivity|].
    split; [reflexivity|]. split; [split; reflexivity|].
    unfold last_written. simpl. apply last_snoc.
Qed.

Lemma add_flow_bad_date_witness :
  stdin (Sample.typing ["Goa"; "India"; "10 June"; "2025-06-12"])
  = "Goa" :: "India" :: "10 June" :: ["2025-06-12"] /\
  valid_date (Str.strip "10 June") = false /\
  exists st',
    add_flow (Sample.typing ["Goa"; "India"; "10 June"; "2025-06-12"]) = (Return tt, st') /\
    stdin st' = ["2025-06-12"] /\
    untouched (Sample.typing ["Goa"; "India"; "10 June"; "2025-06-12"]) st' /\
    last_written st' = Some [Text "Invalid start date format."; Text Str.nl].
Proof.
  split; [reflexivity|]. split; [reflexivity|].
  apply (proj1 (add_flow_bad_date (Sample.typing ["Goa"; "India"; "10 June"; "2025-06-12"])
                  "Goa" "India" "10 June" ["2025-06-12"] eq_refl)).
  reflexivity.
Defined.

(** X6.  With both dates in order, a budget that [check_positive] refuses
    stops [add_flow] before the activities are asked for, its error shown
    after "Invalid budget:"; and a line of activities that holds none
    stops it with its own message.  Neither builds anything. *)
Theorem add_flow_bad_budget_or_activities
        (st : state) (c n s e b : string) (rest : list string) (ds de : datetime) :
  stdin st = c :: n :: s :: e :: b :: rest ->
  Date.strptime (Str.strip s) = Some ds ->
  Date.strptime (Str.strip e) = Some de ->
  (forall ex,
     check_positive (Str.strip b) = Raise ex ->
     exists st',
       add_flow st = (Return tt, st') /\ stdin st' = rest /\ untouched st st' /\
       last_written st' = Some [Text "Invalid budget:"; Text " "; ExnText ex; Text Str.nl]) /\
  (forall v a rest',
     check_positive (Str.strip b) = Return v ->
     rest = a :: rest' -> stripped_pieces (Str.strip a) = [] ->
     exists st',
       add_flow st = (Return tt, st') /\ stdin st' = rest' /\ untouched st st' /\
       last_written st' = Some [Text "Please provide at least one activity."; Text Str.nl]).
Proof.
  intros Hin Hs He.
  rewrite (add_flow_after_dates st c n s e (b :: rest) ds de Hin Hs He). split.
  - intros ex Hb. unfold after_dates. unfold bind at 1. unfold try_except.
    erewrite bind_input by reflexivity. unfold bind at 1. unfold lift.
    rewrite Hb, caught_by_exception.
    eexists. split; [reflexivity|]. split; [reflexivity|]. split; [split; reflexivity|].
    unfold last_written. simpl. apply last_snoc.
  - intros v a rest' Hb -> Ha. unfold after_dates. unfold bind at 1. unfold try_except.
    erewrite bind_input by reflexivity. unfold bind at 1. unfold lift.
    rewrite Hb. unfold ret at 1.
    unfold input_activities. unfold bind at 1. erewrite bind_input by reflexivity.
    unfold ret at 1. rewrite Ha.
    eexists. split; [reflexivity|]. split; [reflexivity|]. split; [split; reflexivity|].
    unfold last_written. simpl. apply last_snoc.
Qed.

Lemma add_flow_bad_budget_or_activities_witness :
  stdin (Sample.typing ["Goa"; "India"; "2025-06-01"; "2025-06-10"; "-5"; "surf"])
  = "Goa" :: "India" :: "2025-06-01" :: "2025-06-10" :: "-5" :: ["surf"] /\
  Date.strptime (Str.strip "2025-06-01") = Some (Date.midnight 2025 6 1) /\
  Date.strptime (Str.strip "2025-06-10") = Some (Date.midnight 2025 6 10) /\
  check_positive (Str.strip "-5") = Raise (Exn ValueError "Budget Value must be positive.") /\
  exists st',
    add_flow (Sample.typing ["Goa"; "India"; "2025-06-01"; "2025-06-10"; "-5"; "surf"])
    = (Return tt, st') /\
    stdin st' = ["surf"] /\
    untouched (Sample.typing ["Goa"; "India"; "2025-06-01"; "2025-06-10"; "-5"; "surf"]) st' /\
    last_written st'
    = Some [Text "Invalid budget:"; Text " ";
            ExnText (Exn ValueError "Budget Value must be positive."); Text Str.nl].
Proof.
  split; [reflexivity|]. split; [reflexivity|]. split; [reflexivity|].
  split; [vm_compute; reflexivity|].
  apply (proj1 (add_flow_bad_budget_or_activities
                  (Sample.typing ["Goa"; "India"; "2025-06-01"; "2025-06-10"; "-5"; "surf"])
                  "Goa" "India" "2025-06-01" "2025-06-10" "-5" ["surf"]
                  (Date.midnight 2025 6 1) (Date.midnight 2025 6 10)
                  eq_refl eq_refl eq_refl)).
  vm_compute. reflexivity.
Defined.

(** ** How the operations of the manager compose *)

(** What [remove_destination] returns and leaves, in closed form. *)
Lemma remove_destination_run (c : string) (st : state) :
  typed_state st ->
  exists st',
    ItineraryManager.remove_destination c st
      = (Return (existsb (cityb c st) (destinations st)), st') /\
    destinations st' = List.filter (fun a => negb (cityb c st a)) (destinations st) /\
    heap st' = heap st.
Proof.
  intros Hty.
  unfold ItineraryManager.remove_destination, bind, get_destinations.
  rewrite matching_filter by exact Hty.
  destruct (List.filter (cityb c st) (destinations st)) as [|x dl] eqn:Hf.
  - assert (Hnone := proj1 (filter_nil_none _ _) Hf).
    assert (Hex : existsb (cityb c st) (destinations st) = false).
    { apply not_true_is_false. intros H. apply existsb_exists in H.
      destruct H as (a & Ha & Hc). rewrite Hnone in Hc; [discriminate | apply list_elem_of_In, Ha]. }
    assert (Hall : List.filter (fun a => negb (cityb c st a)) (destinations st) = destinations st).
    { clear -Hnone. induction (destinations st) as [|y l IH]; simpl; [reflexivity|].
      rewrite (Hnone y) by left. simpl. f_equal. apply IH.
      intros z Hz. apply Hnone. right. exact Hz. }
    rewrite Hex, Hall. eexists. split; [reflexivity|]. split; reflexivity.
  - assert (Hex : existsb (cityb c st) (destinations st) = true).
    { apply existsb_exists. exists x.
      assert (Hin : In x (List.filter (cityb c st) (destinations st))) by (rewrite Hf; left; reflexivity).
      apply filter_In in Hin. exact Hin. }
    rewrite Hex, <- Hf.
    rewrite (remove_each_filter (cityb c st) (destinations st) [] st)
      by (first [intros y Hy; inversion Hy | reflexivity]).
    eexists. split; [reflexivity|]. split; reflexivity.
Qed.

Lemma cityb_same_heap (c : string) (st st' : state) (a : addr) :
  heap st' = heap st -> cityb c st' a = cityb c st a.
Proof. intros H. unfold cityb, deref. rewrite H. reflexivity. Qed.

Lemma filter_filter_negb {A} (f : A -> bool) (l : list A) :
  List.filter f (List.filter (fun a => negb (f a)) l) = [].
Proof.
  induction l as [|x l IH]; simpl; [reflexivity|].
  destruct (f x) eqn:Hx; simpl; [exact IH|]. rewrite Hx. exact IH.
Qed.

Lemma filter_ext_in_list {A} (f g : A -> bool) (l : list A) :
  (forall a, f a = g a) -> List.filter f l = List.filter g l.
Proof. intros H. induction l as [|x l IH]; simpl; [|rewrite H, IH]; reflexivity. Qed.

(** [remove_destination] when no entry has the city. *)
Lemma remove_destination_not_found (c : string) (st : state) :
  typed_state st ->
  List.filter (cityb c st) (destinations st) = [] ->
  exists st',
    ItineraryManager.remove_destination c st = (Return false, st') /\
    destinations st' = destinations st /\ heap st' = heap st /\
    last_written st' =
      Some [Text "No destination found with the name "; Text " "; Text c;
            Text " "; Text ("." +:+ Str.nl); Text Str.nl].
Proof.
  intros Hty Hf.
  unfold ItineraryManager.remove_destination, bind, get_destinations.
  rewrite matching_filter by exact Hty. rewrite Hf.
  eexists. split; [reflexivity|]. split; [reflexivity|]. split; [reflexivity|].
  unfold last_written. simpl. apply last_snoc.
Qed.

(** X7.  Removing a city a second time finds nothing: the second call
    returns false, prints that no destination of that name was found, and
    leaves the collection and the instances as the first call left them:
    the first call has removed every entry of that city. *)
Theorem remove_destination_twice (c : string) (st : state) :
  typed_state st ->
  exists b st1 st2,
    ItineraryManager.remove_destination c st = (Return b, st1) /\
    ItineraryManager.remove_destination c st1 = (Return false, st2) /\
    destinations st2 = destinations st1 /\ heap st2 = heap st1 /\
    (forall a, a ∈ destinations st1 -> cityb c st1 a = false) /\
    last_written st2 =
      Some [Text "No destination found with the name "; Text " "; Text c;
            Text " "; Text ("." +:+ Str.nl); Text Str.nl].
Proof.
  intros Hty. destruct (remove_destination_run c st Hty) as (st1 & Hrun1 & Hd1 & Hh1).
  assert (Hty1 : typed_state st1).
  { intros a Ha. rewrite Hd1 in Ha. apply list_elem_of_In, filter_In in Ha.
    destruct Ha as [Ha _]. unfold deref. rewrite Hh1. apply Hty, list_elem_of_In, Ha. }
  assert (Hc : forall a, cityb c st1 a = cityb c st a)
    by (intros a; apply cityb_same_heap, Hh1).
  assert (Hnone : List.filter (cityb c st1) (destinations st1) = []).
  { rewrite (filter_ext_in_list _ _ _ Hc), Hd1. apply filter_filter_negb. }
  destruct (remove_destination_not_found c st1 Hty1 Hnone) as (st2 & Hrun2 & Hd2 & Hh2 & Hw).
  exists (existsb (cityb c st) (destinations st)), st1, st2.
  split; [exact Hrun1|]. split; [exact Hrun2|]. split; [exact Hd2|]. split; [exact Hh2|].
  split; [|exact Hw].
  intros a Ha. apply (proj1 (filter_nil_none _ _) Hnone a Ha).
Qed.

Lemma remove_destination_twice_witness :
  typed_state Sample.session /\
  exists b st1 st2,
    ItineraryManager.remove_destination "goa" Sample.session = (Return b, st1) /\
    ItineraryManager.remove_destination "goa" st1 = (Return false, st2) /\
    destinations st2 = destinations st1 /\ heap st2 = heap st1 /\
    (forall a, a ∈ destinations st1 -> cityb "goa" st1 a = false) /\
    last_written st2 =
      Some [Text "No destination found with the name "; Text " "; Text "goa";
            Text " "; Text ("." +:+ Str.nl); Text Str.nl].
Proof.
  split; [exact session_typed|].
  apply (remove_destination_twice "goa" Sample.session session_typed).
Defined.

(** X8.  Adding an instance and then removing its city takes it out
    again, together with every older entry of that city, and returns true;
    when no older entry has that city the collection is back to what it
    was.  The instances are untouched. *)
Theorem add_then_remove (a : addr) (d : dest) (st : state) :
  typed_state st ->
  view (deref a st) = Some d ->
  exists st1 st2,
    ItineraryManager.add_destination a st = (Return tt, st1) /\
    ItineraryManager.remove_destination (city d) st1 = (Return true, st2) /\
    selects (fun b => ~ entry st (same_city (city d)) b) (destinations st) (destinations st2) /\
    heap st2 = heap st /\
    ((forall b, b ∈ destinations st -> ~ entry st (same_city (city d)) b) ->
     destinations st2 = destinations st).
Proof.
  intros Hty Hview.
  set (st1 := mk_state (heap st) (next st) (destinations st ++ [a]) (files st) (stdin st)
                (stdout st ++ [[Text "Destination added successfully."; Text Str.nl]])).
  assert (Hadd : ItineraryManager.add_destination a st = (Return tt, st1)) by reflexivity.
  assert (Hty1 : typed_state st1).
  { intros b Hb. cbn [st1 destinations] in Hb. apply elem_of_app in Hb.
    destruct Hb as [Hb|Hb]; [apply Hty, Hb|].
    apply list_elem_of_singleton in Hb. subst b. exists d. exact Hview. }
  destruct (remove_destination_run (city d) st1 Hty1) as (st2 & Hrun & Hd2 & Hh2).
  assert (Hc : forall b, cityb (city d) st1 b = cityb (city d) st b) by reflexivity.
  assert (Ha : cityb (city d) st a = true).
  { apply cityb_entry. exists d. split; [exact Hview | reflexivity]. }
  assert (Hex : existsb (cityb (city d) st1) (destinations st1) = true).
  { apply existsb_exists. exists a. split; [|rewrite Hc; exact Ha].
    cbn [st1 destinations]. apply in_or_app. right. left. reflexivity. }
  rewrite Hex in Hrun.
  assert (Hrest : destinations st2
                  = List.filter (fun b => negb (cityb (city d) st b)) (destinations st)).
  { rewrite Hd2. cbn [st1 destinations]. rewrite List.filter_app. simpl.
    rewrite (filter_ext_in_list _ _ _ (fun b => f_equal negb (Hc b))).
    change (cityb (city d) st1 a) with (cityb (city d) st a). rewrite Ha. simpl.
    apply app_nil_r. }
  assert (Hsel : selects (fun b => ~ entry st (same_city (city d)) b) (destinations st)
                   (destinations st2)).
  { rewrite Hrest. apply selects_filter. intros b _.
    rewrite negb_true_iff, <- cityb_entry. destruct (cityb (city d) st b); split; congruence. }
  exists st1, st2. split; [exact Hadd|]. split; [exact Hrun|]. split; [exact Hsel|].
  split; [exact Hh2|]. intros Hnone. eapply selects_all; [|exact Hsel]. exact Hnone.
Qed.

Lemma add_then_remove_witness :
  typed_state Sample.session /\
  view (deref 0%nat Sample.session) = Some Sample.paris /\
  exists st1 st2,
    ItineraryManager.add_destination 0%nat Sample.session = (Return tt, st1) /\
    ItineraryManager.remove_destination "Paris" st1 = (Return true, st2) /\
    heap st2 = heap Sample.session.
Proof.
  split; [exact session_typed|]. split; [reflexivity|].
  destruct (add_then_remove 0%nat Sample.paris Sample.session session_typed eq_refl)
    as (st1 & st2 & H1 & H2 & _ & H4 & _).
  exists st1, st2. auto.
Defined.

(** ** Narrowing a search *)

Lemma append_assoc (a b c : string) : (a +:+ b) +:+ c = a +:+ b +:+ c.
Proof. induction a as [|x a IH]; [reflexivity|]. rewrite !append_cons, IH. reflexivity. Qed.

Lemma occurs_trans (t1 t2 s : string) : occurs t1 t2 -> occurs t2 s -> occurs t1 s.
Proof.
  intros (u1 & v1 & H1) (u2 & v2 & H2). exists (u2 +:+ u1), (v1 +:+ v2).
  rewrite H2, H1, !append_assoc. reflexivity.
Qed.

Lemma mentions_narrow (t1 t2 : string) (d : dest) :
  occurs t1 t2 -> mentions t2 d -> mentions t1 d.
Proof.
  intros Ht [H|[H|(a & Ha & H)]].
  - left. eapply occurs_trans; eassumption.
  - right. left. eapply occurs_trans; eassumption.
  - right. right. exists a. split; [exact Ha | eapply occurs_trans; eassumption].
Qed.

Lemma filter_sublist_impl {A} (f g : A -> bool) (l : list A) :
  (forall a, f a = true -> g a = true) ->
  sublist (List.filter f l) (List.filter g l).
Proof.
  intros H. induction l as [|x l IH]; simpl; [constructor|].
  destruct (f x) eqn:Hf.
  - rewrite (H x Hf). apply sublist_skip, IH.
  - destruct (g x); [apply sublist_cons, IH | exact IH].
Qed.

(** X9.  A longer term narrows the search: when the term [t1] occurs in
    the term [t2], case ignored, everything found for [t2] is found for
    [t1], in the same order. *)
Theorem search_destination_narrows (t1 t2 : string) (st : state) :
  typed_state st -> occurs t1 t2 ->
  exists r1 r2,
    ItineraryManager.search_destination t1 st = (Return r1, st) /\
    ItineraryManager.search_destination t2 st = (Return r2, st) /\
    sublist r2 r1.
Proof.
  intros Hty Ht.
  exists (List.filter (hitb t1 st) (destinations st)),
         (List.filter (hitb t2 st) (destinations st)).
  split; [|split].
  - unfold ItineraryManager.search_destination, bind, get_destinations.
    rewrite hits_filter by exact Hty. reflexivity.
  - unfold ItineraryManager.search_destination, bind, get_destinations.
    rewrite hits_filter by exact Hty. reflexivity.
  - apply filter_sublist_impl. intros a Ha. apply hitb_entry in Ha. apply hitb_entry.
    destruct Ha as (d & Hd & Hm). exists d. split; [exact Hd|].
    eapply mentions_narrow; eassumption.
Qed.

Lemma search_destination_narrows_witness :
  typed_state Sample.session /\ occurs "EA" "beach" /\
  exists r1 r2,
    ItineraryManager.search_destination "EA" Sample.session = (Return r1, Sample.session) /\
    ItineraryManager.search_destination "beach" Sample.session = (Return r2, Sample.session) /\
    sublist r2 r1.
Proof.
  assert (H : occurs "EA" "beach") by (exists "b", "ch"; reflexivity).
  split; [exact session_typed|]. split; [exact H|].
  apply (search_destination_narrows "EA" "beach" Sample.session session_typed H).
Defined.

(** ** Updates through the manager *)

(** What [update_destination] returns and leaves for valid keywords, in
    closed form. *)
Lemma update_destination_run (c : string) (kw : list (string * value)) (st : state) :
  well_formed_state st -> forallb valid_update kw = true ->
  exists st',
    ItineraryManager.update_destination c kw st
      = (Return (existsb (cityb c st) (destinations st)), st') /\
    destinations st' = destinations st /\
    forall a, deref a st' =
              if inb a (destinations st) && cityb c st a
              then assign_all kw (deref a st) else deref a st.
Proof.
  intros Hwf Hv.
  destruct (update_each_valid c kw (destinations st) Hv st false Hwf)
    as (st1 & Hrun & Hdest & Hheap).
  destruct (valid_updates_keys kw Hv) as [Hself Hcity].
  unfold ItineraryManager.update_destination. rewrite Hself, Hcity.
  unfold bind at 1. unfold get_destinations. unfold bind at 1. rewrite Hrun. simpl orb.
  destruct (existsb (cityb c st) (destinations st)).
  - exists st1. split; [reflexivity|]. split; [exact Hdest | exact Hheap].
  - eexists. split; [reflexivity|]. split; [exact Hdest | exact Hheap].
Qed.

Lemma assign_all_well_formed (kw : list (string * value)) (o : obj) :
  well_formed o = true -> forallb valid_update kw = true ->
  well_formed (assign_all kw o) = true /\
  forall d, view o = Some d ->
            exists d', view (assign_all kw o) = Some d' /\ city d' = city d.
Proof.
  intros Hwf Hv. destruct (well_formed_obj_of o Hwf) as (d & Hview & -> & Hn).
  destruct (update_loop_valid kw d Hn Hv) as (_ & d' & -> & Hn' & Hc).
  split; [apply well_formed_of, Hn'|].
  intros d0 Hd0. rewrite view_obj_of in Hd0. inversion Hd0. subst d0.
  exists d'. split; [apply view_obj_of | exact Hc].
Qed.

(** X10.  Valid updates through the manager keep the collection in order
    and every entry of it well formed, and never move an entry to another
    city: each entry shows the city it showed before. *)
Theorem update_destination_keeps_well_formed
        (c : string) (kw : list (string * value)) (st : state) :
  well_formed_state st -> forallb valid_update kw = true ->
  exists found st',
    ItineraryManager.update_destination c kw st = (Return found, st') /\
    destinations st' = destinations st /\
    well_formed_state st' /\
    forall a d, a ∈ destinations st -> view (deref a st) = Some d ->
                exists d', view (deref a st') = Some d' /\ city d' = city d.
Proof.
  intros Hwf Hv. destruct (update_destination_run c kw st Hwf Hv) as (st' & Hrun & Hd & Hh).
  eexists _, st'. split; [exact Hrun|]. split; [exact Hd|]. split.
  - intros a Ha. rewrite Hd in Ha. rewrite Hh.
    destruct (inb a (destinations st) && cityb c st a); [|apply Hwf, Ha].
    apply assign_all_well_formed; [apply Hwf, Ha | exact Hv].
  - intros a d Ha Hview. rewrite Hh.
    destruct (inb a (destinations st) && cityb c st a); [|exists d; auto].
    apply (proj2 (assign_all_well_formed kw _ (Hwf a Ha) Hv)), Hview.
Qed.

Lemma update_destination_keeps_well_formed_witness :
  well_formed_state Sample.session /\
  forallb valid_update [("budget", VInt 5000); ("activities", VList [VStr "surf"])] = true /\
  exists found st',
    ItineraryManager.update_destination "goa"
      [("budget", VInt 5000); ("activities", VList [VStr "surf"])] Sample.session
    = (Return found, st') /\
    destinations st' = destinations Sample.session /\
    well_formed_state st'.
Proof.
  split; [exact session_well_formed|]. split; [reflexivity|].
  destruct (update_destination_keeps_well_formed "goa"
              [("budget", VInt 5000); ("activities", VList [VStr "surf"])]
              Sample.session session_well_formed eq_refl)
    as (found & st' & H1 & H2 & H3 & _).
  exists found, st'. auto.
Defined.

(** X11.  A valid update is idempotent: run a second time with the same
    city and keywords it returns the same boolean and leaves every
    instance as the first run left it. *)
Theorem update_destination_twice (c : string) (kw : list (string * value)) (st : state) :
  well_formed_state st -> forallb valid_update kw = true ->
  exists found st1 st2,
    ItineraryManager.update_destination c kw st = (Return found, st1) /\
    ItineraryManager.update_destination c kw st1 = (Return found, st2) /\
    destinations st2 = destinations st /\
    forall a, deref a st2 = deref a st1.
Proof.
  intros Hwf Hv. destruct (update_destination_run c kw st Hwf Hv) as (st1 & Hrun1 & Hd1 & Hh1).
  assert (Hwf1 : well_formed_state st1).
  { intros a Ha. rewrite Hd1 in Ha. rewrite Hh1.
    destruct (inb a (destinations st) && cityb c st a); [|apply Hwf, Ha].
    apply assign_all_well_formed; [apply Hwf, Ha | exact Hv]. }
  assert (Hc : forall a, a ∈ destinations st -> cityb c st1 a = cityb c st a).
  { intros a Ha. unfold cityb. rewrite Hh1.
    destruct (inb a (destinations st) && cityb c st a); [|reflexivity].
    destruct (well_formed_obj_of _ (Hwf a Ha)) as (d & Hview & _).
    destruct (proj2 (assign_all_well_formed kw _ (Hwf a Ha) Hv) d Hview) as (d' & Hview' & Hcity).
    fold (cityb c st a). unfold cityb. rewrite Hview', Hview, Hcity. reflexivity. }
  destruct (update_destination_run c kw st1 Hwf1 Hv) as (st2 & Hrun2 & Hd2 & Hh2).
  assert (Hex : existsb (cityb c st1) (destinations st1) = existsb (cityb c st) (destinations st)).
  { rewrite Hd1. clear -Hc. induction (destinations st) as [|x l IH]; [reflexivity|].
    simpl. rewrite Hc by left. f_equal. apply IH. intros a Ha. apply Hc. right. exact Ha. }
  rewrite Hex in Hrun2.
  eexists _, st1, st2. split; [exact Hrun1|]. split; [exact Hrun2|].
  split; [rewrite Hd2; exact Hd1|].
  intros a. rewrite Hh2, Hd1.
  destruct (inb a (destinations st)) eqn:Hin; [|reflexivity]. simpl.
  rewrite (Hc a (proj1 (inb_elem_of _ _) Hin)).
  destruct (cityb c st a) eqn:Hca; [|reflexivity].
  rewrite Hh1, Hin, Hca. simpl. apply assign_all_idem.
Qed.

Lemma update_destination_twice_witness :
  well_formed_state Sample.session /\
  forallb valid_update [("country", VStr "Bharat")] = true /\
  exists found st1 st2,
    ItineraryManager.update_destination "GOA" [("country", VStr "Bharat")] Sample.session
    = (Return found, st1) /\
    ItineraryManager.update_destination "GOA" [("country", VStr "Bharat")] st1
    = (Return found, st2) /\
    destinations st2 = destinations Sample.session /\
    forall a, deref a st2 = deref a st1.
Proof.
  split; [exact session_well_formed|]. split; [reflexivity|].
  apply (update_destination_twice "GOA" [("country", VStr "Bharat")] Sample.session
           session_well_formed eq_refl).
Defined.

(** ** The update dialogue *)

Lemma or_none_empty : or_none EmptyString = None.
Proof. reflexivity. Qed.

Lemma or_none_nonempty (x : string) : x <> EmptyString -> or_none x = Some x.
Proof. destruct x; [congruence | reflexivity]. Qed.

Lemma typed_date_cases (x : string) (o : option datetime) :
  typed_date x o ->
  (or_none x = None /\ o = None) \/
  (exists d, or_none x = Some x /\ Date.strptime x = Some d /\ o = Some d).
Proof.
  destruct o as [d|]; simpl; intros H.
  - right. exists d. split; [|auto]. apply or_none_nonempty. intros ->. discriminate H.
  - left. subst x. auto.
Qed.

Lemma typed_budget_cases (x : string) (o : option spec_float) :
  typed_budget x o ->
  (or_none x = None /\ o = None) \/
  (exists v, or_none x = Some x /\ check_positive x = Return v /\ o = Some v).
Proof.
  destruct o as [v|]; simpl; intros H.
  - right. exists v. split; [|auto]. apply or_none_nonempty. intros ->. discriminate H.
  - left. subst x. auto.
Qed.

Lemma patched_assign (oc : option string) (os oe : option datetime)
      (ob : option spec_float) (oa : option (list string)) (d : dest) :
  assign_all (flow_keywords oc os oe ob oa) (obj_of d) = obj_of (patched oc os oe ob oa d).
Proof. destruct oc, os, oe, ob, oa; reflexivity. Qed.

(** One step of a dialogue, the state after it kept abstract. *)
Lemma input_line {A} (prompt : string) (k : string -> M A) (st : state)
      (l : string) (r : list string) :
  stdin st = l :: r ->
  exists st1, bind (input prompt) k st = k l st1 /\ untouched st st1 /\ stdin st1 = r.
Proof.
  intros H. rewrite (bind_input _ _ _ _ _ H). eexists. split; [reflexivity|].
  split; [split; reflexivity | reflexivity].
Qed.

Lemma input_none {A} (prompt : string) (k : string -> M A) (st : state) :
  stdin st = [] ->
  exists st1, bind (input prompt) k st = (Raise eof, st1) /\ untouched st st1.
Proof.
  intros H. rewrite (bind_input_eof _ _ _ H). eexists. split; [reflexivity|].
  split; reflexivity.
Qed.

Lemma print_line (t : text) (st : state) :
  exists st1, print t st = (Return tt, st1) /\ untouched st st1 /\
              last_written st1 = Some (t ++ [Text Str.nl]).
Proof.
  eexists. split; [reflexivity|]. split; [split; reflexivity|].
  unfold last_written. simpl. apply last_snoc.
Qed.

Lemma date_line_ok (x : string) (o : option datetime) :
  typed_date x o ->
  match or_none x with Some y => negb (valid_date y) | None => false end = false.
Proof.
  intros H. destruct (typed_date_cases _ _ H) as [[-> _] | (d & -> & Hd & _)]; [reflexivity|].
  rewrite (proj1 (valid_date_parses _ _ Hd)). reflexivity.
Qed.

Lemma date_line_parsed (x : string) (o : option datetime) (st : state) :
  typed_date x o ->
  match or_none x with
  | Some y => d <~ lift (parse_date y) ;; ret (Some d)
  | None => ret None
  end st = (Return o, st).
Proof.
  intros H. destruct (typed_date_cases _ _ H) as [[-> ->] | (d & -> & Hd & ->)];
    [reflexivity|]. unfold bind, lift. rewrite (proj2 (valid_date_parses _ _ Hd)). reflexivity.
Qed.

Lemma budget_line_ok (x : string) (o : option spec_float) (st : state) :
  typed_budget x o ->
  match or_none x with
  | None => ret (Some None)
  | Some y =>
      try_except (v <~ lift (check_positive y) ;; ret (Some (Some v))) [Exception]
        (fun ex => print [Text "Invalid budget:"; Text " "; ExnText ex] ;;; ret None)
  end st = (Return (Some o), st).
Proof.
  intros H. destruct (typed_budget_cases _ _ H) as [[-> ->] | (v & -> & Hv & ->)];
    [reflexivity|]. unfold try_except, bind, lift. rewrite Hv. reflexivity.
Qed.

Lemma activities_line_ok (x : string) (o : option (list string)) :
  typed_activities x o -> option_map stripped_pieces (or_none x) = o.
Proof.
  destruct o as [l|]; simpl; intros H.
  - destruct H as (Hne & <- & _). rewrite (or_none_nonempty _ Hne). reflexivity.
  - rewrite H. reflexivity.
Qed.

Lemma bind_run {A B} (c : M A) (k : A -> M B) (st st1 : state) (a : A) :
  c st = (Return a, st1) -> bind c k st = k a st1.
Proof. intros H. unfold bind. rewrite H. reflexivity. Qed.

Ltac run_with H :=
  match type of H with
  | _ ?s = _ =>
      match goal with
      | |- context [bind ?c ?k s] => rewrite (bind_run c k s _ _ H); cbv beta
      end
  end.

Ltac read_line H st1 Hu Hin1 :=
  match goal with
  | |- context [bind (input ?p) ?k ?s] =>
      destruct (input_line p k s _ _ H) as (st1 & -> & Hu & Hin1); cbv beta zeta
  end.

Ltac end_of_input H st1 Hu :=
  match goal with
  | |- context [bind (input ?p) ?k ?s] =>
      destruct (input_none p k s H) as (st1 & -> & Hu)
  end.

Ltac frame := unfold untouched in *; simpl; intuition congruence.

(** The dialogue of [update_flow] up to the call of the manager, when six
    lines are typed and each is blank or parses. *)
Lemma update_flow_reaches_manager
      (st : state) (c n s e b a : string) (rest : list string)
      (os oe : option datetime) (ob : option spec_float) (oa : option (list string)) :
  stdin st = c :: n :: s :: e :: b :: a :: rest ->
  typed_date (Str.strip s) os -> typed_date (Str.strip e) oe ->
  typed_budget (Str.strip b) ob -> typed_activities (Str.strip a) oa ->
  exists st0,
    update_flow st =
    (ItineraryManager.update_destination (Str.strip c)
       (flow_keywords (or_none (Str.strip n)) os oe ob oa) ;;; ret tt) st0 /\
    heap st0 = heap st /\ destinations st0 = destinations st /\ stdin st0 = rest.
Proof.
  intros Hin Hs He Hb Ha. unfold update_flow.
  read_line Hin st1 Hu1 Hin1. read_line Hin1 st2 Hu2 Hin2. read_line Hin2 st3 Hu3 Hin3.
  rewrite (date_line_ok _ _ Hs). read_line Hin3 st4 Hu4 Hin4.
  rewrite (date_line_ok _ _ He). read_line Hin4 st5 Hu5 Hin5.
  unfold bind at 1. rewrite (budget_line_ok _ _ _ Hb).
  read_line Hin5 st6 Hu6 Hin6. rewrite (activities_line_ok _ _ Ha).
  exists st6. split; [|frame].
  assert (Hrun : forall k : option datetime -> option datetime -> M unit,
            (new_start <~ match or_none (Str.strip s) with
                          | Some y => d <~ lift (parse_date y) ;; ret (Some d)
                          | None => ret None
                          end ;;
             new_end <~ match or_none (Str.strip e) with
                        | Some y => d <~ lift (parse_date y) ;; ret (Some d)
                        | None => ret None
                        end ;;
             k new_start new_end) st6 = k os oe st6).
  { intros k. unfold bind at 1. rewrite (date_line_parsed _ _ _ Hs).
    unfold bind at 1. rewrite (date_line_parsed _ _ _ He). reflexivity. }
  destruct oa as [[|p ps]|].
  - exfalso. simpl in Ha. destruct Ha as (_ & _ & H). congruence.
  - exact (Hrun (fun x y => ItineraryManager.update_destination (Str.strip c)
                   (flow_keywords (or_none (Str.strip n)) x y ob (Some (p :: ps))) ;;; ret tt)).
  - exact (Hrun (fun x y => ItineraryManager.update_destination (Str.strip c)
                   (flow_keywords (or_none (Str.strip n)) x y ob None) ;;; ret tt)).
Qed.

(** X12.  Six lines typed into [update_flow], each of the last five blank
    or well formed, update every entry of the typed city, case ignored:
    each field takes the typed value if there is one and keeps its value
    if the line was blank; the city is never changed, a new start date is
    not compared with the end date, and every other entry stays as it was.
    The collection stays well formed. *)
Theorem update_flow_applies
        (st : state) (c n s e b a : string) (rest : list string)
        (os oe : option datetime) (ob : option spec_float) (oa : option (list string)) :
  well_formed_state st ->
  stdin st = c :: n :: s :: e :: b :: a :: rest ->
  typed_date (Str.strip s) os -> typed_date (Str.strip e) oe ->
  typed_budget (Str.strip b) ob -> typed_activities (Str.strip a) oa ->
  exists st',
    update_flow st = (Return tt, st') /\
    destinations st' = destinations st /\ well_formed_state st' /\
    (forall x d, x ∈ destinations st -> view (deref x st) = Some d ->
       deref x st' =
       if String.eqb (Str.lower (city d)) (Str.lower (Str.strip c))
       then obj_of (patched (or_none (Str.strip n)) os oe ob oa d)
       else deref x st) /\
    (forall x, x ∉ destinations st -> deref x st' = deref x st).
Proof.
  intros Hwf Hin Hs He Hb Ha.
  destruct (update_flow_reaches_manager st c n s e b a rest os oe ob oa Hin Hs He Hb Ha)
    as (st0 & Hrun & Hh0 & Hd0 & _).
  assert (Hderef0 : forall x, deref x st0 = deref x st)
    by (intros x; unfold deref; rewrite Hh0; reflexivity).
  assert (Hwf0 : well_formed_state st0).
  { intros x Hx. rewrite Hd0 in Hx. rewrite Hderef0. apply Hwf, Hx. }
  pose proof (flow_keywords_valid (or_none (Str.strip n)) os oe ob oa) as Hv.
  destruct (update_destination_run (Str.strip c) _ st0 Hwf0 Hv) as (st' & Hupd & Hd & Hh).
  exists st'. rewrite Hrun. unfold bind at 1. rewrite Hupd.
  split; [reflexivity|]. split; [rewrite Hd; exact Hd0|]. split; [|split].
  - intros x Hx. rewrite Hd in Hx. rewrite Hh.
    destruct (inb x (destinations st0) && cityb (Str.strip c) st0 x); [|apply Hwf0, Hx].
    apply assign_all_well_formed; [apply Hwf0, Hx | exact Hv].
  - intros x d Hx Hview. rewrite Hh, Hd0, (proj2 (inb_elem_of _ _) Hx). simpl.
    unfold cityb. rewrite !Hderef0, Hview.
    destruct (String.eqb (Str.lower (city d)) (Str.lower (Str.strip c))); [|reflexivity].
    destruct (well_formed_obj_of _ (Hwf x Hx)) as (d0 & Hview0 & Ho & _).
    rewrite Hview in Hview0. inversion Hview0. subst d0.
    rewrite Ho. apply patched_assign.
  - intros x Hx. rewrite Hh, Hd0, Hderef0.
    destruct (inb x (destinations st)) eqn:Hin'; [|reflexivity].
    exfalso. apply Hx, inb_elem_of, Hin'.
Qed.

Lemma update_flow_applies_witness :
  well_formed_state Sample.session /\
  stdin (Sample.typing [" goa "; ""; "2026-01-05"; ""; "750.5"; " "])
  = " goa " :: "" :: "2026-01-05" :: "" :: "750.5" :: " " :: [] /\
  typed_date (Str.strip "2026-01-05") (Some (Date.midnight 2026 1 5)) /\
  typed_date (Str.strip "") None /\
  typed_budget (Str.strip "750.5") (Float.of_string "750.5") /\
  typed_activities (Str.strip " ") None /\
  exists st',
    update_flow (Sample.typing [" goa "; ""; "2026-01-05"; ""; "750.5"; " "]) = (Return tt, st') /\
    destinations st' = destinations Sample.session /\ well_formed_state st' /\
    (forall x d, x ∈ destinations Sample.session -> view (deref x Sample.session) = Some d ->
       deref x st' =
       if String.eqb (Str.lower (city d)) (Str.lower (Str.strip " goa "))
       then obj_of (patched (or_none (Str.strip "")) (Some (Date.midnight 2026 1 5)) None
                            (Float.of_string "750.5") None d)
       else deref x Sample.session) /\
    (forall x, x ∉ destinations Sample.session -> deref x st' = deref x Sample.session).
Proof.
  assert (Hb : typed_budget (Str.strip "750.5") (Float.of_string "750.5"))
    by (vm_compute; reflexivity).
  split; [exact session_well_formed|]. split; [reflexivity|]. split; [reflexivity|].
  split; [reflexivity|]. split; [exact Hb|]. split; [reflexivity|].
  exact (update_flow_applies (Sample.typing [" goa "; ""; "2026-01-05"; ""; "750.5"; " "])
           " goa " "" "2026-01-05" "" "750.5" " " []
           (Some (Date.midnight 2026 1 5)) None (Float.of_string "750.5") None
           session_well_formed eq_refl eq_refl eq_refl Hb eq_refl).
Defined.

(** The start of the first Goa moves behind its end; nothing objects. *)
Example update_flow_start_after_end :
  deref 1%nat (snd (update_flow (Sample.typing ["goa"; ""; "2026-01-05"; ""; ""; ""])))
  = obj_of (mk_dest "Goa" "India" (Date.midnight 2026 1 5) (Date.midnight 2025 1 9)
                    (VInt 3000) ["beach"]).
Proof. reflexivity. Qed.

(** ** Everything [update_flow] can do *)

Lemma date_line_cases (x : string) :
  (exists o, typed_date x o) \/ (or_none x = Some x /\ valid_date x = false).
Proof.
  destruct (Date.strptime x) as [d|] eqn:Hd.
  - left. exists (Some d). exact Hd.
  - destruct x as [|a x'].
    + left. exists None. reflexivity.
    + right. split; [reflexivity|]. unfold valid_date, parse_date. rewrite Hd. reflexivity.
Qed.

Lemma budget_line_cases (x : string) :
  (exists o, typed_budget x o) \/ (or_none x = Some x /\ exists ex, check_positive x = Raise ex).
Proof.
  destruct (check_positive x) as [v|ex] eqn:Hc.
  - left. exists (Some v). exact Hc.
  - destruct x as [|a x'].
    + left. exists None. reflexivity.
    + right. split; [reflexivity|]. exists ex. reflexivity.
Qed.

Lemma acts_line_cases (x : string) :
  (exists o, typed_activities x o) \/ (or_none x = Some x /\ stripped_pieces x = []).
Proof.
  destruct x as [|a x'].
  - left. exists None. reflexivity.
  - destruct (stripped_pieces (String a x')) as [|p ps] eqn:Hp.
    + right. split; reflexivity.
    + left. exists (Some (p :: ps)). split; [discriminate|]. split; [exact Hp | discriminate].
Qed.

Lemma budget_line_bad (x : string) (ex : exn) (st : state) :
  or_none x = Some x -> check_positive x = Raise ex ->
  exists st1,
    match or_none x with
    | None => ret (Some None)
    | Some y =>
        try_except (v <~ lift (check_positive y) ;; ret (Some (Some v))) [Exception]
          (fun ex => print [Text "Invalid budget:"; Text " "; ExnText ex] ;;; ret None)
    end st = (Return None, st1) /\ untouched st st1 /\
    last_written st1 = Some [Text "Invalid budget:"; Text " "; ExnText ex; Text Str.nl].
Proof.
  intros H1 H2. rewrite H1. unfold try_except, lift. unfold bind at 1. rewrite H2.
  rewrite caught_by_exception. eexists. split; [reflexivity|]. split; [split; reflexivity|].
  unfold last_written. simpl. apply last_snoc.
Qed.

Ltac refused :=
  match goal with
  | |- context [print ?t ?s] =>
      let st1 := fresh "st" in let Hu := fresh "Hu" in
      destruct (print_line t s) as (st1 & -> & Hu & _);
      left; split; [frame | left; reflexivity]
  end.

Ltac ended :=
  left; split; [frame | right; split; [reflexivity | simpl; lia]].

(** [update_flow], whatever is typed: the input ends early, or a line is
    refused, or six lines are read, each of the last five blank or well
    formed. *)
Lemma update_flow_cases (st : state) :
  well_formed_state st ->
  (untouched st (snd (update_flow st)) /\
   (fst (update_flow st) = Return tt \/
    (fst (update_flow st) = Raise eof /\ (length (stdin st) < 6)%nat))) \/
  (fst (update_flow st) = Return tt /\
   exists c n s e b a rest os oe ob oa,
     stdin st = c :: n :: s :: e :: b :: a :: rest /\
     typed_date (Str.strip s) os /\ typed_date (Str.strip e) oe /\
     typed_budget (Str.strip b) ob /\ typed_activities (Str.strip a) oa).
Proof.
  intros Hwf. destruct (stdin st) as [|c [|n [|s [|e [|b r6]]]]] eqn:Hin.
  1-5: unfold update_flow.
  - end_of_input Hin st1 Hu1. ended.
  - read_line Hin st1 Hu1 Hin1. end_of_input Hin1 st2 Hu2. ended.
  - read_line Hin st1 Hu1 Hin1. read_line Hin1 st2 Hu2 Hin2.
    end_of_input Hin2 st3 Hu3. ended.
  - read_line Hin st1 Hu1 Hin1. read_line Hin1 st2 Hu2 Hin2. read_line Hin2 st3 Hu3 Hin3.
    destruct (date_line_cases (Str.strip s)) as [[os Hs] | [Hs1 Hs2]].
    + rewrite (date_line_ok _ _ Hs). end_of_input Hin3 st4 Hu4. ended.
    + rewrite Hs1, Hs2. cbn [negb]. refused.
  - read_line Hin st1 Hu1 Hin1. read_line Hin1 st2 Hu2 Hin2. read_line Hin2 st3 Hu3 Hin3.
    destruct (date_line_cases (Str.strip s)) as [[os Hs] | [Hs1 Hs2]].
    2:{ rewrite Hs1, Hs2. cbn [negb]. refused. }
    rewrite (date_line_ok _ _ Hs). read_line Hin3 st4 Hu4 Hin4.
    destruct (date_line_cases (Str.strip e)) as [[oe He] | [He1 He2]].
    + rewrite (date_line_ok _ _ He). end_of_input Hin4 st5 Hu5. ended.
    + rewrite He1, He2. cbn [negb]. refused.
  - destruct (date_line_cases (Str.strip s)) as [[os Hs] | [Hs1 Hs2]].
    2:{ unfold update_flow.
        read_line Hin st1 Hu1 Hin1. read_line Hin1 st2 Hu2 Hin2. read_line Hin2 st3 Hu3 Hin3.
        rewrite Hs1, Hs2. cbn [negb]. refused. }
    destruct (date_line_cases (Str.strip e)) as [[oe He] | [He1 He2]].
    2:{ unfold update_flow.
        read_line Hin st1 Hu1 Hin1. read_line Hin1 st2 Hu2 Hin2. read_line Hin2 st3 Hu3 Hin3.
        rewrite (date_line_ok _ _ Hs). read_line Hin3 st4 Hu4 Hin4.
        rewrite He1, He2. cbn [negb]. refused. }
    destruct (budget_line_cases (Str.strip b)) as [[ob Hb] | [Hb1 [ex Hb2]]].
    2:{ unfold update_flow.
        read_line Hin st1 Hu1 Hin1. read_line Hin1 st2 Hu2 Hin2. read_line Hin2 st3 Hu3 Hin3.
        rewrite (date_line_ok _ _ Hs). read_line Hin3 st4 Hu4 Hin4.
        rewrite (date_line_ok _ _ He). read_line Hin4 st5 Hu5 Hin5.
        destruct (budget_line_bad _ ex st5 Hb1 Hb2) as (st6 & Hrun & Hu6 & _).
        run_with Hrun. left. split; [frame | left; reflexivity]. }
    destruct r6 as [|a r6].
    { unfold update_flow.
      read_line Hin st1 Hu1 Hin1. read_line Hin1 st2 Hu2 Hin2. read_line Hin2 st3 Hu3 Hin3.
      rewrite (date_line_ok _ _ Hs). read_line Hin3 st4 Hu4 Hin4.
      rewrite (date_line_ok _ _ He). read_line Hin4 st5 Hu5 Hin5.
      run_with (budget_line_ok _ _ st5 Hb).
      end_of_input Hin5 st6 Hu6. ended. }
    destruct (acts_line_cases (Str.strip a)) as [[oa Ha] | [Ha1 Ha2]].
    2:{ unfold update_flow.
        read_line Hin st1 Hu1 Hin1. read_line Hin1 st2 Hu2 Hin2. read_line Hin2 st3 Hu3 Hin3.
        rewrite (date_line_ok _ _ Hs). read_line Hin3 st4 Hu4 Hin4.
        rewrite (date_line_ok _ _ He). read_line Hin4 st5 Hu5 Hin5.
        run_with (budget_line_ok _ _ st5 Hb).
        read_line Hin5 st6 Hu6 Hin6. rewrite Ha1. cbn [option_map]. rewrite Ha2. refused. }
    destruct (update_flow_reaches_manager st c n s e b a r6 os oe ob oa Hin Hs He Hb Ha)
      as (st0 & Hrun & Hh0 & Hd0 & _).
    assert (Hwf0 : well_formed_state st0).
    { intros x Hx. rewrite Hd0 in Hx. unfold deref. rewrite Hh0. apply Hwf, Hx. }
    destruct (update_destination_run (Str.strip c) _ st0 Hwf0
                (flow_keywords_valid (or_none (Str.strip n)) os oe ob oa))
      as (st' & Hupd & _).
    right. split.
    + rewrite Hrun. unfold bind at 1. rewrite Hupd. reflexivity.
    + exists c, n, s, e, b, a, r6, os, oe, ob, oa. auto.
Qed.

(** X13.  [update_flow] checks every typed line before it changes
    anything: on any input, either no instance and no part of the
    collection is changed, or six lines were read and each of the last
    five was blank or well formed. *)
Theorem update_flow_checks_first (st : state) :
  well_formed_state st ->
  untouched st (snd (update_flow st)) \/
  exists c n s e b a rest os oe ob oa,
    stdin st = c :: n :: s :: e :: b :: a :: rest /\
    typed_date (Str.strip s) os /\ typed_date (Str.strip e) oe /\
    typed_budget (Str.strip b) ob /\ typed_activities (Str.strip a) oa.
Proof.
  intros Hwf. destruct (update_flow_cases st Hwf) as [[Hu _] | [_ H]].
  - left. exact Hu.
  - right. exact H.
Qed.

Lemma update_flow_checks_first_witness :
  untouched (Sample.typing ["goa"; "Bharat"; "2026-01-05"; ""; "100"; " , "])
            (snd (update_flow (Sample.typing ["goa"; "Bharat"; "2026-01-05"; ""; "100"; " , "]))) \/
  exists c n s e b a rest os oe ob oa,
    stdin (Sample.typing ["goa"; "Bharat"; "2026-01-05"; ""; "100"; " , "])
    = c :: n :: s :: e :: b :: a :: rest /\
    typed_date (Str.strip s) os /\ typed_date (Str.strip e) oe /\
    typed_budget (Str.strip b) ob /\ typed_activities (Str.strip a) oa.
Proof. apply update_flow_checks_first. exact session_well_formed. Defined.



(** A line of commas is not blank and names no activity: it is refused,
    and the country typed before it is not applied. *)
Example update_flow_comma_line :
  last_written (snd (update_flow (Sample.typing ["goa"; "Bharat"; ""; ""; ""; " , "])))
  = Some [Text "Activities cannot be empty."; Text Str.nl] /\
  deref 1%nat (snd (update_flow (Sample.typing ["goa"; "Bharat"; ""; ""; ""; " , "])))
  = deref 1%nat Sample.session.
Proof. split; reflexivity. Qed.

(** Unlike in [add_flow], the end of input at the budget prompt escapes. *)
Example update_flow_eof_at_budget :
  fst (update_flow (Sample.typing ["goa"; ""; ""; ""])) = Raise eof.
Proof. reflexivity. Qed.

(** ** Reading and writing the file *)

(** The comprehension of [load_from_file], whatever the records are: it
    allocates one fresh instance per record, in order, or stops at the
    first record [from_dict] refuses. *)
Lemma from_dicts_cases (items : list value) (st : state) :
  exists r st',
    ItineraryManager.from_dicts items st = (r, st') /\
    destinations st' = destinations st /\ files st' = files st /\
    stdin st' = stdin st /\ stdout st' = stdout st /\
    keeps_instances st st' /\ (next st <= next st')%nat /\
    match r with
    | Return l =>
        l = seq (next st) (length items) /\
        Forall2 (fun a d => Destination.from_dict d = Return (deref a st')) l items
    | Raise e => exists d, d ∈ items /\ Destination.from_dict d = Raise e
    end.
Proof.
  revert st. induction items as [|d r IH]; intros st.
  - exists (Return []), st. split; [reflexivity|].
    do 4 (split; [reflexivity|]). split; [intros a _; reflexivity|].
    split; [lia|]. split; [reflexivity | constructor].
  - cbn [ItineraryManager.from_dicts].
    destruct (Destination.from_dict d) as [o|e] eqn:Hd.
    + rewrite (bind_run _ _ st st o) by reflexivity.
      rewrite (bind_run (alloc o) _ st
                 (mk_state (<[next st := o]> (heap st)) (S (next st)) (destinations st)
                           (files st) (stdin st) (stdout st)) (next st) eq_refl).
      destruct (IH (mk_state (<[next st := o]> (heap st)) (S (next st)) (destinations st)
                             (files st) (stdin st) (stdout st)))
        as (r0 & st' & Hrun & Hd' & Hf & Hi & Ho & Hk & Hn & Hr).
      cbn [destinations files stdin stdout next heap] in Hd', Hf, Hi, Ho, Hn, Hr.
      unfold bind at 1. rewrite Hrun.
      assert (Hkeep : keeps_instances st st').
      { intros a Ha. rewrite Hk by (simpl; lia). simpl. apply lookup_insert_ne. lia. }
      destruct r0 as [l|e].
      * exists (Return (next st :: l)), st'. split; [reflexivity|].
        do 4 (split; [assumption|]). split; [exact Hkeep|]. split; [lia|].
        destruct Hr as [-> HF]. split; [reflexivity|].
        constructor; [|exact HF]. unfold deref. rewrite Hk by (simpl; lia). simpl.
        rewrite lookup_insert_eq. exact Hd.
      * exists (Raise e), st'. split; [reflexivity|].
        do 4 (split; [assumption|]). split; [exact Hkeep|]. split; [lia|].
        destruct Hr as (x & Hx & He). exists x. split; [right; exact Hx | exact He].
    + exists (Raise e), st. split; [reflexivity|].
      do 4 (split; [reflexivity|]). split; [intros a _; reflexivity|].
      split; [lia|]. exists d. split; [left | exact Hd].
Qed.

Lemma exists_file_some (f : string) (st : state) (x : file) :
  files st !! f = Some x ->
  ItineraryManager.exists_file f st = (Return true, st).
Proof.
  intros H. unfold ItineraryManager.exists_file. rewrite H.
  rewrite (bool_decide_eq_true_2 _ (ltac:(eauto) : is_Some (Some x))). reflexivity.
Qed.

(** [load_from_file] on a document whose elements can be listed. *)
Lemma load_from_file_json (f : string) (st st' : state) (v : value) (items : list value)
      (r : outcome (list addr)) :
  files st !! f = Some (Json v) -> iterate v = Return items ->
  ItineraryManager.from_dicts items st = (r, st') ->
  ItineraryManager.load_from_file f st =
  match r with
  | Return l => (Return tt, set_destinations l st')
  | Raise e => (Raise e, st')
  end.
Proof.
  intros Hf Hv Hrun. unfold ItineraryManager.load_from_file.
  rewrite (bind_run _ _ st st true (exists_file_some _ _ _ Hf)). cbn [negb].
  unfold try_except.
  rewrite (bind_run _ _ st st v)
    by (unfold ItineraryManager.json_load; rewrite Hf; reflexivity).
  rewrite (bind_run _ _ st st items) by (unfold lift; rewrite Hv; reflexivity).
  destruct r as [l|e].
  - rewrite (bind_run _ _ st st' l Hrun). reflexivity.
  - unfold bind at 1. rewrite Hrun.
    destruct (from_dicts_cases items st) as (r0 & st0 & Hrun0 & _ & _ & _ & _ & _ & _ & Hr).
    rewrite Hrun in Hrun0. inversion Hrun0. subst r0 st0.
    destruct Hr as (d & _ & Hd). rewrite (from_dict_error _ _ Hd). reflexivity.
Qed.

(** X15.  [load_from_file] never leaves a collection half read, and never
    touches the file or an instance that was there before.  It returns with
    the collection emptied, or with one fresh instance per record of the
    document, each the one [from_dict] builds from its record, in the
    order of the document; or it raises an exception its handler does not
    name, and the collection is the one it was. *)
Theorem load_from_file_all_or_nothing (f : string) (st : state) :
  exists r st',
    ItineraryManager.load_from_file f st = (r, st') /\
    keeps_instances st st' /\ files st' = files st /\
    ((r = Return tt /\
      (destinations st' = [] \/
       exists v items,
         files st !! f = Some (Json v) /\ iterate v = Return items /\
         destinations st' = seq (next st) (length items) /\
         Forall2 (fun a d => Destination.from_dict d = Return (deref a st'))
                 (destinations st') items)) \/
     (exists e, r = Raise e /\ caught_by [OSError; JSONDecodeError] e = false /\
                destinations st' = destinations st)).
Proof.
  destruct (files st !! f) as [x|] eqn:Hf.
  - destruct x as [| |msg|v].
    + destruct (load_from_file_reports f st Unreadable Hf (or_introl eq_refl)) as (e & ->).
      eexists _, _. split; [reflexivity|]. split; [intros a _; reflexivity|].
      split; [reflexivity|]. left. split; [reflexivity | left; reflexivity].
    + exists (Raise (Exn UnicodeDecodeError "invalid start byte")), st. split.
      * unfold ItineraryManager.load_from_file.
        rewrite (bind_run _ _ st st true (exists_file_some _ _ _ Hf)). cbn [negb].
        unfold try_except, bind, ItineraryManager.json_load. rewrite Hf. reflexivity.
      * split; [intros a _; reflexivity|]. split; [reflexivity|]. right.
        eexists. split; [reflexivity|]. split; reflexivity.
    + destruct (load_from_file_reports f st (Malformed msg) Hf
                  (or_intror (ex_intro _ msg eq_refl))) as (e & ->).
      eexists _, _. split; [reflexivity|]. split; [intros a _; reflexivity|].
      split; [reflexivity|]. left. split; [reflexivity | left; reflexivity].
    + destruct (iterate v) as [items|e] eqn:Hv.
      * destruct (from_dicts_cases items st)
          as (r & st' & Hrun & Hd & Hfs & _ & _ & Hk & _ & Hr).
        rewrite (load_from_file_json f st st' v items r Hf Hv Hrun).
        destruct r as [l|e].
        -- eexists _, _. split; [reflexivity|]. split; [exact Hk|]. split; [exact Hfs|].
           left. split; [reflexivity|]. right. exists v, items.
           destruct Hr as [Hl HF]. split; [reflexivity|]. split; [exact Hv|].
           split; [exact Hl | exact HF].
        -- eexists _, _. split; [reflexivity|]. split; [exact Hk|]. split; [exact Hfs|].
           right. exists e. split; [reflexivity|]. destruct Hr as (d & _ & He).
           split; [exact (from_dict_error _ _ He) | exact Hd].
      * exists (Raise e), st. split.
        -- unfold ItineraryManager.load_from_file.
           rewrite (bind_run _ _ st st true (exists_file_some _ _ _ Hf)). cbn [negb].
           unfold try_except.
           rewrite (bind_run _ _ st st v)
             by (unfold ItineraryManager.json_load; rewrite Hf; reflexivity).
           unfold bind, lift. rewrite Hv.
           destruct v; try discriminate Hv; inversion Hv; reflexivity.
        -- split; [intros a _; reflexivity|]. split; [reflexivity|]. right.
           exists e. split; [reflexivity|]. split; [|reflexivity].
           destruct v; try discriminate Hv; inversion Hv; reflexivity.
  - rewrite (load_from_file_missing f st Hf). eexists _, _. split; [reflexivity|].
    split; [intros a _; reflexivity|]. split; [reflexivity|].
    left. split; [reflexivity | left; reflexivity].
Qed.

(** ** Saving, and reading back *)

Lemma dump_error_strings (l : list string) : dump_error (VList (map VStr l)) = None.
Proof. induction l as [|a l IH]; [reflexivity | exact IH]. Qed.

Lemma dump_error_record (d : dest) :
  dump_error (budget d) = None -> dump_error (record d) = None.
Proof.
  intros H. unfold record. cbn [dump_error]. rewrite H.
  pose proof (dump_error_strings (activities d)) as Ha. cbn [dump_error] in Ha.
  rewrite Ha. reflexivity.
Qed.

Lemma dump_error_records (ds : list dest) :
  Forall (fun d => dump_error (budget d) = None) ds ->
  dump_error (VList (map record ds)) = None.
Proof.
  induction 1 as [|d ds Hd _ IH]; [reflexivity|].
  cbn [map]. cbn [dump_error]. cbn [dump_error] in IH.
  rewrite (dump_error_record d Hd). exact IH.
Qed.

Lemma call_to_dict_obj_of (d : dest) :
  ItineraryManager.call_to_dict (obj_of d) = Return (record d).
Proof. reflexivity. Qed.

Lemma from_dict_of_record (d : dest) :
  plain_dates d = true /\ four_digit_years d = true ->
  Destination.from_dict (record d) = Return (obj_of d).
Proof.
  unfold plain_dates. rewrite !andb_true_iff. intros [[[[Hv1 Hn1] Hv2] Hn2] Hy].
  destruct (four_digit_years_le d Hy) as [Hy1 Hy2].
  unfold record, obj_of.
  apply (from_dict_record _ _ _ _ _ _ (start_date d) (end_date d));
    apply strptime_of_strftime; assumption.
Qed.

(** The comprehension of [save_to_file] on storable instances. *)
Lemma to_dicts_storable (st : state) (l : list addr) :
  (forall a, a ∈ l -> storable (deref a st)) ->
  exists ds,
    map obj_of ds = map (fun a => deref a st) l /\
    Forall (fun d => plain_dates d = true /\ four_digit_years d = true) ds /\
    Forall (fun d => dump_error (budget d) = None) ds /\
    ItineraryManager.to_dicts st l = Return (map record ds).
Proof.
  induction l as [|a l IH]; intros H.
  - exists []. repeat split; constructor.
  - destruct IH as (ds & Hm & Hp & Hb & Hrun); [intros b Hb; apply H; right; exact Hb|].
    destruct (H a) as (d & Ho & Hpd & Hyd & Hbd); [left|].
    exists (d :: ds). split; [cbn [map]; rewrite Hm, Ho; reflexivity|].
    split; [constructor; [split|]; assumption|]. split; [constructor; assumption|].
    cbn [ItineraryManager.to_dicts]. rewrite Ho, call_to_dict_obj_of, Hrun. reflexivity.
Qed.

Lemma to_dicts_heap (st st' : state) (l : list addr) :
  heap st' = heap st -> ItineraryManager.to_dicts st' l = ItineraryManager.to_dicts st l.
Proof.
  intros H. induction l as [|a l IH]; [reflexivity|].
  cbn [ItineraryManager.to_dicts]. unfold deref. rewrite H, IH. reflexivity.
Qed.

Lemma open_write_run (f : string) (st : state) :
  writable f st ->
  ItineraryManager.open_write f st
  = (Return tt, set_files (<[f := Malformed "Expecting value"]> (files st)) st).
Proof.
  unfold writable, ItineraryManager.open_write. intros H.
  destruct (files st !! f) as [[]|]; try reflexivity. congruence.
Qed.

Lemma Forall2_same_result (l : list addr) (ds : list dest) (st : state) :
  Forall (fun d => plain_dates d = true /\ four_digit_years d = true) ds ->
  Forall2 (fun a d => Destination.from_dict d = Return (deref a st)) l (map record ds) ->
  map (fun a => deref a st) l = map obj_of ds.
Proof.
  revert l. induction ds as [|d ds IH]; intros l Hp HF.
  - inversion HF. reflexivity.
  - cbn [map] in HF. inversion HF as [|a x l' y Hax HF' E1 E2]. subst.
    inversion Hp as [|? ? Hd Hp']. subst.
    rewrite (from_dict_of_record d Hd) in Hax. inversion Hax as [Heq].
    cbn [map]. rewrite (IH l' Hp' HF'), <- Heq. reflexivity.
Qed.

(** X16.  A collection of storable instances (valid destinations of the
    year 1000 or later, with a budget that can be written), written to a
    path that can be opened, reads back as it was: [save_to_file] returns
    with no instance changed and nothing printed, and [load_from_file] on
    the same path then returns, prints nothing, and leaves a collection of
    as many fresh instances, each equal, attribute by attribute, to the
    one at its place before the save; the instances of before are not
    touched. *)
Theorem save_then_load (f : string) (st : state) :
  writable f st ->
  (forall a, a ∈ destinations st -> storable (deref a st)) ->
  exists st1 st2,
    ItineraryManager.save_to_file f st = (Return tt, st1) /\
    untouched st st1 /\ stdout st1 = stdout st /\
    ItineraryManager.load_from_file f st1 = (Return tt, st2) /\
    contents st2 = contents st /\ stdout st2 = stdout st /\
    destinations st2 = seq (next st) (length (destinations st)) /\
    keeps_instances st st2.
Proof.
  intros Hw Hs.
  destruct (to_dicts_storable st (destinations st) Hs) as (ds & Hm & Hp & Hb & Hrun).
  set (v := VList (map record ds)).
  set (st1 := set_files (<[f := Json v]> (<[f := Malformed "Expecting value"]> (files st))) st).
  assert (Hsave : ItineraryManager.save_to_file f st = (Return tt, st1)).
  { unfold ItineraryManager.save_to_file.
    rewrite (bind_run _ _ st _ tt (open_write_run f st Hw)).
    erewrite bind_run
      by (cbn [destinations set_files]; erewrite (to_dicts_heap st) by reflexivity;
          rewrite Hrun; reflexivity).
    unfold ItineraryManager.json_dump. rewrite (dump_error_records ds Hb). reflexivity. }
  destruct (from_dicts_cases (map record ds) st1)
    as (r & st' & Hload & Hd & _ & _ & Ho & Hk & _ & Hr).
  assert (Hf1 : files st1 !! f = Some (Json v)) by apply lookup_insert_eq.
  pose proof (load_from_file_json f st1 st' v (map record ds) r Hf1 eq_refl Hload) as Hrun2.
  destruct r as [l|e].
  - destruct Hr as [Hl HF]. exists st1, (set_destinations l st').
    split; [exact Hsave|]. split; [split; reflexivity|]. split; [reflexivity|].
    split; [exact Hrun2|]. split; [|split; [exact Ho|split; [|exact Hk]]].
    + unfold contents. cbn [destinations set_destinations].
      change (map (fun a => deref a (set_destinations l st')) l)
        with (map (fun a => deref a st') l).
      rewrite (Forall2_same_result l ds st' Hp HF). exact Hm.
    + cbn [destinations set_destinations]. rewrite Hl, length_map.
      change (next st1) with (next st). f_equal.
      rewrite <- (length_map obj_of ds), Hm, length_map. reflexivity.
  - exfalso. destruct Hr as (x & Hx & He).
    apply list_elem_of_fmap in Hx. destruct Hx as (d & -> & Hd0).
    rewrite (from_dict_of_record d) in He; [discriminate|].
    rewrite Forall_forall in Hp. apply Hp, Hd0.
Qed.

Lemma session_storable (a : addr) :
  a ∈ destinations Sample.session -> storable (deref a Sample.session).
Proof.
  intros Ha. unfold Sample.session in Ha. cbn [destinations] in Ha.
  rewrite !elem_of_cons, elem_of_nil in Ha.
  destruct Ha as [->|[->|[->|[]]]].
  - exists Sample.paris. split; [reflexivity|]. repeat split; vm_compute; reflexivity.
  - exists Sample.goa1. split; [reflexivity|]. repeat split; vm_compute; reflexivity.
  - exists Sample.goa2. split; [reflexivity|]. repeat split; vm_compute; reflexivity.
Qed.

Lemma save_then_load_witness :
  writable "itineraries.json" Sample.session /\
  (forall a, a ∈ destinations Sample.session -> storable (deref a Sample.session)) /\
  exists st1 st2,
    ItineraryManager.save_to_file "itineraries.json" Sample.session = (Return tt, st1) /\
    untouched Sample.session st1 /\ stdout st1 = stdout Sample.session /\
    ItineraryManager.load_from_file "itineraries.json" st1 = (Return tt, st2) /\
    contents st2 = contents Sample.session /\ stdout st2 = stdout Sample.session /\
    destinations st2 = seq (next Sample.session) (length (destinations Sample.session)) /\
    keeps_instances Sample.session st2.
Proof.
  assert (Hw : writable "itineraries.json" Sample.session) by (intros H; discriminate H).
  split; [exact Hw|]. split; [exact session_storable|].
  apply (save_then_load "itineraries.json" Sample.session Hw session_storable).
Defined.

(** Below the year 1000 the file is written and cannot be read back: the
    load raises, and the collection stays the one that was saved. *)
Example save_then_load_year_987 :
  fst (ItineraryManager.save_to_file "itineraries.json" Sample.ancient) = Return tt /\
  fst (ItineraryManager.load_from_file "itineraries.json"
         (snd (ItineraryManager.save_to_file "itineraries.json" Sample.ancient)))
  = Raise (Exn ValueError "time data does not match format: 987-01-02").
Proof. split; reflexivity. Qed.

(** ** A save that fails *)

Lemma load_from_file_after_failure (f msg : string) (st : state) :
  files st !! f = Some (Malformed msg) ->
  exists e st',
    ItineraryManager.load_from_file f st = (Return tt, st') /\
    destinations st' = [] /\
    last_written st' = Some [Text "Error loading file: "; ExnText e; Text Str.nl].
Proof.
  intros Hf.
  destruct (load_from_file_reports f st (Malformed msg) Hf (or_intror (ex_intro _ msg eq_refl)))
    as (e & ->).
  eexists e, _. split; [reflexivity|]. split; [reflexivity|].
  unfold last_written. cbn [stdout]. apply last_snoc.
Qed.

(** X17.  When [save_to_file] raises after it has opened the file, because
    an instance cannot be turned into a record or a value cannot be
    written, what the file held is lost: the file is left empty or
    unfinished, no instance is changed, and [load_from_file] on the same
    path then reports an error and empties the collection. *)
Theorem save_to_file_failure_loses_file (f : string) (st : state) (e : exn) :
  writable f st ->
  fst (ItineraryManager.save_to_file f st) = Raise e ->
  untouched st (snd (ItineraryManager.save_to_file f st)) /\
  (exists msg, files (snd (ItineraryManager.save_to_file f st)) !! f = Some (Malformed msg)) /\
  exists x st2,
    ItineraryManager.load_from_file f (snd (ItineraryManager.save_to_file f st))
    = (Return tt, st2) /\
    destinations st2 = [] /\
    last_written st2 = Some [Text "Error loading file: "; ExnText x; Text Str.nl].
Proof.
  intros Hw. unfold ItineraryManager.save_to_file.
  rewrite (bind_run _ _ st _ tt (open_write_run f st Hw)).
  set (st0 := set_files (<[f := Malformed "Expecting value"]> (files st)) st).
  unfold bind. destruct (ItineraryManager.to_dicts st0 (destinations st0)) as [ds|e0].
  - unfold ItineraryManager.json_dump. destruct (dump_error (VList ds)) as [e1|].
    + intros _. cbn [fst snd]. split; [split; reflexivity|].
      assert (Hf : files (set_files (<[f := Malformed "unfinished document"]> (files st0)) st0)
                   !! f = Some (Malformed "unfinished document")) by apply lookup_insert_eq.
      split; [eexists; exact Hf|].
      destruct (load_from_file_after_failure f _ _ Hf) as (x & st2 & H). exists x, st2. exact H.
    + intros H. discriminate H.
  - intros _. cbn [fst snd]. split; [split; reflexivity|].
    assert (Hf : files st0 !! f = Some (Malformed "Expecting value")) by apply lookup_insert_eq.
    split; [eexists; exact Hf|].
    destruct (load_from_file_after_failure f _ _ Hf) as (x & st2 & H). exists x, st2. exact H.
Qed.

Lemma save_to_file_failure_loses_file_witness :
  writable "itineraries.json" Sample.text_date /\
  fst (ItineraryManager.save_to_file "itineraries.json" Sample.text_date)
  = Raise (no_attribute (VStr "2025-06-01") "strftime") /\
  untouched Sample.text_date
            (snd (ItineraryManager.save_to_file "itineraries.json" Sample.text_date)) /\
  (exists msg,
      files (snd (ItineraryManager.save_to_file "itineraries.json" Sample.text_date))
      !! "itineraries.json" = Some (Malformed msg)) /\
  exists x st2,
    ItineraryManager.load_from_file "itineraries.json"
      (snd (ItineraryManager.save_to_file "itineraries.json" Sample.text_date))
    = (Return tt, st2) /\
    destinations st2 = [] /\
    last_written st2 = Some [Text "Error loading file: "; ExnText x; Text Str.nl].
Proof.
  assert (Hw : writable "itineraries.json" Sample.text_date) by (intros H; discriminate H).
  assert (Hr : fst (ItineraryManager.save_to_file "itineraries.json" Sample.text_date)
               = Raise (no_attribute (VStr "2025-06-01") "strftime")) by reflexivity.
  split; [exact Hw|]. split; [exact Hr|].
  exact (save_to_file_failure_loses_file "itineraries.json" Sample.text_date _ Hw Hr).
Defined.

(** ** What [from_dict] builds *)

Lemma subscript_returns (d v : value) (k : string) :
  subscript d k = Return v -> exists kv, d = VDict kv /\ lookup_key k kv = Some v.
Proof.
  unfold subscript. destruct d as [| | | | | |kv|]; try discriminate.
  destruct (lookup_key k kv) as [x|] eqn:Hk; [|discriminate].
  intros H. inversion H. subst. exists kv. auto.
Qed.

Lemma strptime_of_returns (v w : value) :
  strptime_of v = Return w ->
  exists s dt, v = VStr s /\ w = VDatetime dt /\ Date.strptime s = Some dt.
Proof.
  unfold strptime_of. destruct v as [| | | |s| | |]; try discriminate.
  destruct (Date.strptime s) as [dt|] eqn:Hs; [|discriminate].
  intros H. inversion H. subst. exists s, dt. auto.
Qed.

Lemma valid_year (dt : datetime) : Date.valid dt = true -> 1 <= year dt.
Proof.
  unfold Date.valid, Date.valid_ymd. rewrite !andb_true_iff, !Z.leb_le. intuition.
Qed.

(** X18.  An instance [from_dict] builds has the six attributes and no
    other, whatever else the record holds; city, country, budget and
    activities are taken as they are, of whatever type; its two dates are
    days of the calendar without a time of day.  [to_dict] succeeds on it,
    and [from_dict] of that dictionary builds the same instance again when
    both years are 1000 or later, and raises a [ValueError] when one of
    them is earlier. *)
Theorem from_dict_builds (d : value) (o : obj) :
  Destination.from_dict d = Return o ->
  dom o = list_to_set Destination.fields /\
  (forall k, k ∈ ["city"; "country"; "budget"; "activities"] ->
             subscript d k = Destination.getattr o k) /\
  exists ds de d',
    o !! "start_date" = Some (VDatetime ds) /\ o !! "end_date" = Some (VDatetime de) /\
    Date.valid ds = true /\ Date.no_time ds = true /\
    Date.valid de = true /\ Date.no_time de = true /\
    Destination.to_dict o = Return d' /\
    (1000 <= year ds -> 1000 <= year de -> Destination.from_dict d' = Return o) /\
    (year ds < 1000 \/ year de < 1000 ->
     exists msg, Destination.from_dict d' = Raise (Exn ValueError msg)).
Proof.
  unfold Destination.from_dict. intros H.
  destruct (subscript d "city") as [c|] eqn:Hc; [|discriminate]. cbn [obind] in H.
  destruct (subscript d "country") as [n|] eqn:Hn; [|discriminate]. cbn [obind] in H.
  destruct (subscript d "start_date") as [s|] eqn:Hs; [|discriminate]. cbn [obind] in H.
  destruct (strptime_of s) as [sd|] eqn:Hsd; [|discriminate]. cbn [obind] in H.
  destruct (subscript d "end_date") as [e|] eqn:He; [|discriminate]. cbn [obind] in H.
  destruct (strptime_of e) as [ed|] eqn:Hed; [|discriminate]. cbn [obind] in H.
  destruct (subscript d "budget") as [b|] eqn:Hb; [|discriminate]. cbn [obind] in H.
  destruct (subscript d "activities") as [a|] eqn:Ha; [|discriminate]. cbn [obind] in H.
  inversion H. subst o. clear H.
  destruct (strptime_of_returns _ _ Hsd) as (s0 & ds & -> & -> & Hds).
  destruct (strptime_of_returns _ _ Hed) as (e0 & de & -> & -> & Hde).
  destruct (strptime_valid _ _ Hds) as [Hv1 Hn1].
  destruct (strptime_valid _ _ Hde) as [Hv2 Hn2].
  split; [|split].
  - unfold Destination.init, Destination.fields.
    rewrite !dom_insert_L, dom_empty_L. simpl. set_solver.
  - intros k Hk. rewrite !elem_of_cons, elem_of_nil in Hk.
    destruct Hk as [->|[->|[->|[->|[]]]]]; [rewrite Hc|rewrite Hn|rewrite Hb|rewrite Ha];
      reflexivity.
  - exists ds, de. eexists. split; [reflexivity|]. split; [reflexivity|].
    do 4 (split; [assumption|]). split; [reflexivity|]. split.
    + intros Hy1 Hy2.
      apply (from_dict_record _ _ _ _ _ _ ds de); apply strptime_of_strftime; assumption.
    + intros Hy. pose proof (valid_year ds Hv1). pose proof (valid_year de Hv2).
      change (exists msg,
                 obind (strptime_of (VStr (Date.strftime ds))) (fun start_date =>
                 obind (strptime_of (VStr (Date.strftime de))) (fun end_date =>
                 Return (Destination.init c n start_date end_date b a)))
                 = Raise (Exn ValueError msg)).
      destruct (Z.lt_ge_cases (year ds) 1000) as [Hlt|Hge].
      * rewrite (strptime_of_strftime_short ds) by lia. eexists. reflexivity.
      * rewrite (strptime_of_strftime ds) by (assumption || lia). cbn [obind].
        rewrite (strptime_of_strftime_short de) by lia. eexists. reflexivity.
Qed.

Lemma from_dict_builds_witness :
  Destination.from_dict Sample.oslo_record = Return Sample.oslo /\
  dom Sample.oslo = list_to_set Destination.fields /\
  (forall k, k ∈ ["city"; "country"; "budget"; "activities"] ->
             subscript Sample.oslo_record k = Destination.getattr Sample.oslo k) /\
  exists ds de d',
    Sample.oslo !! "start_date" = Some (VDatetime ds) /\
    Sample.oslo !! "end_date" = Some (VDatetime de) /\
    Date.valid ds = true /\ Date.no_time ds = true /\
    Date.valid de = true /\ Date.no_time de = true /\
    Destination.to_dict Sample.oslo = Return d' /\
    (1000 <= year ds -> 1000 <= year de -> Destination.from_dict d' = Return Sample.oslo) /\
    (year ds < 1000 \/ year de < 1000 ->
     exists msg, Destination.from_dict d' = Raise (Exn ValueError msg)).
Proof.
  assert (H : Destination.from_dict Sample.oslo_record = Return Sample.oslo) by reflexivity.
  split; [exact H|]. exact (from_dict_builds _ _ H).
Defined.

(** A record dated with a padded 987 is accepted, and the instance built
    from it cannot be read back once written. *)
Example from_dict_padded_987 :
  Destination.from_dict (record Sample.rome) = Raise (Exn ValueError
    "time data does not match format: 987-01-02") /\
  Destination.from_dict
    (VDict [("city", VStr "Rome"); ("country", VStr "Italy");
            ("start_date", VStr "0987-01-02"); ("end_date", VStr "0987-01-09");
            ("budget", VFloat Sample.two_thousand); ("activities", VList [VStr "forum"])])
  = Return (obj_of Sample.rome).
Proof. split; reflexivity. Qed.

(** ** Searching *)

Lemma contains_self (s : string) : Str.contains s s = true.
Proof.
  apply contains_occurrence. exists EmptyString, EmptyString.
  rewrite append_nil. induction s as [|a s IH]; [reflexivity|].
  rewrite append_cons, <- IH. reflexivity.
Qed.

(** X19.  On a collection whose entries have the six attributes at their
    types, a city given as the search term, in any case of its letters,
    finds every entry of that city: whatever [remove_destination] would
    remove for a name, [search_destination] finds for it.  The search
    changes nothing. *)
Theorem search_destination_finds_city (t : string) (st : state) :
  typed_state st ->
  exists res,
    ItineraryManager.search_destination t st = (Return res, st) /\
    forall a d, a ∈ destinations st -> view (deref a st) = Some d ->
                same_city t d -> a ∈ res.
Proof.
  intros Ht. exists (List.filter (hitb t st) (destinations st)). split.
  - unfold ItineraryManager.search_destination, bind, get_destinations.
    rewrite (hits_filter t st (destinations st) Ht). reflexivity.
  - intros a d Ha Hview Hc. apply list_elem_of_In, filter_In.
    split; [apply list_elem_of_In; exact Ha|].
    unfold hitb. rewrite Hview. unfold mentionsb. unfold same_city in Hc.
    rewrite Hc, contains_self. reflexivity.
Qed.

Lemma search_destination_finds_city_witness :
  typed_state Sample.session /\
  exists res,
    ItineraryManager.search_destination "gOa" Sample.session = (Return res, Sample.session) /\
    forall a d, a ∈ destinations Sample.session -> view (deref a Sample.session) = Some d ->
                same_city "gOa" d -> a ∈ res.
Proof.
  split; [exact session_typed|].
  exact (search_destination_finds_city "gOa" _ session_typed).
Defined.
